(** * HyperWA Telegram bridge: topic registry, retrying sender, transcoder.

    A shallow embedding of [src/telegram.js].  The module-level variables of
    the JavaScript file become the fields of a [World] record; every
    [async function] becomes a computation in a state-and-exception monad
    over that record, with [await] read as sequential composition; calls
    that leave the process (Telegram Bot API, WhatsApp socket, database,
    [ffmpeg], the clock) are answered by an arbitrary environment [Env] and
    recorded in a trace. *)

From Stdlib Require Import ZArith NArith String Ascii List Bool Lia.
From stdpp Require Import base option list gmap strings pretty.

Local Open Scope Z_scope.
Local Open Scope string_scope.
Local Open Scope list_scope.

(** ** JavaScript string and truthiness helpers *)

Module JS.

(** [Boolean(s)] for a string: only the empty string is falsy. *)
Definition truthy_string (s : string) : bool :=
  match s with EmptyString => false | String _ _ => true end.

(** [Boolean(n)] for a number: zero is falsy. *)
Definition truthy_number (n : Z) : bool := negb (Z.eqb n 0).

(** [Boolean(x)] for a value that may be [undefined]/[null]. *)
Definition truthy_opt {A : Type} (truthy : A -> bool) (x : option A) : bool :=
  match x with Some a => truthy a | None => false end.

(** [s.startsWith(p)] *)
Definition startsWith (p s : string) : bool := String.prefix p s.

(** [s.includes(sub)]: [sub] occurs somewhere in [s]. *)
Fixpoint includes (sub s : string) : bool :=
  String.prefix sub s
  || match s with
     | EmptyString => false
     | String _ rest => includes sub rest
     end.

(** [s.slice(-n)]: the last [n] characters, all of [s] when it is shorter. *)
Definition slice_last (n : nat) (s : string) : string :=
  let len := String.length s in
  String.substring (len - n) (len - (len - n)) s.

(** [s.replace(pat, "")] with a string pattern: the first occurrence only. *)
Fixpoint remove_first (pat s : string) : string :=
  if String.prefix pat s
  then String.substring (String.length pat) (String.length s - String.length pat) s
  else match s with
       | EmptyString => EmptyString
       | String c rest => String c (remove_first pat rest)
       end.

(** [s.split(sep)] for a one-character separator. *)
Fixpoint split (sep : ascii) (s : string) : list string :=
  match s with
  | EmptyString => [EmptyString]
  | String c rest =>
      if Ascii.eqb c sep then EmptyString :: split sep rest
      else match split sep rest with
           | [] => [String c EmptyString]
           | hd :: tl => String c hd :: tl
           end
  end.

(** [s.charAt(0)]: the first UTF-16 code unit of [s].  A string is held
    as its UTF-8 bytes, so the unit is the first character when that takes
    up to three bytes.  A character of four bytes is a surrogate pair in
    JavaScript and [charAt(0)] is its first half; a lone half is held as
    the three bytes that generalized UTF-8 gives it.  On bytes that encode
    no string the first byte is returned, or all of a cut-off sequence. *)
Definition charAt0 (s : string) : string :=
  match s with
  | EmptyString => EmptyString
  | String b0 rest =>
      let n0 := N_of_ascii b0 in
      if (n0 <? 192)%N then String b0 EmptyString
      else if (n0 <? 224)%N then String b0 (String.substring 0 1 rest)
      else if (n0 <? 240)%N then String b0 (String.substring 0 2 rest)
      else
        match rest with
        | String b1 (String b2 (String b3 _)) =>
            let codePoint :=
              ((n0 mod 8) * 262144 + (N_of_ascii b1 mod 64) * 4096
               + (N_of_ascii b2 mod 64) * 64 + N_of_ascii b3 mod 64)%N in
            let highSurrogate := (55296 + (codePoint - 65536) / 1024)%N in
            String (ascii_of_N 237)
              (String (ascii_of_N (128 + (highSurrogate / 64) mod 64))
                 (String (ascii_of_N (128 + highSurrogate mod 64)) EmptyString))
        | _ => String b0 rest
        end
  end.

(** [a || b] on strings. *)
Definition or_string (a : option string) (b : string) : string :=
  match a with
  | Some s => if truthy_string s then s else b
  | None => b
  end.

End JS.

(** ** Data *)

Definition Buffer := list Byte.byte.

(** A thrown [Error]; only its [message] is ever inspected. *)
Record Error := mkError { message : string }.

(** The options object handed to [telegramBot.send*]. *)
Record SendOptions := mkOptions {
  parse_mode : option string;
  disable_web_page_preview : bool;
  message_thread_id : option Z;
  reply_to_message_id : option Z;
  caption : option string
}.

Definition set_message_thread_id (t : option Z) (o : SendOptions) : SendOptions :=
  {| parse_mode := parse_mode o;
     disable_web_page_preview := disable_web_page_preview o;
     message_thread_id := t;
     reply_to_message_id := reply_to_message_id o;
     caption := caption o |}.

(** Payloads of [global.bot.sendMessage] used by the modelled code. *)
Inductive WaPayload :=
| WaReact (text remoteJid id : string).

(** Calls that leave the process. *)
Inductive Call :=
| CreateForumTopic (chatId : Z) (name : string) (icon_color : Z)
| SendMessage (chatId : Z) (text : string) (options : SendOptions)
| SendSticker (chatId : Z) (sticker : Buffer) (options : SendOptions)
| SendPhoto (chatId : Z) (photo : Buffer) (options : SendOptions)
| SendAnimation (chatId : Z) (animation : Buffer) (options : SendOptions)
| PinChatMessage (chatId : Z) (messageId : Z) (disable_notification : bool)
| SetMessageReaction (chatId : Z) (messageId : Z) (emoji : string)
| SaveTelegramTopic (identifier : string) (threadId : Z) (displayName : string)
| SaveUser (whatsapp_id : string) (name : option string) (phone : string)
| SaveMessage (message_id : option string) (sender chat content message_type : string)
| FetchStatus (jid : string)
| ProfilePictureUrl (jid : string)
| WhatsAppSend (jid : string) (payload : WaPayload)
| ExecSync (command : string)
| DateNow.

(** What a promise settles to.  For [createForumTopic] the carried value is
    [result.message_thread_id], for the [send*] calls it is
    [result.message_id]; [None] stands for a missing field or a [null]
    result, which the code does not tell apart ([result && result.id]). *)
Inductive Reply :=
| Resolved (id : option Z)
| Rejected (e : Error).

(** The environment.  Every answer may depend on the call and on the
    number of calls made before it. *)
Record Env := mkEnv {
  reply : nat -> Call -> Reply;
  fetched : nat -> Call -> option string;
  ffmpeg : nat -> string -> gmap string Buffer -> option Error * gmap string Buffer;
  now : nat -> N;
  mkdir : nat -> option Error
}.

(** Module state of [telegram.js], the configuration it reads, the scratch
    directory, and the trace of external calls. *)
Record World := mkWorld {
  (* config.telegram *)
  createTopics : bool;
  groupId : Z;
  (* module variables *)
  telegramBot : bool;
  whatsappBot : bool;
  topicMapping : gmap string Z;
  reverseTopicMapping : gmap Z string;
  statusTopicId : option Z;
  callTopicId : option Z;
  contactsCache : gmap string string;
  pinnedMessages : gmap Z Z;
  statusMessageMapping : gmap Z string;
  chatMessageMapping : gmap Z string;
  ffmpegAvailable : bool;
  (* the temp directory: whether it exists, and its files by name *)
  tempDir : bool;
  files : gmap string Buffer;
  (* outside world *)
  env : Env;
  calls : list Call
}.

Definition set_topicMapping (f : gmap string Z -> gmap string Z) (w : World) : World :=
  mkWorld (createTopics w) (groupId w) (telegramBot w) (whatsappBot w)
    (f (topicMapping w)) (reverseTopicMapping w) (statusTopicId w) (callTopicId w)
    (contactsCache w) (pinnedMessages w) (statusMessageMapping w) (chatMessageMapping w)
    (ffmpegAvailable w) (tempDir w) (files w) (env w) (calls w).

Definition set_reverseTopicMapping (f : gmap Z string -> gmap Z string) (w : World) : World :=
  mkWorld (createTopics w) (groupId w) (telegramBot w) (whatsappBot w)
    (topicMapping w) (f (reverseTopicMapping w)) (statusTopicId w) (callTopicId w)
    (contactsCache w) (pinnedMessages w) (statusMessageMapping w) (chatMessageMapping w)
    (ffmpegAvailable w) (tempDir w) (files w) (env w) (calls w).

Definition set_contactsCache (f : gmap string string -> gmap string string) (w : World) : World :=
  mkWorld (createTopics w) (groupId w) (telegramBot w) (whatsappBot w)
    (topicMapping w) (reverseTopicMapping w) (statusTopicId w) (callTopicId w)
    (f (contactsCache w)) (pinnedMessages w) (statusMessageMapping w) (chatMessageMapping w)
    (ffmpegAvailable w) (tempDir w) (files w) (env w) (calls w).

Definition set_pinnedMessages (f : gmap Z Z -> gmap Z Z) (w : World) : World :=
  mkWorld (createTopics w) (groupId w) (telegramBot w) (whatsappBot w)
    (topicMapping w) (reverseTopicMapping w) (statusTopicId w) (callTopicId w)
    (contactsCache w) (f (pinnedMessages w)) (statusMessageMapping w) (chatMessageMapping w)
    (ffmpegAvailable w) (tempDir w) (files w) (env w) (calls w).

Definition set_chatMessageMapping (f : gmap Z string -> gmap Z string) (w : World) : World :=
  mkWorld (createTopics w) (groupId w) (telegramBot w) (whatsappBot w)
    (topicMapping w) (reverseTopicMapping w) (statusTopicId w) (callTopicId w)
    (contactsCache w) (pinnedMessages w) (statusMessageMapping w) (f (chatMessageMapping w))
    (ffmpegAvailable w) (tempDir w) (files w) (env w) (calls w).

Definition set_tempDir (b : bool) (w : World) : World :=
  mkWorld (createTopics w) (groupId w) (telegramBot w) (whatsappBot w)
    (topicMapping w) (reverseTopicMapping w) (statusTopicId w) (callTopicId w)
    (contactsCache w) (pinnedMessages w) (statusMessageMapping w) (chatMessageMapping w)
    (ffmpegAvailable w) b (files w) (env w) (calls w).

Definition set_files (f : gmap string Buffer -> gmap string Buffer) (w : World) : World :=
  mkWorld (createTopics w) (groupId w) (telegramBot w) (whatsappBot w)
    (topicMapping w) (reverseTopicMapping w) (statusTopicId w) (callTopicId w)
    (contactsCache w) (pinnedMessages w) (statusMessageMapping w) (chatMessageMapping w)
    (ffmpegAvailable w) (tempDir w) (f (files w)) (env w) (calls w).

Definition log_call (c : Call) (w : World) : World :=
  mkWorld (createTopics w) (groupId w) (telegramBot w) (whatsappBot w)
    (topicMapping w) (reverseTopicMapping w) (statusTopicId w) (callTopicId w)
    (contactsCache w) (pinnedMessages w) (statusMessageMapping w) (chatMessageMapping w)
    (ffmpegAvailable w) (tempDir w) (files w) (env w) (calls w ++ [c]).

(** ** The monad: state passing with exceptions *)

Inductive Completion (A : Type) :=
| Normal (a : A)
| Thrown (e : Error).
Arguments Normal {A} a.
Arguments Thrown {A} e.

Definition M (A : Type) : Type := World -> Completion A * World.

Definition ret {A} (a : A) : M A := fun w => (Normal a, w).

Definition throw {A} (e : Error) : M A := fun w => (Thrown e, w).

Definition bind {A B} (m : M A) (k : A -> M B) : M B :=
  fun w => match m w with
           | (Normal a, w') => k a w'
           | (Thrown e, w') => (Thrown e, w')
           end.

(** [try { body } catch (error) { handler }]: what [body] did to the state
    before throwing stays done. *)
Definition try_catch {A} (body : M A) (handler : Error -> M A) : M A :=
  fun w => match body w with
           | (Normal a, w') => (Normal a, w')
           | (Thrown e, w') => handler e w'
           end.

Definition get : M World := fun w => (Normal w, w).
Definition modify (f : World -> World) : M unit := fun w => (Normal tt, f w).

Declare Scope js_scope.
Delimit Scope js_scope with js.
Notation "x <- c1 ;; c2" := (bind c1 (fun x => c2))
  (at level 100, c1 at next level, right associativity) : js_scope.
Notation "c1 ;;; c2" := (bind c1 (fun _ => c2))
  (at level 100, right associativity) : js_scope.
Local Open Scope js_scope.

(** An awaited call to the outside: logged, and settled by the environment. *)
Definition await (c : Call) : M (option Z) :=
  fun w => match reply (env w) (length (calls w)) c with
           | Resolved id => (Normal id, log_call c w)
           | Rejected e => (Thrown e, log_call c w)
           end.

(** [await p.catch(() => null)] for the two WhatsApp profile queries. *)
Definition await_or_null (c : Call) : M (option string) :=
  fun w => (Normal (fetched (env w) (length (calls w)) c), log_call c w).

(** [Date.now()] *)
Definition Date_now : M N :=
  fun w => (Normal (now (env w) (length (calls w))), log_call DateNow w).

(** ** Contact names and the pinned info message (lines 192-335) *)

Definition nl : string := String (Ascii.ascii_of_nat 10) EmptyString.

Definition truthy_or_null (s : option string) : option string :=
  match s with
  | Some v => if JS.truthy_string v then Some v else None
  | None => None
  end.

(** [getContactName]: nothing in its [try] block can throw. *)
Definition getContactName (whatsappNumber fallbackName : string) : M string :=
  w <- get ;;
  match truthy_or_null (contactsCache w !! whatsappNumber) with
  | Some cached => ret cached
  | None =>
      let finalName := JS.or_string (Some fallbackName) ("Contact " +:+ whatsappNumber) in
      modify (set_contactsCache <[whatsappNumber := finalName]>) ;;;
      ret finalName
  end.

Record UserInfo := mkUserInfo {
  about : option string;
  profilePicture : option string
}.

(** [getUserInfo]: both queries swallow their own failures. *)
Definition getUserInfo (whatsappNumber : string) : M (option UserInfo) :=
  w <- get ;;
  if negb (whatsappBot w) then ret None
  else
    let jid := whatsappNumber +:+ "@s.whatsapp.net" in
    status <- await_or_null (FetchStatus jid) ;;
    profilePic <- await_or_null (ProfilePictureUrl jid) ;;
    ret (Some (mkUserInfo (truthy_or_null status) (truthy_or_null profilePic))).

Definition infoOptions (topicId : Z) : SendOptions :=
  mkOptions (Some "Markdown") true (Some topicId) None None.

Definition userInfoText (contactName whatsappNumber : string) (userInfo : option UserInfo) : string :=
  "👤 *Contact Information*" +:+ nl +:+ nl
  +:+ "📝 *Name:* " +:+ contactName +:+ nl
  +:+ "📞 *WhatsApp:* +" +:+ whatsappNumber +:+ nl
  +:+ match userInfo with
      | Some {| about := Some a |} => "💬 *About:* " +:+ a +:+ nl
      | _ => ""
      end
  +:+ nl +:+ "🔄 *Reply to this topic to send messages to WhatsApp*".

Definition set_pinned (topicId messageId : Z) : M unit :=
  modify (set_pinnedMessages <[topicId := messageId]>).

Definition createAndPinUserInfo (topicId : Z) (contactName whatsappNumber : string) : M unit :=
  try_catch
    (w <- get ;;
     if JS.truthy_opt JS.truthy_number (pinnedMessages w !! topicId) then ret tt
     else
       userInfo <- getUserInfo whatsappNumber ;;
       infoMessage <- await (SendMessage (groupId w)
                               (userInfoText contactName whatsappNumber userInfo)
                               (infoOptions topicId)) ;;
       match infoMessage with
       | Some message_id =>
           if JS.truthy_number message_id then
             try_catch
               (await (PinChatMessage (groupId w) message_id true) ;;;
                set_pinned topicId message_id)
               (fun pinError =>
                  try_catch
                    (await (PinChatMessage (groupId w) message_id false) ;;;
                     set_pinned topicId message_id)
                    (fun altPinError => ret tt))
           else ret tt
       | None => ret tt
       end)
    (fun error => ret tt).

Definition groupInfoText (groupName groupIdentifier : string) : string :=
  "🏷️ *Group Information*" +:+ nl +:+ nl
  +:+ "📝 *Name:* " +:+ JS.remove_first "🏷️ " groupName +:+ nl
  +:+ "🆔 *Group ID:* " +:+ JS.remove_first "group_" groupIdentifier +:+ nl
  +:+ nl +:+ "🔄 *Reply to this topic to send messages to the WhatsApp group*"
  +:+ nl +:+ "👥 *All group members will see your message*"
  +:+ nl +:+ "💬 *Reply to a message to quote it on WhatsApp*".

Definition createAndPinGroupInfo (topicId : Z) (groupName groupIdentifier : string) : M unit :=
  try_catch
    (w <- get ;;
     if JS.truthy_opt JS.truthy_number (pinnedMessages w !! topicId) then ret tt
     else
       infoMessage <- await (SendMessage (groupId w)
                               (groupInfoText groupName groupIdentifier)
                               (infoOptions topicId)) ;;
       match infoMessage with
       | Some message_id =>
           if JS.truthy_number message_id then
             try_catch
               (await (PinChatMessage (groupId w) message_id true) ;;;
                set_pinned topicId message_id)
               (fun pinError => ret tt)
           else ret tt
       | None => ret tt
       end)
    (fun error => ret tt).

(** ** The topic registry: [getOrCreateTopic] (lines 981-1059) *)

Definition icon_color_for (identifier : string) : Z :=
  if JS.startsWith "group_" identifier then 0x00ff00%Z else 0x6fb9f0%Z.

(** [topicMapping[identifier] = id; reverseTopicMapping[id] = identifier] *)
Definition set_mapping (identifier : string) (thread : Z) : M unit :=
  modify (fun w => set_reverseTopicMapping <[thread := identifier]>
                     (set_topicMapping <[identifier := thread]> w)).

(** The name of the first creation request. *)
Definition topicNameFor (identifier displayName : string) : M string :=
  if JS.startsWith "group_" identifier then ret displayName
  else
    cleanContactName <- getContactName identifier displayName ;;
    ret (cleanContactName +:+ " (+" +:+ identifier +:+ ")").

(** The name of the retried request, with the [timestamp] suffix. *)
Definition retryTopicNameFor (identifier displayName timestamp : string) : M string :=
  if JS.startsWith "group_" identifier then ret (displayName +:+ " (" +:+ timestamp +:+ ")")
  else
    cleanContactName <- getContactName identifier displayName ;;
    ret (cleanContactName +:+ " (+" +:+ identifier +:+ ") " +:+ timestamp).

Definition isDuplicateName (error : Error) : bool :=
  JS.includes "duplicate" (message error) || JS.includes "already exists" (message error).

(** Lines 1028-1054, the inner [try] of the [catch] block: one more request
    under a name that ends in the last four digits of the clock.  It has no
    info message, and any error inside it is logged and dropped. *)
Definition retryWithUniqueName (identifier displayName : string) : M (option Z) :=
  try_catch
    (w <- get ;;
     t <- Date_now ;;
     let timestamp := JS.slice_last 4 (pretty t) in
     topicName <- retryTopicNameFor identifier displayName timestamp ;;
     result <- await (CreateForumTopic (groupId w) topicName (icon_color_for identifier)) ;;
     if JS.truthy_opt JS.truthy_number result then
       match result with
       | Some thread =>
           set_mapping identifier thread ;;;
           await (SaveTelegramTopic identifier thread displayName) ;;;
           ret (Some thread)
       | None => ret None
       end
     else ret None)
    (fun retryError => ret None).

(** The result is the thread id, or [None] for JavaScript's [null]. The
    bodies of the [try] blocks yield [None] when control falls out of them,
    which is when the function reaches its final [return null]. *)
Definition getOrCreateTopic (identifier displayName : string) : M (option Z) :=
  w <- get ;;
  if negb (createTopics w) || negb (telegramBot w) then ret None
  else if JS.truthy_opt JS.truthy_number (topicMapping w !! identifier)
  then ret (topicMapping w !! identifier)
  else
    try_catch
      (topicName <- topicNameFor identifier displayName ;;
       result <- await (CreateForumTopic (groupId w) topicName (icon_color_for identifier)) ;;
       if JS.truthy_opt JS.truthy_number result then
         match result with
         | Some thread =>
             set_mapping identifier thread ;;;
             await (SaveTelegramTopic identifier thread displayName) ;;;
             (if JS.startsWith "group_" identifier
              then createAndPinGroupInfo thread displayName identifier
              else createAndPinUserInfo thread displayName identifier) ;;;
             ret (Some thread)
         | None => ret None
         end
       else ret None)
      (fun error =>
         if isDuplicateName error
         then retryWithUniqueName identifier displayName
         else ret None).

(** ** The retrying sender: [sendToTelegramWithRetry] (lines 418-457) *)

Definition isThreadMissing (error : Error) : bool :=
  JS.includes "thread" (message error)
  || JS.includes "topic" (message error)
  || JS.includes "not found" (message error).

(** [identifier && displayName && options.message_thread_id]; both names
    default to [null] when the caller leaves them out. *)
Definition canRecreate (identifier displayName : option string) (options : SendOptions) : bool :=
  JS.truthy_opt JS.truthy_string identifier
  && JS.truthy_opt JS.truthy_string displayName
  && JS.truthy_opt JS.truthy_number (message_thread_id options).

(** [delete topicMapping[identifier]; delete reverseTopicMapping[thread]] *)
Definition removeOldMapping (identifier : string) (thread : Z) (w : World) : World :=
  set_reverseTopicMapping (delete thread) (set_topicMapping (delete identifier) w).

(** The function mutates the caller's [options] object; its final value is
    returned next to the completion, so that it is known on every exit. *)
Definition sendToTelegramWithRetry (chatId : Z) (message : string) (options : SendOptions)
    (identifier displayName : option string)
  : World -> Completion (option Z) * SendOptions * World :=
  fun w =>
    match await (SendMessage chatId message options) w with
    | (Normal sent, w1) => (Normal sent, options, w1)
    | (Thrown error, w1) =>
        match identifier, displayName, message_thread_id options with
        | Some ident, Some name, Some thread =>
            if canRecreate identifier displayName options && isThreadMissing error then
              match getOrCreateTopic ident name (removeOldMapping ident thread w1) with
              | (Normal newTopicId, w2) =>
                  if JS.truthy_opt JS.truthy_number newTopicId then
                    let options' := set_message_thread_id newTopicId options in
                    match await (SendMessage chatId message options') w2 with
                    | (Normal sent, w3) => (Normal sent, options', w3)
                    | (Thrown retryError, w3) => (Thrown retryError, options', w3)
                    end
                  else (Thrown error, options, w2)
              | (Thrown e, w2) => (Thrown e, options, w2)
              end
            else (Thrown error, options, w1)
        | _, _, _ => (Thrown error, options, w1)
        end
    end.

(** ** The scratch directory and the external transcoder (lines 20-151)

    Files are keyed by their path.  Creating the scratch directory may be
    refused, as the environment decides.  Every other file operation fails
    only for the reason its arguments give it: reading or removing a path
    that holds no file, writing into a directory that does not exist.
    [ffmpeg] may rewrite the directory's files in any way and may exit with
    an error. *)

Definition dq : string := String (Ascii.ascii_of_nat 34) EmptyString.

(** [path.join(__dirname, "..", "temp")] *)
Definition tempDirPath : string := "temp".

Definition path_join (dir name : string) : string := dir +:+ "/" +:+ name.

Definition ENOENT (path : string) : Error :=
  mkError ("ENOENT: no such file or directory, " +:+ path).

Definition existsSync (path : string) : M bool :=
  w <- get ;;
  match files w !! path with
  | Some _ => ret true
  | None => ret false
  end.

Definition writeFileSync (path : string) (data : Buffer) : M unit :=
  w <- get ;;
  if tempDir w then modify (set_files <[path := data]>) else throw (ENOENT path).

Definition readFileSync (path : string) : M Buffer :=
  w <- get ;;
  match files w !! path with
  | Some data => ret data
  | None => throw (ENOENT path)
  end.

Definition unlinkSync (path : string) : M unit :=
  w <- get ;;
  match files w !! path with
  | Some _ => modify (set_files (delete path))
  | None => throw (ENOENT path)
  end.

(** [fs.mkdirSync(tempDir, { recursive: true })] *)
Definition mkdirSync : M unit :=
  w <- get ;;
  match mkdir (env w) (length (calls w)) with
  | None => modify (set_tempDir true)
  | Some e => throw e
  end.

(** [if (!fs.existsSync(tempDir)) fs.mkdirSync(tempDir, { recursive: true })];
    in each conversion this stands in front of the [try] block. *)
Definition ensureTempDir : M unit :=
  w <- get ;;
  if negb (tempDir w) then mkdirSync else ret tt.

(** [execSync(command, { stdio: "ignore" })] *)
Definition execSync (command : string) : M unit :=
  fun w =>
    let r := ffmpeg (env w) (length (calls w)) command (files w) in
    let w' := log_call (ExecSync command) (set_files (fun _ => snd r) w) in
    match fst r with
    | None => (Normal tt, w')
    | Some e => (Thrown e, w')
    end.

(** [if (fs.existsSync(f)) fs.unlinkSync(f)] *)
Definition unlinkIfExists (path : string) : M unit :=
  present <- existsSync path ;;
  if present then unlinkSync path else ret tt.

Definition stickerFilter : string :=
  "scale=512:512:force_original_aspect_ratio=decrease,pad=512:512:(ow-iw)/2:(oh-ih)/2".

Definition mp4Command (inputFile outputFile : string) : string :=
  "ffmpeg -i " +:+ dq +:+ inputFile +:+ dq +:+ " -vf " +:+ dq +:+ stickerFilter +:+ dq
  +:+ " -c:v libx264 -pix_fmt yuv420p -t 3 -r 30 " +:+ dq +:+ outputFile +:+ dq.

Definition webpCommand (isAnimated : bool) (inputFile outputFile : string) : string :=
  if isAnimated then
    "ffmpeg -i " +:+ dq +:+ inputFile +:+ dq +:+ " -vf " +:+ dq +:+ stickerFilter +:+ dq
    +:+ " -c:v libwebp -quality 80 -preset default -loop 0 -t 3 " +:+ dq +:+ outputFile +:+ dq
  else
    "ffmpeg -i " +:+ dq +:+ inputFile +:+ dq +:+ " -vf " +:+ dq +:+ stickerFilter +:+ dq
    +:+ " " +:+ dq +:+ outputFile +:+ dq.

Definition videoNoteCommand (inputFile outputFile : string) : string :=
  "ffmpeg -i " +:+ dq +:+ inputFile +:+ dq
  +:+ " -vf " +:+ dq +:+ "scale=240:240:force_original_aspect_ratio=increase,crop=240:240" +:+ dq
  +:+ " -c:v libx264 -pix_fmt yuv420p -r 30 -t 60 " +:+ dq +:+ outputFile +:+ dq.

Definition scratchInput (t : N) (ext : string) : string :=
  path_join tempDirPath ("input_" +:+ pretty t +:+ "." +:+ ext).

Definition scratchOutput (t : N) (ext : string) : string :=
  path_join tempDirPath ("output_" +:+ pretty t +:+ "." +:+ ext).

Definition ffmpegMissing : Error :=
  mkError "FFmpeg not available for animated sticker conversion".

Definition convertAnimatedWebPToMP4 (webpBuffer : Buffer) : M Buffer :=
  w <- get ;;
  if negb (ffmpegAvailable w) then throw ffmpegMissing
  else
    ensureTempDir ;;;
    t1 <- Date_now ;;
    let inputFile := scratchInput t1 "webp" in
    t2 <- Date_now ;;
    let outputFile := scratchOutput t2 "mp4" in
    try_catch
      (writeFileSync inputFile webpBuffer ;;;
       execSync (mp4Command inputFile outputFile) ;;;
       mp4Buffer <- readFileSync outputFile ;;
       unlinkSync inputFile ;;;
       unlinkSync outputFile ;;;
       ret mp4Buffer)
      (fun error =>
         unlinkIfExists inputFile ;;;
         unlinkIfExists outputFile ;;;
         throw error).

Definition convertTelegramStickerToWebP (stickerBuffer : Buffer) (isAnimated : bool) : M Buffer :=
  w <- get ;;
  if negb (ffmpegAvailable w) && isAnimated then throw ffmpegMissing
  else
    ensureTempDir ;;;
    t1 <- Date_now ;;
    let inputFile := scratchInput t1 (if isAnimated then "webm" else "webp") in
    t2 <- Date_now ;;
    let outputFile := scratchOutput t2 "webp" in
    try_catch
      (writeFileSync inputFile stickerBuffer ;;;
       execSync (webpCommand isAnimated inputFile outputFile) ;;;
       webpBuffer <- readFileSync outputFile ;;
       unlinkSync inputFile ;;;
       unlinkSync outputFile ;;;
       ret webpBuffer)
      (fun error =>
         unlinkIfExists inputFile ;;;
         unlinkIfExists outputFile ;;;
         throw error).

Definition convertToVideoNote (videoBuffer : Buffer) : M Buffer :=
  w <- get ;;
  if negb (ffmpegAvailable w) then ret videoBuffer
  else
    ensureTempDir ;;;
    t1 <- Date_now ;;
    let inputFile := scratchInput t1 "mp4" in
    t2 <- Date_now ;;
    let outputFile := scratchOutput t2 "mp4" in
    try_catch
      (writeFileSync inputFile videoBuffer ;;;
       execSync (videoNoteCommand inputFile outputFile) ;;;
       videoNoteBuffer <- readFileSync outputFile ;;
       unlinkSync inputFile ;;;
       unlinkSync outputFile ;;;
       ret videoNoteBuffer)
      (fun error =>
         unlinkIfExists inputFile ;;;
         unlinkIfExists outputFile ;;;
         ret videoBuffer).

(** ** Forwarding from WhatsApp: identifier and sticker branch of
    [forwardToTelegram] (lines 1268-1274 and 1536-1571) *)

Record StickerInfo := mkSticker {
  isAnimated : option bool;
  animated : option bool
}.

(** The fields of the inbound WhatsApp message [m] that the modelled code
    reads.  [m_sender_user] is [m.sender.user], absent when [m.sender] is a
    plain string. *)
Record WaMessage := mkWaMessage {
  m_id : option string;
  m_chat : string;
  m_sender : string;
  m_sender_user : option string;
  m_name : string;
  m_subject : option string;           (* [m.group?.subject] *)
  m_stickerMessage : option StickerInfo;
  m_contactName : option string        (* [m.message.contactMessage.displayName] *)
}.

Definition isDigit (c : ascii) : bool :=
  (Nat.leb 48 (nat_of_ascii c)) && (Nat.leb (nat_of_ascii c) 57).

Definition isPlus (c : ascii) : bool := Ascii.eqb c "+"%char.

(** [s.replace(/[^\d+]/g, "")]: every character that is neither a decimal
    digit nor ['+'] is dropped. *)
Fixpoint keepDigitsAndPlus (s : string) : string :=
  match s with
  | EmptyString => EmptyString
  | String c rest =>
      if isDigit c || isPlus c then String c (keepDigitsAndPlus rest)
      else keepDigitsAndPlus rest
  end.

(** [s.split("@")[0]] *)
Definition beforeAt (s : string) : string :=
  match JS.split "@"%char s with
  | [] => EmptyString
  | first :: _ => first
  end.

(** [s.substring(1)] *)
Definition dropFirst (s : string) : string :=
  match s with EmptyString => EmptyString | String _ rest => rest end.

(** The [whatsappNumber] of an individual chat, which becomes [identifier]. *)
Definition whatsappNumberOf (m : WaMessage) : string :=
  let whatsappNumber := JS.or_string (m_sender_user m) (beforeAt (m_sender m)) in
  let whatsappNumber := keepDigitsAndPlus whatsappNumber in
  if JS.startsWith "+" whatsappNumber then dropFirst whatsappNumber else whatsappNumber.

(** [if (sentMessage && sentMessage.message_id && m.id)
       chatMessageMapping[sentMessage.message_id] = m.id] *)
Definition mapForReplies (sentMessage : option Z) (m : WaMessage) : M unit :=
  match sentMessage, m_id m with
  | Some message_id, Some id =>
      if JS.truthy_number message_id && JS.truthy_string id
      then modify (set_chatMessageMapping <[message_id := id]>)
      else ret tt
  | _, _ => ret tt
  end.

(** [m.message?.stickerMessage?.isAnimated || m.message?.stickerMessage?.animated || false] *)
Definition stickerIsAnimated (m : WaMessage) : bool :=
  match m_stickerMessage m with
  | Some s =>
      match isAnimated s with
      | Some true => true
      | _ => match animated s with Some true => true | _ => false end
      end
  | None => false
  end.

Definition threadOnly (topicId : Z) (cap : option string) : SendOptions :=
  mkOptions None false (Some topicId) None cap.

(** The [try]/[catch] of the sticker branch; [mediaBuffer] is what
    [m.download()] gave and [mediaOptions] carries the caption built before. *)
Definition forwardSticker (m : WaMessage) (mediaBuffer : Buffer) (mediaOptions : SendOptions)
    (topicId : Z) : M unit :=
  w <- get ;;
  try_catch
    (if stickerIsAnimated m && ffmpegAvailable w then
       mp4Buffer <- convertAnimatedWebPToMP4 mediaBuffer ;;
       sentMessage <- await (SendAnimation (groupId w) mp4Buffer
                               (threadOnly topicId
                                  (Some (JS.or_string (caption mediaOptions) "🎭 Animated Sticker")))) ;;
       mapForReplies sentMessage m
     else
       sentMessage <- await (SendSticker (groupId w) mediaBuffer (threadOnly topicId None)) ;;
       mapForReplies sentMessage m)
    (fun stickerError =>
       sentMessage <- await (SendPhoto (groupId w) mediaBuffer
                               (threadOnly topicId
                                  (Some (JS.or_string (caption mediaOptions) "🎭 Sticker (as image)")))) ;;
       mapForReplies sentMessage m).

(** [sendToTelegramWithRetry] for a caller that does not read its options
    object again. *)
Definition withRetry (chatId : Z) (message : string) (options : SendOptions)
    (identifier displayName : string) : M (option Z) :=
  fun w => let r := sendToTelegramWithRetry chatId message options
                      (Some identifier) (Some displayName) w in
           (r.1.1, r.2).

(** [forwardToTelegram] along one of its paths: a group message of type
    [contactMessage] with no body and no media, whose contact carries no
    vCard (lines 1209-1266, 1318-1343 and 1388-1405; the bridge is enabled
    and a group is configured).  The topic id is looked up once, at line
    1227, and both sends are given that id. *)
Definition forwardGroupContact (m : WaMessage) : M unit :=
  w <- get ;;
  if negb (telegramBot w) then ret tt
  else
    try_catch
      (let group := JS.remove_first "@g.us" (m_chat m) in
       let groupName := JS.or_string (m_subject m) ("Group " +:+ String.substring 0 8 group) in
       let identifier := "group_" +:+ group in
       let displayName := "🏷️ " +:+ groupName in
       topicId <- getOrCreateTopic identifier displayName ;;
       let messageText := "👤 **" +:+ m_name m +:+ "**: _sent a message_" in
       try_catch
         (sentMessage <- withRetry (groupId w) messageText
                           (mkOptions (Some "Markdown") true topicId None None)
                           identifier displayName ;;
          mapForReplies sentMessage m)
         (fun sendError => ret tt) ;;;
       if negb (JS.truthy_opt JS.truthy_number topicId) then ret tt
       else
         await (SaveUser (m_chat m) (m_subject m) ("group_" +:+ m_chat m)) ;;;
         await (SaveMessage (m_id m) (m_sender m) (m_chat m) "Media message" "contactMessage") ;;;
         try_catch
           (let contactText :=
              "👤 **" +:+ m_name m +:+ "**: " +:+ "👤 **Contact Shared**" +:+ nl +:+ nl
              +:+ "📝 *Name:* " +:+ JS.or_string (m_contactName m) "Unknown" in
            withRetry (groupId w) contactText
              (mkOptions (Some "Markdown") false topicId None None)
              identifier displayName ;;;
            ret tt)
           (fun contactError => ret tt))
      (fun error => ret tt).

(** ** Replies from Telegram: [handleTelegramMessage] (lines 676-979) *)

Record TgMessage := mkTgMessage {
  chat_id : Z;
  from_is_bot : bool;
  message_id : Z;
  thread_id : option Z;
  reply_to_message : option Z;   (* [msg.reply_to_message.message_id] *)
  text : option string;
  msg_caption : option string
}.

(** [setReaction]: the HTTP failure is swallowed and reported as [false]. *)
Definition setReaction (chatId messageId : Z) (emoji : string) : M bool :=
  try_catch
    (await (SetMessageReaction chatId messageId emoji) ;;; ret true)
    (fun err => ret false).

Definition statusHint : string := "💡 Reply to a status message to react to it on WhatsApp".

Definition hintOptions (topicId messageId : Z) : SendOptions :=
  mkOptions None false (Some topicId) (Some messageId) None.

(** The reaction sent for a reply to a tracked status message. *)
Definition reactToStatus (msg : TgMessage) (statusInfo : string) : M unit :=
  w <- get ;;
  let parts := JS.split "_"%char statusInfo in
  let statusSender := nth 0 parts "undefined" in
  let statusTimestamp := nth 1 parts "undefined" in
  let replyText := JS.or_string (text msg) (JS.or_string (msg_caption msg) "👍") in
  try_catch
    (if whatsappBot w then
       let statusJid := statusSender +:+ "@s.whatsapp.net" in
       await (WhatsAppSend statusJid
                (WaReact (JS.charAt0 replyText) statusJid ("status_" +:+ statusTimestamp))) ;;;
       setReaction (chat_id msg) (message_id msg) "✅" ;;;
       ret tt
     else ret tt)
    (fun error => setReaction (chat_id msg) (message_id msg) "❌" ;;; ret tt).

Section HandleTelegramMessage.

(** Lines 752-975, the relay of a chat-topic message to the WhatsApp
    conversation [identifier]; the results below hold for any relay. *)
Variable relayToWhatsApp : string -> TgMessage -> M unit.

Definition handleTelegramMessage (msg : TgMessage) : M unit :=
  try_catch
    (w <- get ;;
     if negb (Z.eqb (chat_id msg) (groupId w)) then ret tt
     else if from_is_bot msg then ret tt
     else if negb (JS.truthy_opt JS.truthy_number (thread_id msg)) then ret tt
     else
       match thread_id msg with
       | None => ret tt
       | Some topicId =>
           if bool_decide (Some topicId = statusTopicId w) then
             match reply_to_message msg ≫= (fun target =>
                     truthy_or_null (statusMessageMapping w !! target)) with
             | Some statusInfo => reactToStatus msg statusInfo
             | None =>
                 await (SendMessage (chat_id msg) statusHint
                          (hintOptions topicId (message_id msg))) ;;;
                 ret tt
             end
           else if bool_decide (Some topicId = callTopicId w) then ret tt
           else
             match truthy_or_null (reverseTopicMapping w !! topicId) with
             | None => ret tt
             | Some identifier => relayToWhatsApp identifier msg
             end
       end)
    (fun error => ret tt).

End HandleTelegramMessage.

(** ** Vocabulary of the statements *)

Definition isCreation (c : Call) : bool :=
  match c with CreateForumTopic _ _ _ => true | _ => false end.

Definition isExec (c : Call) : bool :=
  match c with ExecSync _ => true | _ => false end.

Definition isWhatsAppSend (c : Call) : bool :=
  match c with WhatsAppSend _ _ => true | _ => false end.

Definition isPhoto (c : Call) : bool :=
  match c with SendPhoto _ _ _ => true | _ => false end.

Definition isSendMessage (c : Call) : bool :=
  match c with SendMessage _ _ _ => true | _ => false end.

Definition count_calls (p : Call -> bool) (l : list Call) : nat :=
  length (List.filter p l).

(** The number of thread-creation requests in a trace. *)
Definition creationCalls (l : list Call) : nat := count_calls isCreation l.

(** Every character of [s] passes the test [p]. *)
Fixpoint allChars (p : ascii → bool) (s : string) : bool :=
  match s with
  | EmptyString => true
  | String c rest => p c && allChars p rest
  end.

(** Some character of [s] is ['+']. *)
Definition hasPlus (s : string) : bool := negb (allChars (fun c => negb (isPlus c)) s).

(** The contact name [getContactName] answers with, given the cache. *)
Definition contactNameIn (cache : gmap string string) (whatsappNumber fallbackName : string)
  : string :=
  match truthy_or_null (cache !! whatsappNumber) with
  | Some cached => cached
  | None => JS.or_string (Some fallbackName) ("Contact " +:+ whatsappNumber)
  end.

(** The world [getContactName] leaves behind. *)
Definition remembered (whatsappNumber fallbackName : string) (w : World) : World :=
  match truthy_or_null (contactsCache w !! whatsappNumber) with
  | Some _ => w
  | None =>
      set_contactsCache
        <[whatsappNumber := JS.or_string (Some fallbackName) ("Contact " +:+ whatsappNumber)]> w
  end.

(** The world [topicNameFor] leaves behind: groups have no cached name. *)
Definition named (identifier displayName : string) (w : World) : World :=
  if JS.startsWith "group_" identifier then w else remembered identifier displayName w.

(** The topic name of the first creation request made in world [w]. *)
Definition firstTopicName (w : World) (identifier displayName : string) : string :=
  if JS.startsWith "group_" identifier then displayName
  else contactNameIn (contactsCache w) identifier displayName +:+ " (+" +:+ identifier +:+ ")".

(** A topic name with the timestamp suffix of the retry. *)
Definition disambiguated (identifier name timestamp : string) : string :=
  if JS.startsWith "group_" identifier then name +:+ " (" +:+ timestamp +:+ ")"
  else name +:+ " " +:+ timestamp.

(** A creation request that did not produce a thread: it was rejected, or
    its result carries no usable [message_thread_id]. *)
Definition creationFailed (r : Reply) : Prop :=
  match r with
  | Rejected _ => True
  | Resolved v => JS.truthy_opt JS.truthy_number v = false
  end.

(** The two registry maps are inverse to each other. *)
Definition inverse_maps (w : World) : Prop :=
  ∀ (i : string) (t : Z), topicMapping w !! i = Some t ↔ reverseTopicMapping w !! t = Some i.

(** What every modelled computation leaves alone: configuration, client
    handles and environment; the trace only grows. *)
Record extends (w w' : World) : Prop := mkExtends {
  ext_createTopics : createTopics w' = createTopics w;
  ext_groupId : groupId w' = groupId w;
  ext_telegramBot : telegramBot w' = telegramBot w;
  ext_env : env w' = env w;
  ext_calls : ∃ more, calls w' = calls w ++ more
}.

(** What a computation outside the registry leaves alone: all of the above
    and the two registry maps, and its calls request no thread. *)
Record frame (w w' : World) : Prop := mkFrame {
  frame_extends : extends w w';
  frame_topicMapping : topicMapping w' = topicMapping w;
  frame_reverseTopicMapping : reverseTopicMapping w' = reverseTopicMapping w;
  frame_calls : ∃ more, calls w' = calls w ++ more ∧ creationCalls more = 0%nat
}.

(** [m] relates every world to the world it leaves, whether it returns or
    throws. *)
Definition respects (R : relation World) {A} (m : M A) : Prop :=
  ∀ w, R w (snd (m w)).

(** ** Sample environments and worlds *)

(** A bridge that has just started: both clients connected, nothing
    mapped, no scratch directory yet; topic creation, the transcoder flag
    and the environment as given. *)
Definition startWorld (createTopics : bool) (ffmpegAvailable : bool) (e : Env) : World :=
  mkWorld createTopics (-1001234567890) true true ∅ ∅ None None ∅ ∅ ∅ ∅
    ffmpegAvailable false ∅ e [].

Definition silentFfmpeg : nat → string → gmap string Buffer → option Error * gmap string Buffer :=
  fun _ _ fs => (None, fs).

Definition clock : nat → N := fun k => (1700000000000 + N.of_nat k)%N.

(** The scratch directory can always be created. *)
Definition mkdirWorks : nat → option Error := fun _ => None.

(** Every call succeeds; a new thread gets the id [100 + k], a sent message
    the id [500 + k], where [k] is the position of the call in the trace. *)
Definition friendlyEnv : Env :=
  mkEnv (fun k c => match c with
                    | CreateForumTopic _ _ _ => Resolved (Some (100 + Z.of_nat k))
                    | _ => Resolved (Some (500 + Z.of_nat k))
                    end)
        (fun _ _ => None) silentFfmpeg clock mkdirWorks.

(** As [friendlyEnv], but the first request of the trace is rejected with
    the given message. *)
Definition rejectFirst (msg : string) : Env :=
  mkEnv (fun k c => match k with
                    | O => Rejected (mkError msg)
                    | _ => reply friendlyEnv k c
                    end)
        (fun _ _ => None) silentFfmpeg clock mkdirWorks.

(** As [friendlyEnv], but no thread can be created. *)
Definition noNewThreads (msg : string) : Env :=
  mkEnv (fun k c => match c with
                    | CreateForumTopic _ _ _ => Rejected (mkError msg)
                    | _ => reply friendlyEnv k c
                    end)
        (fun _ _ => None) silentFfmpeg clock mkdirWorks.

(** Thread [gone] was deleted on Telegram: whatever is sent into it is
    rejected; everything else is as in [friendlyEnv]. *)
Definition threadGone (gone : Z) : Env :=
  mkEnv (fun k c => match c with
                    | SendMessage _ _ o =>
                        if bool_decide (message_thread_id o = Some gone)
                        then Rejected (mkError "ETELEGRAM: 400 Bad Request: message thread not found")
                        else reply friendlyEnv k c
                    | _ => reply friendlyEnv k c
                    end)
        (fun _ _ => None) silentFfmpeg clock mkdirWorks.

(** As [threadGone], and the bot may not create topics any more. *)
Definition threadGoneForGood (gone : Z) : Env :=
  mkEnv (fun k c => match c with
                    | CreateForumTopic _ _ _ =>
                        Rejected (mkError "ETELEGRAM: 400 Bad Request: not enough rights")
                    | _ => reply (threadGone gone) k c
                    end)
        (fun _ _ => None) silentFfmpeg clock mkdirWorks.

(** The registry holds one group, mapped to thread [thread]. *)
Definition oneGroup (thread : Z) (e : Env) : World :=
  set_reverseTopicMapping <[thread := "group_g1"]>
    (set_topicMapping <["group_g1" := thread]> (startWorld true false e)).

(** A member of group [g1@g.us] shares a contact that has a name only. *)
Definition sharedContact : WaMessage :=
  mkWaMessage (Some "3EB0C767D26A1B5F4B2A") "g1@g.us" "15551234567@s.whatsapp.net" None
    "Alice" (Some "Team") None (Some "Bob").

(** An individual message from the given sender address. *)
Definition fromSender (sender : string) : WaMessage :=
  mkWaMessage (Some "3EB0A1") sender sender None "Ann" None None None.

(** An animated sticker sent in an individual chat. *)
Definition animatedSticker : WaMessage :=
  mkWaMessage (Some "3EB0A2") "15551234567@s.whatsapp.net" "15551234567@s.whatsapp.net" None
    "Ann" None (Some (mkSticker (Some true) None)) None.

(** Telegram refuses every upload; everything else is as in [friendlyEnv]. *)
Definition noUploads : Env :=
  mkEnv (fun k c => match c with
                    | SendSticker _ _ _ | SendPhoto _ _ _ | SendAnimation _ _ _ =>
                        Rejected (mkError "ETELEGRAM: 413 Request Entity Too Large")
                    | _ => reply friendlyEnv k c
                    end)
        (fun _ _ => None) silentFfmpeg clock mkdirWorks.

(** The status topic is thread [5]; nothing is tracked in it yet. *)
Definition statusWorld : World :=
  mkWorld true (-1001234567890) true true ∅ ∅ (Some 5) None ∅ ∅ ∅ ∅
    false false ∅ friendlyEnv [].

(** A message typed into the status topic, not a reply; [bot] says whether
    its sender is a bot account (such as the group's anonymous admin). *)
Definition typedInStatusTopic (bot : bool) : TgMessage :=
  mkTgMessage (-1001234567890) bot 900 (Some 5) None (Some "nice") None.

(** [ffmpeg] that converts: it writes [converted] to [output] and exits
    successfully. *)
Definition convertingFfmpeg (output : string) (converted : Buffer)
  : nat → string → gmap string Buffer → option Error * gmap string Buffer :=
  fun _ _ fs => (None, <[output := converted]> fs).

(** [ffmpeg] that exits with an error after leaving a partial output. *)
Definition failingFfmpeg (output : string) (partial : Buffer)
  : nat → string → gmap string Buffer → option Error * gmap string Buffer :=
  fun _ _ fs => (Some (mkError "Command failed: ffmpeg"), <[output := partial]> fs).

(** A bridge with a transcoder that converts every video note to the two
    bytes [02 03]; the first conversion writes them to the output path
    stamped by the second reading of [clock]. *)
Definition workingTranscoder : World :=
  startWorld true true
    (mkEnv (reply friendlyEnv) (fun _ _ => None)
       (convertingFfmpeg "temp/output_1700000000001.mp4" [Byte.x02; Byte.x03]) clock mkdirWorks).

(** A bridge whose transcoder crashes half way through its output. *)
Definition brokenTranscoder : World :=
  startWorld true true
    (mkEnv (reply friendlyEnv) (fun _ _ => None)
       (failingFfmpeg "temp/output_1700000000001.mp4" [Byte.x02]) clock mkdirWorks).

(** The transcoder is installed, but the bridge may not create its
    scratch directory. *)
Definition readOnlyDisk : World :=
  startWorld true true
    (mkEnv (reply friendlyEnv) (fun _ _ => None) silentFfmpeg clock
       (fun _ => Some (mkError "EACCES: permission denied, mkdir 'temp'"))).

(** The error that stops a conversion in front of its [try] block: the
    scratch directory is missing and may not be created. *)
Definition mkdirError (w : World) : option Error :=
  if tempDir w then None else mkdir (env w) (length (calls w)).

(** The world in which a conversion starts its [try] block: the scratch
    directory exists and the clock was read twice. *)
Definition prepared (w : World) : World :=
  log_call DateNow (log_call DateNow (if tempDir w then w else set_tempDir true w)).

(** ** More vocabulary *)

Definition isPin (c : Call) : bool :=
  match c with PinChatMessage _ _ _ => true | _ => false end.

(** The registry after [identifier] was mapped to [thread]. *)
Definition mappedTo (identifier : string) (thread : Z) (w w' : World) : Prop :=
  topicMapping w' = <[identifier := thread]> (topicMapping w)
  ∧ reverseTopicMapping w' = <[thread := identifier]> (reverseTopicMapping w).

(** What a [getOrCreateTopic] call for [identifier] can have done to the
    registry, given its result [r]: nothing; or mapped the identifier once;
    or mapped it twice, the second thread replacing the first in the
    forward map.  The result is the last thread mapped, or [None]. *)
Definition registryStep (identifier : string) (r : option Z) (w w' : World) : Prop :=
  (topicMapping w' = topicMapping w ∧ reverseTopicMapping w' = reverseTopicMapping w
   ∧ (r = None
      ∨ (r = topicMapping w !! identifier ∧ JS.truthy_opt JS.truthy_number r = true)))
  ∨ (∃ t, JS.truthy_number t = true ∧ mappedTo identifier t w w' ∧ (r = Some t ∨ r = None))
  ∨ (∃ t1 t2 w1, JS.truthy_number t1 = true ∧ JS.truthy_number t2 = true
       ∧ mappedTo identifier t1 w w1 ∧ mappedTo identifier t2 w1 w'
       ∧ (r = Some t2 ∨ r = None)).

(** A reply to status message [target] arrives in the status topic while
    the map records [statusInfo] for it. *)
Definition trackedStatusReply (msg : TgMessage) (topicId target : Z) (statusInfo : string)
    (w : World) : Prop :=
  chat_id msg = groupId w ∧ from_is_bot msg = false
  ∧ thread_id msg = Some topicId ∧ JS.truthy_number topicId = true
  ∧ statusTopicId w = Some topicId
  ∧ reply_to_message msg = Some target
  ∧ statusMessageMapping w !! target = Some statusInfo
  ∧ JS.truthy_string statusInfo = true.

(** Status [15551234567_1700000000000] was forwarded as message [640] of
    the status topic, thread [5]. *)
Definition trackedStatusWorld (whatsapp : bool) (e : Env) : World :=
  mkWorld true (-1001234567890) true whatsapp ∅ ∅ (Some 5) None ∅ ∅
    {[ 640 := "15551234567_1700000000000" ]} ∅ false false ∅ e [].

Definition replyToStatus : TgMessage :=
  mkTgMessage (-1001234567890) false 901 (Some 5) (Some 640) (Some "😍 wow") None.

(** The code unit U+D83D, the first half of the surrogate pairs of 😍 and
    of 👍, as a string of its own. *)
Definition surrogateD83D : string :=
  String "237"%char (String "160"%char (String "189"%char EmptyString)).

(** WhatsApp is disconnected: whatever is sent to it is rejected. *)
Definition whatsappDown : Env :=
  mkEnv (fun k c => match c with
                    | WhatsAppSend _ _ => Rejected (mkError "Connection Closed")
                    | _ => reply friendlyEnv k c
                    end)
        (fun _ _ => None) silentFfmpeg clock mkdirWorks.

(** A message typed into thread [thread] of the configured group. *)
Definition typedInThread (thread : Z) : TgMessage :=
  mkTgMessage (-1001234567890) false 902 (Some thread) None (Some "hi") None.

(** The world a conversion leaves behind once it is past its availability
    test and the check of the scratch directory: the directory exists
    (created if it was missing), the clock was read twice, [ffmpeg]
    ran once on the directory holding the input, and of what it left the
    two scratch files are removed. *)
Definition transcoded (inputFile outputFile command : string) (buffer : Buffer) (w : World)
  : World :=
  let ran := ffmpeg (env w) (S (S (length (calls w)))) command
               (<[inputFile := buffer]> (files w)) in
  log_call (ExecSync command)
    (set_files (fun _ => delete outputFile (delete inputFile ran.2)) (prepared w)).

(** What a conversion that rethrows answers with, given what [ffmpeg] did. *)
Definition transcodedResult (inputFile outputFile command : string) (buffer : Buffer)
    (w : World) : Completion Buffer :=
  let ran := ffmpeg (env w) (S (S (length (calls w)))) command
               (<[inputFile := buffer]> (files w)) in
  match ran.1, ran.2 !! outputFile, ran.2 !! inputFile with
  | Some e, _, _ => Thrown e
  | None, Some converted, Some _ => Normal converted
  | None, Some _, None => Thrown (ENOENT inputFile)
  | None, None, _ => Thrown (ENOENT outputFile)
  end.

Definition isSticker (c : Call) : bool :=
  match c with SendSticker _ _ _ => true | _ => false end.

(** A bridge with a transcoder that turns every animated sticker into the
    two bytes [02 03]. *)
Definition stickerTranscoder (e : Env) : World :=
  startWorld true true
    (mkEnv (reply e) (fun _ _ => None)
       (convertingFfmpeg "temp/output_1700000000001.mp4" [Byte.x02; Byte.x03]) clock mkdirWorks).

(** As [brokenTranscoder], with a file of another conversion in the
    scratch directory. *)
Definition busyTranscoder : World :=
  set_files <["temp/input_1699999999999.webp" := [Byte.x09]]> (set_tempDir true brokenTranscoder).

(** Message [messageId] is what Telegram answered to an info message sent
    into thread [topicId], and a later request to pin it was accepted; both
    calls were made during the step from [w] to [w']: they stand in the
    trace of [w'] behind the calls of [w]. *)
Definition infoPinned (topicId messageId : Z) (w w' : World) : Prop :=
  ∃ sentAt pinnedAt infoText silent v,
    (length (calls w) ≤ sentAt)%nat ∧ (sentAt < pinnedAt)%nat
    ∧ calls w' !! sentAt = Some (SendMessage (groupId w) infoText (infoOptions topicId))
    ∧ reply (env w) sentAt (SendMessage (groupId w) infoText (infoOptions topicId))
      = Resolved (Some messageId)
    ∧ calls w' !! pinnedAt = Some (PinChatMessage (groupId w) messageId silent)
    ∧ reply (env w) pinnedAt (PinChatMessage (groupId w) messageId silent) = Resolved v.

(** What a call of [createAndPinUserInfo] or [createAndPinGroupInfo] for
    thread [topicId] does to the pin markers. *)
Definition pinStep (topicId : Z) (w w' : World) : Prop :=
  pinnedMessages w' = pinnedMessages w
  ∨ ∃ messageId, JS.truthy_number messageId = true
      ∧ pinnedMessages w' = <[topicId := messageId]> (pinnedMessages w)
      ∧ infoPinned topicId messageId w w'.

(** ** The address a reply goes to (lines 752-764) and the identifier of a
    group chat (lines 1219-1222) *)

Definition whatsappJidOf (identifier : string) : string :=
  if JS.startsWith "group_" identifier
  then JS.remove_first "group_" identifier +:+ "@g.us"
  else identifier +:+ "@s.whatsapp.net".

Definition groupIdentifierOf (m : WaMessage) : string :=
  let groupId := JS.remove_first "@g.us" (m_chat m) in
  "group_" +:+ groupId.

Definition isAt (c : ascii) : bool := Ascii.eqb c "@"%char.

(** A message of the group chat [chat]. *)
Definition fromGroup (chat : string) : WaMessage :=
  mkWaMessage (Some "3EB0A3") chat "15551234567@s.whatsapp.net" None "Ann" (Some "Team")
    None None.

(** ** The confirmation of a relayed message: [sendConfirmation]
    (lines 645-674); [sendConfirmationFlag] is
    [config.telegram.sendConfirmation]. *)

Definition confirmationText (success : bool) : string :=
  if success then "✅ Message sent to WhatsApp" else "❌ Failed to send message to WhatsApp".

Definition confirmationOptions (msg : TgMessage) : SendOptions :=
  mkOptions None false (thread_id msg) (Some (message_id msg)) None.

Definition sendConfirmation (sendConfirmationFlag : bool) (msg : TgMessage) (success : bool)
  : M unit :=
  reacted <- try_catch
               (let emoji := if success then "✅" else "❌" in
                setReaction (chat_id msg) (message_id msg) emoji)
               (fun reactionError => ret false) ;;
  if reacted then ret tt
  else if sendConfirmationFlag then
    try_catch
      (await (SendMessage (chat_id msg) (confirmationText success) (confirmationOptions msg)) ;;;
       ret tt)
      (fun messageError => ret tt)
  else ret tt.

(** ** The special topics: [createStatusTopic], [createCallTopic],
    [forwardCallToTelegram] and [forwardStatusToTelegram]
    (lines 337-411 and 1061-1206) *)

Definition set_statusTopicId (t : option Z) (w : World) : World :=
  mkWorld (createTopics w) (groupId w) (telegramBot w) (whatsappBot w)
    (topicMapping w) (reverseTopicMapping w) t (callTopicId w)
    (contactsCache w) (pinnedMessages w) (statusMessageMapping w) (chatMessageMapping w)
    (ffmpegAvailable w) (tempDir w) (files w) (env w) (calls w).

Definition set_callTopicId (t : option Z) (w : World) : World :=
  mkWorld (createTopics w) (groupId w) (telegramBot w) (whatsappBot w)
    (topicMapping w) (reverseTopicMapping w) (statusTopicId w) t
    (contactsCache w) (pinnedMessages w) (statusMessageMapping w) (chatMessageMapping w)
    (ffmpegAvailable w) (tempDir w) (files w) (env w) (calls w).

Definition set_statusMessageMapping (f : gmap Z string -> gmap Z string) (w : World) : World :=
  mkWorld (createTopics w) (groupId w) (telegramBot w) (whatsappBot w)
    (topicMapping w) (reverseTopicMapping w) (statusTopicId w) (callTopicId w)
    (contactsCache w) (pinnedMessages w) (f (statusMessageMapping w)) (chatMessageMapping w)
    (ffmpegAvailable w) (tempDir w) (files w) (env w) (calls w).

Definition statusInfoText : string :=
  "📱 *WhatsApp Status Updates*" +:+ nl +:+ nl
  +:+ "🔄 This topic shows all WhatsApp status updates" +:+ nl
  +:+ "📊 Status views, images, videos will appear here" +:+ nl
  +:+ "💬 Reply to a status to react to it on WhatsApp" +:+ nl
  +:+ "⚠️ Only statuses with captions or media are forwarded".

Definition callInfoText : string :=
  "📞 *WhatsApp Call Logs*" +:+ nl +:+ nl
  +:+ "📋 All incoming and outgoing calls will be logged here" +:+ nl
  +:+ "📱 Voice and video calls included" +:+ nl
  +:+ "⚠️ This is a read-only topic".

(** The fields of [callData] that are read; [c_timestamp] is
    [callData.timestamp.toLocaleString()]. *)
Record CallData := mkCallData {
  isVideo : bool;
  c_name : option string;
  c_number : string;
  c_timestamp : string;
  c_status : option string;
  callType : option string;
  duration : option N
}.

(** The fields of [statusData] that are read. *)
Record StatusData := mkStatusData {
  s_number : string;
  s_name : option string;
  s_caption : option string;
  s_media : option Buffer;
  s_type : option string
}.

Definition isString (expected : string) (s : option string) : bool :=
  match s with Some v => String.eqb v expected | None => false end.

Section SpecialTopics.

(** [config.telegram.enabled], [config.telegram.forwardMedia] and
    [config.antiCall]. *)
Variables (enabled forwardMedia antiCall : bool).

(** [DatabaseOps.saveSpecialTopic] of database.js, and the two uploads of
    the Telegram client that the other functions do not use. *)
Variable saveSpecialTopic : string → Z → M unit.
Variable sendVideo : Z → Buffer → SendOptions → M (option Z).
Variable sendDocument : Z → Buffer → SendOptions → string → M (option Z).

(** [String.prototype.trim] *)
Variable trim : string → string.

Definition createStatusTopic : M (option Z) :=
  w <- get ;;
  if negb (createTopics w) || negb (telegramBot w) then ret None
  else
    try_catch
      (result <- await (CreateForumTopic (groupId w) "📱 Status Updates" 0x00ff00) ;;
       match result with
       | Some message_thread_id =>
           if JS.truthy_number message_thread_id then
             modify (set_statusTopicId (Some message_thread_id)) ;;;
             saveSpecialTopic "status" message_thread_id ;;;
             await (SendMessage (groupId w) statusInfoText (infoOptions message_thread_id)) ;;;
             ret (Some message_thread_id)
           else ret None
       | None => ret None
       end)
      (fun error => ret None).

Definition createCallTopic : M (option Z) :=
  w <- get ;;
  if negb (createTopics w) || negb (telegramBot w) then ret None
  else
    try_catch
      (result <- await (CreateForumTopic (groupId w) "📞 Call Logs" 0xff0000) ;;
       match result with
       | Some message_thread_id =>
           if JS.truthy_number message_thread_id then
             modify (set_callTopicId (Some message_thread_id)) ;;;
             saveSpecialTopic "call" message_thread_id ;;;
             await (SendMessage (groupId w) callInfoText (infoOptions message_thread_id)) ;;;
             ret (Some message_thread_id)
           else ret None
       | None => ret None
       end)
      (fun error => ret None).

Definition callText (callData : CallData) : string :=
  "📞 **" +:+ (if isVideo callData then "Video" else "Voice") +:+ " Call**" +:+ nl +:+ nl
  +:+ "👤 *From:* " +:+ JS.or_string (c_name callData) (c_number callData)
  +:+ " (+" +:+ c_number callData +:+ ")" +:+ nl
  +:+ "⏰ *Time:* " +:+ c_timestamp callData +:+ nl
  +:+ "🔄 *Status:* " +:+ JS.or_string (c_status callData) "Incoming" +:+ nl
  +:+ (if isString "group" (callType callData) then "👥 *Type:* Group Call" +:+ nl else EmptyString)
  +:+ (match duration callData with
       | Some seconds =>
           if negb (N.eqb seconds 0)
           then "⏱️ *Duration:* " +:+ pretty seconds +:+ " seconds" +:+ nl
           else EmptyString
       | None => EmptyString
       end)
  +:+ (if isString "offer" (c_status callData)
       then nl +:+ "🔴 *Incoming call " +:+ (if antiCall then "(Auto-rejected)" else EmptyString) +:+ "*"
       else if isString "accept" (c_status callData) then nl +:+ "🟢 *Call answered*"
       else if isString "reject" (c_status callData) then nl +:+ "🔴 *Call rejected*"
       else if isString "timeout" (c_status callData) then nl +:+ "⏰ *Call timed out*"
       else EmptyString).

Definition forwardCallToTelegram (callData : CallData) : M unit :=
  w <- get ;;
  if negb enabled || negb (telegramBot w) || negb (JS.truthy_number (groupId w)) then ret tt
  else
    try_catch
      ((if negb (JS.truthy_opt JS.truthy_number (callTopicId w))
        then createCallTopic ;;; ret tt
        else ret tt) ;;;
       w1 <- get ;;
       match callTopicId w1 with
       | Some topic =>
           if JS.truthy_number topic then
             await (SendMessage (groupId w) (callText callData) (infoOptions topic)) ;;;
             ret tt
           else ret tt
       | None => ret tt
       end)
      (fun error => ret tt).

(** [if (sentMessage && sentMessage.message_id)
       statusMessageMapping[sentMessage.message_id] = statusId] *)
Definition mapStatus (sentMessage : option Z) (statusId : string) : M unit :=
  match sentMessage with
  | Some message_id =>
      if JS.truthy_number message_id
      then modify (set_statusMessageMapping <[message_id := statusId]>)
      else ret tt
  | None => ret tt
  end.

(** [statusData.caption && statusData.caption.trim()] *)
Definition hasCaption (statusData : StatusData) : bool :=
  match s_caption statusData with
  | Some c => JS.truthy_string c && JS.truthy_string (trim c)
  | None => false
  end.

Definition statusHeading (statusData : StatusData) : string :=
  "📱 *" +:+ JS.or_string (s_name statusData) (s_number statusData) +:+ "*".

(** The text-only branch (lines 1179-1202). *)
Definition forwardStatusText (statusData : StatusData) (topic : Z) (statusId : string)
  : M unit :=
  w <- get ;;
  if hasCaption statusData then
    try_catch
      (let statusText :=
         statusHeading statusData +:+ nl +:+ nl +:+ JS.or_string (s_caption statusData) EmptyString in
       sentMessage <- await (SendMessage (groupId w) statusText (infoOptions topic)) ;;
       mapStatus sentMessage statusId)
      (fun textError => ret tt)
  else ret tt.

(** The media branch (lines 1144-1178). *)
Definition forwardStatusMedia (statusData : StatusData) (media : Buffer) (topic : Z)
    (statusId : string) : M unit :=
  w <- get ;;
  try_catch
    (let caption :=
       statusHeading statusData
       +:+ (if hasCaption statusData
            then nl +:+ nl +:+ JS.or_string (s_caption statusData) EmptyString
            else EmptyString) in
     let mediaOptions := mkOptions (Some "Markdown") false (Some topic) None (Some caption) in
     sentMessage <-
       (if isString "imageMessage" (s_type statusData) || isString "image" (s_type statusData)
        then await (SendPhoto (groupId w) media mediaOptions)
        else if isString "videoMessage" (s_type statusData)
                || isString "video" (s_type statusData)
        then sendVideo (groupId w) media mediaOptions
        else
          t2 <- Date_now ;;
          sendDocument (groupId w) media mediaOptions
            ("status_" +:+ pretty t2 +:+ "." +:+ JS.or_string (s_type statusData) "bin")) ;;
     mapStatus sentMessage statusId)
    (fun mediaError => ret tt).

Definition forwardStatusToTelegram (statusData : StatusData) : M unit :=
  w <- get ;;
  if negb enabled || negb (telegramBot w) || negb (JS.truthy_number (groupId w)) then ret tt
  else
    try_catch
      ((if negb (JS.truthy_opt JS.truthy_number (statusTopicId w))
        then createStatusTopic ;;; ret tt
        else ret tt) ;;;
       w1 <- get ;;
       match statusTopicId w1 with
       | None => ret tt
       | Some topic =>
           if negb (JS.truthy_number topic) then ret tt
           else if negb (JS.truthy_opt JS.truthy_string (s_caption statusData))
                   && negb (JS.truthy_opt (fun _ => true) (s_media statusData))
           then ret tt
           else
             t <- Date_now ;;
             let statusId := s_number statusData +:+ "_" +:+ pretty t in
             match s_media statusData with
             | Some media =>
                 if forwardMedia then forwardStatusMedia statusData media topic statusId
                 else forwardStatusText statusData topic statusId
             | None => forwardStatusText statusData topic statusId
             end
       end)
      (fun error => ret tt).

End SpecialTopics.

(** A voice call that was answered. *)
Definition answeredCall : CallData :=
  mkCallData false (Some "Ann") "15551234567" "11/3/2026, 9:15:00 AM" (Some "accept") None
    (Some 42%N).

(** A text status. *)
Definition textStatus : StatusData :=
  mkStatusData "15551234567" (Some "Ann") (Some "At the beach") None None.

(** A status with neither caption nor media. *)
Definition emptyStatus : StatusData :=
  mkStatusData "15551234567" (Some "Ann") None None None.

(** The database is unreachable. *)
Definition databaseDown : string → Z → M unit :=
  fun _ _ => throw (mkError "MongoNetworkError: connection closed").

Definition noUpload : Z → Buffer → SendOptions → M (option Z) :=
  fun _ _ _ => throw (mkError "ETELEGRAM: 413 Request Entity Too Large").

Definition noDocument : Z → Buffer → SendOptions → string → M (option Z) :=
  fun _ _ _ _ => throw (mkError "ETELEGRAM: 413 Request Entity Too Large").

(** An approximation of [trim] that is exact on strings without white
    space. *)
Definition keepText : string → string := fun s => s.

Definition isUnderscore (c : ascii) : bool := Ascii.eqb c "_"%char.

(** A running bridge with the given status and call topics. *)
Definition specialTopicsWorld (status call : option Z) (e : Env) : World :=
  mkWorld true (-1001234567890) true true ∅ ∅ status call ∅ ∅ ∅ ∅ false false ∅ e [].

(** ** Forwarding from WhatsApp: the text stage of [forwardToTelegram]
    (lines 1208-1337) *)

(** The inbound message [m] with the fields the text stage reads besides
    those of [WaMessage]. *)
Record WaInbound := mkWaInbound {
  wa : WaMessage;
  m_isGroup : bool;
  m_body : option string;
  m_mimetype : option string;
  m_type : option string
}.

Definition textOptions (topicId : option Z) : SendOptions :=
  mkOptions (Some "Markdown") true topicId None None.

Section ForwardToTelegram.

(** [config.telegram.enabled] and [String.prototype.trim] *)
Variable enabled : bool.
Variable trim : string → string.

(** Lines 1339-1613: contacts, locations and media of a message whose
    topic is [topicId]. *)
Variable forwardAttachments : WaInbound → Z → string → string → M unit.

(** [m.body && m.body.trim()] *)
Definition hasBody (m : WaInbound) : bool :=
  match m_body m with
  | Some body => JS.truthy_string body && JS.truthy_string (trim body)
  | None => false
  end.

(** [m.mimetype && !m.mimetype.startsWith("text/")] *)
Definition hasMediaType (m : WaInbound) : bool :=
  match m_mimetype m with
  | Some mimetype => JS.truthy_string mimetype && negb (JS.startsWith "text/" mimetype)
  | None => false
  end.

Definition groupDisplayName (m : WaMessage) : string :=
  let groupId := JS.remove_first "@g.us" (m_chat m) in
  let groupName := JS.or_string (m_subject m) ("Group " +:+ String.substring 0 8 groupId) in
  "🏷️ " +:+ groupName.

Definition groupMessageText (m : WaInbound) : string :=
  if hasBody m then "👤 **" +:+ m_name (wa m) +:+ "**: " +:+ JS.or_string (m_body m) EmptyString
  else if hasMediaType m then "👤 **" +:+ m_name (wa m) +:+ "**: _sent media_"
  else "👤 **" +:+ m_name (wa m) +:+ "**: _sent a message_".

Definition contactNameOf (m : WaMessage) : string :=
  let whatsappNumber := whatsappNumberOf m in
  let contactName := JS.or_string (Some (m_name m)) ("Contact " +:+ whatsappNumber) in
  if String.eqb contactName "undefined" || negb (JS.truthy_string contactName)
     || String.eqb (trim contactName) EmptyString
  then "Contact " +:+ whatsappNumber
  else contactName.

(** The [try]/[catch] around a text send (lines 1248-1265 and 1297-1314). *)
Definition sendText (messageText : string) (topicId : option Z)
    (identifier displayName : string) (m : WaMessage) : M unit :=
  w <- get ;;
  try_catch
    (sentMessage <- withRetry (groupId w) messageText (textOptions topicId)
                      identifier displayName ;;
     mapForReplies sentMessage m)
    (fun sendError => ret tt).

Definition forwardToTelegram (m : WaInbound) : M unit :=
  w <- get ;;
  if negb enabled || negb (telegramBot w) || negb (JS.truthy_number (groupId w)) then ret tt
  else
    try_catch
      (resolved <-
         (if m_isGroup m then
            let identifier := groupIdentifierOf (wa m) in
            let displayName := groupDisplayName (wa m) in
            topicId <- getOrCreateTopic identifier displayName ;;
            let messageText := groupMessageText m in
            (if JS.truthy_string messageText
             then sendText messageText topicId identifier displayName (wa m)
             else ret tt) ;;;
            ret (topicId, identifier, displayName)
          else
            let identifier := whatsappNumberOf (wa m) in
            let displayName := contactNameOf (wa m) in
            topicId <- getOrCreateTopic identifier displayName ;;
            (if hasBody m && negb (hasMediaType m)
             then sendText (JS.or_string (m_body m) EmptyString) topicId identifier displayName (wa m)
             else ret tt) ;;;
            ret (topicId, identifier, displayName)) ;;
       let '(topicId, identifier, displayName) := resolved in
       match topicId with
       | Some topic =>
           if JS.truthy_number topic then
             await (SaveUser (if m_isGroup m then m_chat (wa m) else m_sender (wa m))
                      (if m_isGroup m then m_subject (wa m) else Some displayName)
                      (if m_isGroup m then "group_" +:+ m_chat (wa m) else identifier)) ;;;
             await (SaveMessage (m_id (wa m)) (m_sender (wa m)) (m_chat (wa m))
                      (JS.or_string (m_body m) "Media message")
                      (JS.or_string (m_type m) "text")) ;;;
             forwardAttachments m topic identifier displayName
           else ret tt
       | None => ret tt
       end)
      (fun error => ret tt).

End ForwardToTelegram.

(** A group message with a picture and no text. *)
Definition groupPicture : WaInbound :=
  mkWaInbound (fromGroup "120363025246125486@g.us") true None (Some "image/jpeg")
    (Some "imageMessage").

(** A picture sent in an individual chat. *)
Definition picture : WaInbound :=
  mkWaInbound (fromSender "15551234567@s.whatsapp.net") false None (Some "image/jpeg")
    (Some "imageMessage").

(** The database refuses every write; Telegram is as in [friendlyEnv]. *)
Definition readOnlyDatabase : Env :=
  mkEnv (fun k c => match c with
                    | SaveUser _ _ _ | SaveMessage _ _ _ _ _ | SaveTelegramTopic _ _ _ =>
                        Rejected (mkError "MongoNetworkError: connection closed")
                    | _ => reply friendlyEnv k c
                    end)
        (fun _ _ => None) silentFfmpeg clock mkdirWorks.

(** The attachments stage that uploads the picture of a message. *)
Definition uploadPicture : WaInbound → Z → string → string → M unit :=
  fun _ topicId _ _ =>
    w <- get ;;
    await (SendPhoto (groupId w) [Byte.x01] (threadOnly topicId None)) ;;;
    ret tt.

(** * Results *)

(** ** Traces and frames *)

Lemma count_calls_app (p : Call -> bool) (l k : list Call) :
  count_calls p (l ++ k) = (count_calls p l + count_calls p k)%nat.
Proof. unfold count_calls. rewrite List.filter_app. apply length_app. Qed.

Lemma creationCalls_app (l k : list Call) :
  creationCalls (l ++ k) = (creationCalls l + creationCalls k)%nat.
Proof. apply count_calls_app. Qed.

#[local] Instance extends_preorder : PreOrder extends.
Proof.
  split.
  - intros w. split; try reflexivity. exists []. now rewrite app_nil_r.
  - intros w1 w2 w3 [c1 g1 b1 e1 (m1 & Hm1)] [c2 g2 b2 e2 (m2 & Hm2)].
    split; try congruence.
    exists (m1 ++ m2). rewrite Hm2, Hm1. now rewrite app_assoc.
Qed.

#[local] Instance frame_preorder : PreOrder frame.
Proof.
  split.
  - intros w. split; try reflexivity. exists []. now rewrite app_nil_r.
  - intros w1 w2 w3 [x1 f1 r1 (m1 & Hm1 & Hc1)] [x2 f2 r2 (m2 & Hm2 & Hc2)].
    split; try congruence.
    + now transitivity w2.
    + exists (m1 ++ m2). split.
      * rewrite Hm2, Hm1. now rewrite app_assoc.
      * rewrite creationCalls_app. lia.
Qed.

Lemma extends_log_call (c : Call) (w : World) : extends w (log_call c w).
Proof. split; try reflexivity. now exists [c]. Qed.

Lemma frame_log_call (c : Call) (w : World) : isCreation c = false → frame w (log_call c w).
Proof.
  intros Hc. split; try reflexivity.
  - apply extends_log_call.
  - exists [c]. split; [ reflexivity | ].
    unfold creationCalls, count_calls. simpl. now rewrite Hc.
Qed.

Section Respects.

Context (R : relation World) `{!PreOrder R}.

Lemma respects_ret {A} (a : A) : respects R (ret a).
Proof. intros w. reflexivity. Qed.

Lemma respects_throw {A} (e : Error) : respects R (@throw A e).
Proof. intros w. reflexivity. Qed.

Lemma respects_get : respects R get.
Proof. intros w. reflexivity. Qed.

Lemma respects_bind {A B} (m : M A) (k : A → M B) :
  respects R m → (∀ a, respects R (k a)) → respects R (bind m k).
Proof.
  intros Hm Hk w. unfold bind. specialize (Hm w).
  destruct (m w) as [[a|e] w1]; simpl in *; [ | exact Hm ].
  transitivity w1; [ exact Hm | apply Hk ].
Qed.

Lemma respects_try_catch {A} (m : M A) (h : Error → M A) :
  respects R m → (∀ e, respects R (h e)) → respects R (try_catch m h).
Proof.
  intros Hm Hh w. unfold try_catch. specialize (Hm w).
  destruct (m w) as [[a|e] w1]; simpl in *; [ exact Hm | ].
  transitivity w1; [ exact Hm | apply Hh ].
Qed.

End Respects.

Lemma frame_respects_extends {A} (m : M A) : respects frame m → respects extends m.
Proof. intros H w. apply frame_extends, H. Qed.

Lemma extends_await (c : Call) : respects extends (await c).
Proof.
  intros w. unfold await. destruct (reply _ _ _); simpl; apply extends_log_call.
Qed.

Lemma frame_await (c : Call) : isCreation c = false → respects frame (await c).
Proof.
  intros Hc w. unfold await.
  destruct (reply _ _ _); simpl; now apply frame_log_call.
Qed.

Lemma frame_await_or_null (c : Call) : isCreation c = false → respects frame (await_or_null c).
Proof. intros Hc w. now apply frame_log_call. Qed.

Lemma frame_Date_now : respects frame Date_now.
Proof. intros w. now apply frame_log_call. Qed.

(** A state change that touches neither the setup, the registry nor the
    trace. *)
Ltac frame_untouched :=
  intros w; split; [ split | | | ]; simpl; try reflexivity;
  exists []; simpl; rewrite ?app_nil_r; auto.

Lemma frame_set_pinned (t m : Z) : respects frame (set_pinned t m).
Proof. frame_untouched. Qed.

Lemma frame_set_contactsCache (f : gmap string string → gmap string string) :
  respects frame (modify (set_contactsCache f)).
Proof. frame_untouched. Qed.

Lemma frame_set_chatMessageMapping (f : gmap Z string → gmap Z string) :
  respects frame (modify (set_chatMessageMapping f)).
Proof. frame_untouched. Qed.

Lemma try_catch_returns {A} (m : M A) (a : A) (w : World) :
  ∃ r, fst (try_catch m (fun _ => ret a) w) = Normal r.
Proof. unfold try_catch. destruct (m w) as [[r|e] w1]; simpl; eauto. Qed.

Lemma extends_set_mapping (i : string) (t : Z) : respects extends (set_mapping i t).
Proof. intros w. split; try reflexivity. exists []. simpl. now rewrite app_nil_r. Qed.

Create HintDb respects.
#[local] Hint Resolve frame_preorder extends_preorder : respects.
#[local] Hint Resolve respects_ret respects_throw respects_get
  extends_await frame_Date_now frame_set_pinned frame_set_contactsCache
  frame_set_chatMessageMapping extends_set_mapping frame_respects_extends : respects.

(** Walks through a computation built from the combinators, splitting on
    every test it meets. *)
Ltac respects_step :=
  match goal with
  | |- respects _ (bind _ _) => apply respects_bind; [ typeclasses eauto | | intros ? ]
  | |- respects _ (try_catch _ _) => apply respects_try_catch; [ typeclasses eauto | | intros ? ]
  | |- respects frame (await _) => apply frame_await; reflexivity
  | |- respects frame (await_or_null _) => apply frame_await_or_null; reflexivity
  | |- respects _ (if ?b then _ else _) => destruct b
  | |- respects _ (match ?x with _ => _ end) => destruct x
  | |- respects _ _ => solve [ auto with respects ]
  end.

Ltac respects_auto := repeat respects_step.

Lemma frame_getContactName (n f : string) : respects frame (getContactName n f).
Proof. unfold getContactName. respects_auto. Qed.

Lemma frame_getUserInfo (n : string) : respects frame (getUserInfo n).
Proof. unfold getUserInfo. respects_auto. Qed.

#[local] Hint Resolve frame_getContactName frame_getUserInfo : respects.

Lemma frame_createAndPinUserInfo (t : Z) (c n : string) :
  respects frame (createAndPinUserInfo t c n).
Proof. unfold createAndPinUserInfo. respects_auto. Qed.

Lemma frame_createAndPinGroupInfo (t : Z) (g i : string) :
  respects frame (createAndPinGroupInfo t g i).
Proof. unfold createAndPinGroupInfo. respects_auto. Qed.

#[local] Hint Resolve frame_createAndPinUserInfo frame_createAndPinGroupInfo : respects.

(** The info message is best effort: neither function throws. *)
Lemma createAndPinUserInfo_returns (t : Z) (c n : string) (w : World) :
  fst (createAndPinUserInfo t c n w) = Normal tt.
Proof.
  unfold createAndPinUserInfo, try_catch.
  match goal with |- context [ bind ?m ?k w ] => destruct (bind m k w) as [[[]|e] w1] end;
    reflexivity.
Qed.

Lemma createAndPinGroupInfo_returns (t : Z) (g i : string) (w : World) :
  fst (createAndPinGroupInfo t g i w) = Normal tt.
Proof.
  unfold createAndPinGroupInfo, try_catch.
  match goal with |- context [ bind ?m ?k w ] => destruct (bind m k w) as [[[]|e] w1] end;
    reflexivity.
Qed.

(** ** Running a computation

    [run] unfolds the combinators and the record updates; what stays is a
    test on an answer of the environment, or a call of a function whose
    effect a lemma describes. *)

Ltac run :=
  cbv beta iota delta [bind try_catch ret throw get modify await await_or_null
                       Date_now set_mapping set_pinned];
  cbn [createTopics groupId telegramBot whatsappBot topicMapping reverseTopicMapping
       statusTopicId callTopicId contactsCache pinnedMessages statusMessageMapping
       chatMessageMapping ffmpegAvailable tempDir files env calls
       log_call set_topicMapping set_reverseTopicMapping set_contactsCache
       set_pinnedMessages set_chatMessageMapping set_tempDir set_files
       removeOldMapping JS.truthy_opt fst snd negb orb andb].

Lemma length_snoc {A} (l : list A) (x : A) : length (l ++ [x]) = S (length l).
Proof. rewrite length_app. simpl. lia. Qed.

Lemma append_assoc (a b c : string) : (a +:+ b) +:+ c = a +:+ b +:+ c.
Proof.
  induction a as [|x a IH]; [ reflexivity | ].
  change (String x ((a +:+ b) +:+ c) = String x (a +:+ b +:+ c)). now rewrite IH.
Qed.

(** ** Contact names *)

Lemma contactNameIn_truthy (cache : gmap string string) (n f : string) :
  JS.truthy_string (contactNameIn cache n f) = true.
Proof.
  unfold contactNameIn, truthy_or_null.
  destruct (cache !! n) as [c|]; [ destruct (JS.truthy_string c) eqn:E; [ exact E | ] | ];
    simpl; destruct (JS.truthy_string f) eqn:F; auto.
Qed.

Lemma getContactName_run (n f : string) (w : World) :
  getContactName n f w = (Normal (contactNameIn (contactsCache w) n f), remembered n f w).
Proof.
  unfold getContactName, contactNameIn, remembered. run.
  destruct (truthy_or_null (contactsCache w !! n)); reflexivity.
Qed.

(** Once asked for, a name is served from the cache. *)
Lemma remembered_cached (n f : string) (w : World) :
  truthy_or_null (contactsCache (remembered n f w) !! n)
  = Some (contactNameIn (contactsCache w) n f).
Proof.
  pose proof (contactNameIn_truthy (contactsCache w) n f) as T.
  unfold remembered, contactNameIn in *.
  destruct (truthy_or_null (contactsCache w !! n)) eqn:E; [ exact E | ].
  run. rewrite lookup_insert_eq. unfold truthy_or_null. now rewrite T.
Qed.

Lemma contactNameIn_remembered (n f : string) (w : World) :
  contactNameIn (contactsCache (remembered n f w)) n f = contactNameIn (contactsCache w) n f.
Proof. unfold contactNameIn at 1. now rewrite remembered_cached. Qed.

Lemma remembered_idem (n f : string) (w : World) :
  remembered n f (remembered n f w) = remembered n f w.
Proof. unfold remembered at 1. now rewrite remembered_cached. Qed.

Lemma named_idem (i dn : string) (w : World) : named i dn (named i dn w) = named i dn w.
Proof.
  unfold named. destruct (JS.startsWith "group_" i); [ reflexivity | apply remembered_idem ].
Qed.

Lemma firstTopicName_named (i dn : string) (w : World) :
  firstTopicName (named i dn w) i dn = firstTopicName w i dn.
Proof.
  unfold firstTopicName, named.
  destruct (JS.startsWith "group_" i); [ reflexivity | ].
  now rewrite contactNameIn_remembered.
Qed.

(** [topicNameFor] touches the contact cache only. *)
Lemma named_projections (i dn : string) (w : World) :
  createTopics (named i dn w) = createTopics w ∧ groupId (named i dn w) = groupId w
  ∧ telegramBot (named i dn w) = telegramBot w ∧ env (named i dn w) = env w
  ∧ calls (named i dn w) = calls w ∧ topicMapping (named i dn w) = topicMapping w
  ∧ reverseTopicMapping (named i dn w) = reverseTopicMapping w.
Proof.
  unfold named, remembered.
  destruct (JS.startsWith "group_" i); [ tauto | ].
  destruct (truthy_or_null (contactsCache w !! i)); simpl; tauto.
Qed.

Lemma named_env (i dn : string) (w : World) : env (named i dn w) = env w.
Proof. apply named_projections. Qed.

Lemma named_calls (i dn : string) (w : World) : calls (named i dn w) = calls w.
Proof. apply named_projections. Qed.

Lemma named_topicMapping (i dn : string) (w : World) :
  topicMapping (named i dn w) = topicMapping w.
Proof. apply named_projections. Qed.

Lemma named_reverseTopicMapping (i dn : string) (w : World) :
  reverseTopicMapping (named i dn w) = reverseTopicMapping w.
Proof. apply named_projections. Qed.

Lemma named_createTopics (i dn : string) (w : World) :
  createTopics (named i dn w) = createTopics w.
Proof. apply named_projections. Qed.

Lemma named_telegramBot (i dn : string) (w : World) :
  telegramBot (named i dn w) = telegramBot w.
Proof. apply named_projections. Qed.

Lemma named_groupId (i dn : string) (w : World) : groupId (named i dn w) = groupId w.
Proof. apply named_projections. Qed.

Lemma named_log_call (i dn : string) (c : Call) (w : World) :
  named i dn (log_call c w) = log_call c (named i dn w).
Proof.
  unfold named, remembered. destruct (JS.startsWith "group_" i); [ reflexivity | ].
  run. destruct (truthy_or_null (contactsCache w !! i)); reflexivity.
Qed.

Lemma named_set_mapping (i dn j : string) (t : Z) (w : World) :
  named i dn (set_reverseTopicMapping <[t := j]> (set_topicMapping <[j := t]> w))
  = set_reverseTopicMapping <[t := j]> (set_topicMapping <[j := t]> (named i dn w)).
Proof.
  unfold named, remembered. destruct (JS.startsWith "group_" i); [ reflexivity | ].
  run. destruct (truthy_or_null (contactsCache w !! i)); reflexivity.
Qed.

Lemma firstTopicName_log_call (i dn : string) (c : Call) (w : World) :
  firstTopicName (log_call c w) i dn = firstTopicName w i dn.
Proof. reflexivity. Qed.

Create Rewrite HintDb named.
#[local] Hint Rewrite named_env named_calls named_topicMapping named_reverseTopicMapping
  named_createTopics named_telegramBot named_groupId named_log_call named_set_mapping named_idem
  firstTopicName_named firstTopicName_log_call @length_snoc : named.

(** [run], and the projections of [named] worlds. *)
Ltac settle := repeat progress (run; autorewrite with named).

Lemma topicNameFor_run (i dn : string) (w : World) :
  topicNameFor i dn w = (Normal (firstTopicName w i dn), named i dn w).
Proof.
  unfold topicNameFor, firstTopicName, named.
  destruct (JS.startsWith "group_" i); [ reflexivity | ].
  run. now rewrite getContactName_run.
Qed.

Lemma retryTopicNameFor_run (i dn ts : string) (w : World) :
  retryTopicNameFor i dn ts w
  = (Normal (disambiguated i (firstTopicName w i dn) ts), named i dn w).
Proof.
  unfold retryTopicNameFor, firstTopicName, disambiguated, named.
  destruct (JS.startsWith "group_" i); [ reflexivity | ].
  run. rewrite getContactName_run. now rewrite !append_assoc.
Qed.

(** ** The registry *)

Lemma extends_retryWithUniqueName (identifier displayName : string) :
  respects extends (retryWithUniqueName identifier displayName).
Proof. unfold retryWithUniqueName, retryTopicNameFor. respects_auto. Qed.

#[local] Hint Resolve extends_retryWithUniqueName : respects.

Lemma extends_getOrCreateTopic (identifier displayName : string) :
  respects extends (getOrCreateTopic identifier displayName).
Proof. unfold getOrCreateTopic, topicNameFor. respects_auto. Qed.

(** [getOrCreateTopic] reports every failure as [null]. *)
Lemma getOrCreateTopic_returns (identifier displayName : string) (w : World) :
  ∃ r, fst (getOrCreateTopic identifier displayName w) = Normal r.
Proof.
  unfold getOrCreateTopic. unfold bind at 1. simpl.
  destruct (negb (createTopics w) || negb (telegramBot w)); [ simpl; eauto | ].
  destruct (JS.truthy_opt JS.truthy_number (topicMapping w !! identifier)); [ simpl; eauto | ].
  unfold try_catch at 1.
  match goal with |- context [ bind ?m ?k w ] => destruct (bind m k w) as [[r|e] w1] end;
    [ simpl; eauto | ].
  destruct (isDuplicateName e); [ | simpl; eauto ].
  apply try_catch_returns.
Qed.

(** A mapped identifier is answered from the registry: no call is made and
    nothing changes. *)
Lemma getOrCreateTopic_mapped (identifier displayName : string) (t : Z) (w : World) :
  createTopics w = true → telegramBot w = true →
  topicMapping w !! identifier = Some t → JS.truthy_number t = true →
  getOrCreateTopic identifier displayName w = (Normal (Some t), w).
Proof.
  intros Hc Hb Hm Ht. unfold getOrCreateTopic. run.
  rewrite Hc, Hb, Hm. run. rewrite Ht. reflexivity.
Qed.

(** Destructs the next answer of the environment the goal waits for. *)
Ltac split_reply :=
  match goal with
  | |- context [ match reply ?e ?n ?c with _ => _ end ] =>
      let R := fresh "R" in destruct (reply e n c) as [[?|]|?] eqn:R
  | |- context [ if JS.truthy_number ?t then _ else _ ] =>
      let T := fresh "T" in destruct (JS.truthy_number t) eqn:T
  | |- context [ if isDuplicateName ?e then _ else _ ] =>
      let D := fresh "D" in destruct (isDuplicateName e) eqn:D
  end.

(** What the retry leaves: it never throws, and a thread id it returns is
    truthy and mapped. *)
Lemma retryWithUniqueName_some (identifier displayName : string) (w : World) :
  ∃ r, fst (retryWithUniqueName identifier displayName w) = Normal r
       ∧ ∀ t, r = Some t →
              topicMapping (snd (retryWithUniqueName identifier displayName w)) !! identifier
              = Some t
              ∧ JS.truthy_number t = true.
Proof.
  unfold retryWithUniqueName. run. rewrite retryTopicNameFor_run. run.
  repeat (split_reply; run); eexists; (split; [ reflexivity | ]); intros t' [= <-].
  all: split; [ apply lookup_insert_eq | assumption ].
Qed.

(** The info message of a new topic: posted and pinned on a best-effort
    basis, outside the registry. *)
Lemma pinInfo_run (identifier displayName : string) (thread : Z) (w : World) :
  ∃ w', (if JS.startsWith "group_" identifier
         then createAndPinGroupInfo thread displayName identifier
         else createAndPinUserInfo thread displayName identifier) w = (Normal tt, w')
        ∧ frame w w'.
Proof.
  destruct (JS.startsWith "group_" identifier).
  - pose proof (createAndPinGroupInfo_returns thread displayName identifier w) as H.
    pose proof (frame_createAndPinGroupInfo thread displayName identifier w) as F.
    destruct (createAndPinGroupInfo thread displayName identifier w) as [r w'].
    simpl in *. subst r. eauto.
  - pose proof (createAndPinUserInfo_returns thread displayName identifier w) as H.
    pose proof (frame_createAndPinUserInfo thread displayName identifier w) as F.
    destruct (createAndPinUserInfo thread displayName identifier w) as [r w'].
    simpl in *. subst r. eauto.
Qed.

(** A thread id that [getOrCreateTopic] returns is truthy and is the
    identifier's entry of the forward map afterwards. *)
Lemma getOrCreateTopic_some (identifier displayName : string) (t : Z) (w : World) :
  fst (getOrCreateTopic identifier displayName w) = Normal (Some t) →
  topicMapping (snd (getOrCreateTopic identifier displayName w)) !! identifier = Some t
  ∧ JS.truthy_number t = true.
Proof.
  unfold getOrCreateTopic. run.
  destruct (negb (createTopics w) || negb (telegramBot w)); [ discriminate | ].
  destruct (JS.truthy_opt JS.truthy_number (topicMapping w !! identifier)) eqn:Hm.
  { run. intros [= E]. rewrite E in Hm. auto. }
  run. rewrite topicNameFor_run. run.
  assert (Hretry : ∀ w0,
    fst (retryWithUniqueName identifier displayName w0) = Normal (Some t) →
    topicMapping (snd (retryWithUniqueName identifier displayName w0)) !! identifier = Some t
    ∧ JS.truthy_number t = true).
  { intros w0 H. destruct (retryWithUniqueName_some identifier displayName w0) as (r & Hr & Hs).
    apply Hs. congruence. }
  split_reply; run.
  - split_reply; run; [ | discriminate ].
    split_reply; run.
    1, 2: match goal with
          | |- context [ (if JS.startsWith _ _ then _ else _) ?W ] =>
              destruct (pinInfo_run identifier displayName z W) as (w' & -> & F)
          end; run; intros [= <-]; rewrite (frame_topicMapping _ _ F); run;
          split; [ apply lookup_insert_eq | assumption ].
    split_reply; run; [ apply Hretry | discriminate ].
  - discriminate.
  - split_reply; run; [ apply Hretry | discriminate ].
Qed.

(** An unmapped identifier always costs a creation request, the first call
    that [getOrCreateTopic] makes. *)
Lemma getOrCreateTopic_unmapped_requests (identifier displayName : string) (w : World) :
  createTopics w = true → telegramBot w = true →
  JS.truthy_opt JS.truthy_number (topicMapping w !! identifier) = false →
  ∃ rest, calls (snd (getOrCreateTopic identifier displayName w))
          = calls w ++ CreateForumTopic (groupId w) (firstTopicName w identifier displayName)
                         (icon_color_for identifier) :: rest.
Proof.
  intros Hc Hb Hm. unfold getOrCreateTopic. run. rewrite Hc, Hb, Hm. run.
  rewrite topicNameFor_run. run.
  assert (Hretry : ∀ w0 c, calls w0 = calls w ++ [c] →
    ∃ rest, calls (snd (retryWithUniqueName identifier displayName w0)) = calls w ++ c :: rest).
  { intros w0 c H0.
    destruct (ext_calls _ _ (extends_retryWithUniqueName identifier displayName w0)) as [more Hmore].
    exists more. rewrite Hmore, H0. now rewrite <- app_assoc. }
  split_reply; run.
  - split_reply; run; [ | autorewrite with named; eauto ].
    split_reply; run.
    1, 2: match goal with
          | |- context [ (if JS.startsWith _ _ then _ else _) ?W ] =>
              destruct (pinInfo_run identifier displayName z W) as (w' & -> & F)
          end; run;
          destruct (ext_calls _ _ (frame_extends _ _ F)) as [more ->]; run;
          autorewrite with named; rewrite <- !app_assoc; simpl; eauto.
    split_reply; run.
    + match goal with
      | |- context [ retryWithUniqueName _ _ ?W ] =>
          destruct (ext_calls _ _ (extends_retryWithUniqueName identifier displayName W))
            as [more ->]
      end; run; autorewrite with named; rewrite <- !app_assoc; simpl; eauto.
    + autorewrite with named; rewrite <- !app_assoc; simpl; eauto.
  - autorewrite with named; eauto.
  - split_reply; run; [ apply Hretry | ]; run; autorewrite with named; eauto.
Qed.

(** The first request fails and is not retried: it is rejected outside the
    duplicate-name class, or its result carries no thread id. *)
Lemma getOrCreateTopic_no_retry (identifier displayName : string) (w : World) :
  createTopics w = true → telegramBot w = true →
  JS.truthy_opt JS.truthy_number (topicMapping w !! identifier) = false →
  let first := CreateForumTopic (groupId w) (firstTopicName w identifier displayName)
                 (icon_color_for identifier) in
  match reply (env w) (length (calls w)) first with
  | Rejected e => isDuplicateName e = false
  | Resolved v => JS.truthy_opt JS.truthy_number v = false
  end →
  getOrCreateTopic identifier displayName w
  = (Normal None, log_call first (named identifier displayName w)).
Proof.
  intros Hc Hb Hm first Hfirst.
  unfold getOrCreateTopic. run. rewrite Hc, Hb, Hm. run.
  rewrite topicNameFor_run. run. autorewrite with named. fold first.
  destruct (reply (env w) (length (calls w)) first) as [v|e]; run; rewrite Hfirst; reflexivity.
Qed.

(** The retry: what it requests, and what it returns when that request
    fails too. *)
Lemma retryWithUniqueName_run (identifier displayName : string) (w : World) :
  let timestamp := JS.slice_last 4 (pretty (now (env w) (length (calls w)))) in
  let second := CreateForumTopic (groupId w)
                  (disambiguated identifier (firstTopicName w identifier displayName) timestamp)
                  (icon_color_for identifier) in
  let w2 := log_call second (log_call DateNow (named identifier displayName w)) in
  match reply (env w) (S (length (calls w))) second with
  | Rejected _ => retryWithUniqueName identifier displayName w = (Normal None, w2)
  | Resolved v =>
      if JS.truthy_opt JS.truthy_number v then
        ∃ t r, v = Some t
          ∧ retryWithUniqueName identifier displayName w
            = (r, log_call (SaveTelegramTopic identifier t displayName)
                    (set_reverseTopicMapping <[t := identifier]>
                       (set_topicMapping <[identifier := t]> w2)))
      else retryWithUniqueName identifier displayName w = (Normal None, w2)
  end.
Proof.
  intros timestamp second w2. subst w2.
  unfold retryWithUniqueName. run. rewrite retryTopicNameFor_run. settle.
  fold timestamp. fold second.
  destruct (reply (env w) (S (length (calls w))) second) as [[t|]|e]; run; try reflexivity.
  destruct (JS.truthy_number t); run; [ | reflexivity ].
  split_reply; run; eauto.
Qed.

(** The first request is rejected as a duplicate name: the retry decides. *)
Lemma getOrCreateTopic_retries (identifier displayName : string) (w : World) (e : Error) :
  createTopics w = true → telegramBot w = true →
  JS.truthy_opt JS.truthy_number (topicMapping w !! identifier) = false →
  let first := CreateForumTopic (groupId w) (firstTopicName w identifier displayName)
                 (icon_color_for identifier) in
  reply (env w) (length (calls w)) first = Rejected e →
  isDuplicateName e = true →
  getOrCreateTopic identifier displayName w
  = retryWithUniqueName identifier displayName
      (log_call first (named identifier displayName w)).
Proof.
  intros Hc Hb Hm first Hfirst Hdup.
  unfold getOrCreateTopic. run. rewrite Hc, Hb, Hm. run.
  rewrite topicNameFor_run. settle. fold first. rewrite Hfirst. run.
  now rewrite Hdup.
Qed.

(** C10: with topic creation disabled in the configuration, or with the
    Telegram client not initialised, [getOrCreateTopic] answers [null] at
    once for every identifier and every state of the registry, also when
    the identifier is mapped: the world it leaves is the world it found, so
    no request was made and no registry entry was read into the result or
    written. *)
Theorem getOrCreateTopic_disabled (identifier displayName : string) (w : World) :
  createTopics w = false ∨ telegramBot w = false →
  getOrCreateTopic identifier displayName w = (Normal None, w)
  ∧ ∀ forward backward,
      fst (getOrCreateTopic identifier displayName
             (set_reverseTopicMapping (fun _ => backward)
                (set_topicMapping (fun _ => forward) w)))
      = Normal None.
Proof.
  intros Hgate.
  assert (G : negb (createTopics w) || negb (telegramBot w) = true).
  { destruct Hgate as [-> | ->]; [ reflexivity | apply orb_true_r ]. }
  split.
  - unfold getOrCreateTopic. run. now rewrite G.
  - intros forward backward. unfold getOrCreateTopic. run. now rewrite G.
Qed.

Lemma getOrCreateTopic_disabled_witness :
  let w := set_topicMapping <["15551234567" := 42]> (startWorld false false friendlyEnv) in
  topicMapping w !! "15551234567" = Some 42
  ∧ getOrCreateTopic "15551234567" "Ann" w = (Normal None, w).
Proof.
  split.
  - vm_compute. reflexivity.
  - apply (getOrCreateTopic_disabled "15551234567" "Ann"). left. reflexivity.
Defined.

(** C4: when the first creation request of a [getOrCreateTopic] call is
    rejected, then (1) outside the duplicate-name class there is no retry:
    the call returns [null] having made that one request, and both registry
    maps are untouched; (2) inside the class exactly one more creation
    request follows, for the same name with the last four digits of the
    clock appended, and when that request fails as well the call returns
    [null], the maps are untouched, and the next call for the identifier
    starts again with the first request. *)
Theorem duplicate_name_retry (identifier displayName : string) (w : World) (e : Error) :
  createTopics w = true → telegramBot w = true →
  JS.truthy_opt JS.truthy_number (topicMapping w !! identifier) = false →
  let n := length (calls w) in
  let name := firstTopicName w identifier displayName in
  let first := CreateForumTopic (groupId w) name (icon_color_for identifier) in
  let timestamp := JS.slice_last 4 (pretty (now (env w) (S n))) in
  let second := CreateForumTopic (groupId w) (disambiguated identifier name timestamp)
                  (icon_color_for identifier) in
  let r := getOrCreateTopic identifier displayName w in
  reply (env w) n first = Rejected e →
  (isDuplicateName e = false →
     fst r = Normal None ∧ calls (snd r) = calls w ++ [first]
     ∧ topicMapping (snd r) = topicMapping w
     ∧ reverseTopicMapping (snd r) = reverseTopicMapping w)
  ∧ (isDuplicateName e = true →
     (∃ rest, calls (snd r) = calls w ++ [first; DateNow; second] ++ rest
              ∧ creationCalls rest = 0%nat)
     ∧ (creationFailed (reply (env w) (S (S n)) second) →
        fst r = Normal None ∧ calls (snd r) = calls w ++ [first; DateNow; second]
        ∧ topicMapping (snd r) = topicMapping w
        ∧ reverseTopicMapping (snd r) = reverseTopicMapping w
        ∧ ∃ rest, calls (snd (getOrCreateTopic identifier displayName (snd r)))
                  = calls (snd r) ++ first :: rest)).
Proof.
  intros Hc Hb Hm n name first timestamp second r Hfirst. split; intros Hdup.
  - subst r. rewrite getOrCreateTopic_no_retry by (try assumption; fold name first n; now rewrite Hfirst).
    settle. auto.
  - subst r. rewrite (getOrCreateTopic_retries identifier displayName w e) by assumption.
    fold name first.
    pose proof (retryWithUniqueName_run identifier displayName
                  (log_call first (named identifier displayName w))) as Hrun.
    revert Hrun. settle. fold n name timestamp second.
    destruct (reply (env w) (S (S n)) second) as [v|e2] eqn:Hsecond.
    + destruct (JS.truthy_opt JS.truthy_number v) eqn:Hv.
      * intros (t & res & -> & ->). settle. split.
        -- exists [SaveTelegramTopic identifier t displayName].
           split; [ rewrite <- !app_assoc; reflexivity | reflexivity ].
        -- cbn [creationFailed JS.truthy_opt] in *. intros F. congruence.
      * intros ->. settle. split; [ exists []; split; [ rewrite <- !app_assoc; reflexivity | reflexivity ] | ].
        intros _. repeat split; try (rewrite <- !app_assoc; reflexivity).
        match goal with |- context [ getOrCreateTopic _ _ ?W ] =>
          destruct (getOrCreateTopic_unmapped_requests identifier displayName W) as [rest Hrest]
        end; settle; try assumption.
        exists rest. revert Hrest. settle. fold name first. auto.
    + intros ->. settle. split; [ exists []; split; [ rewrite <- !app_assoc; reflexivity | reflexivity ] | ].
      intros _. repeat split; try (rewrite <- !app_assoc; reflexivity).
      match goal with |- context [ getOrCreateTopic _ _ ?W ] =>
        destruct (getOrCreateTopic_unmapped_requests identifier displayName W) as [rest Hrest]
      end; settle; try assumption.
      exists rest. revert Hrest. settle. fold name first. auto.
Qed.

Lemma duplicate_name_retry_witness :
  let w := startWorld true false (noNewThreads "Bad Request: topic name already exists") in
  let r := getOrCreateTopic "15551234567" "Ann" w in
  fst r = Normal None
  ∧ calls (snd r)
    = [CreateForumTopic (groupId w) "Ann (+15551234567)" 0x6fb9f0;
       DateNow;
       CreateForumTopic (groupId w) "Ann (+15551234567) 0001" 0x6fb9f0]
  ∧ topicMapping (snd r) = ∅.
Proof.
  intros w r.
  destruct (duplicate_name_retry "15551234567" "Ann" w
              (mkError "Bad Request: topic name already exists")
              eq_refl eq_refl eq_refl eq_refl) as [_ H].
  destruct (H eq_refl) as [_ H2].
  destruct (H2 I) as (A & B & C & _).
  repeat split; assumption.
Defined.

(** The first request succeeds and the mapping is persisted. *)
Lemma getOrCreateTopic_created (identifier displayName : string) (t : Z) (v : option Z)
    (w : World) :
  createTopics w = true → telegramBot w = true →
  JS.truthy_opt JS.truthy_number (topicMapping w !! identifier) = false →
  let first := CreateForumTopic (groupId w) (firstTopicName w identifier displayName)
                 (icon_color_for identifier) in
  let save := SaveTelegramTopic identifier t displayName in
  reply (env w) (length (calls w)) first = Resolved (Some t) →
  JS.truthy_number t = true →
  reply (env w) (S (length (calls w))) save = Resolved v →
  ∃ w' more,
    getOrCreateTopic identifier displayName w = (Normal (Some t), w')
    ∧ calls w' = calls w ++ [first; save] ++ more
    ∧ creationCalls more = 0%nat
    ∧ topicMapping w' = <[identifier := t]> (topicMapping w)
    ∧ reverseTopicMapping w' = <[t := identifier]> (reverseTopicMapping w).
Proof.
  intros Hc Hb Hm first save Hfirst Ht Hsave.
  unfold getOrCreateTopic. run. rewrite Hc, Hb, Hm. run.
  rewrite topicNameFor_run. settle. fold first. rewrite Hfirst. settle.
  rewrite Ht. settle. fold save. rewrite Hsave. settle.
  match goal with
  | |- context [ (if JS.startsWith _ _ then _ else _) ?W ] =>
      destruct (pinInfo_run identifier displayName t W) as (w' & -> & F)
  end.
  destruct (frame_calls _ _ F) as (more & Hmore & Hnone).
  exists w', more. run. repeat split.
  - rewrite Hmore. settle. now rewrite <- !app_assoc.
  - exact Hnone.
  - rewrite (frame_topicMapping _ _ F). settle. reflexivity.
  - rewrite (frame_reverseTopicMapping _ _ F). settle. reflexivity.
Qed.

(** C3 (amended): a [getOrCreateTopic] call that returned a thread id is
    followed, with no change to the registry in between, by a second call
    that returns the same id from the registry and leaves the world as it
    was: it requests nothing.  The two calls together therefore make the
    creation requests of the first one; that is exactly one when the
    identifier was unmapped and the first request and the persisting of
    the mapping both succeeded. *)
Theorem getOrCreateTopic_twice (identifier displayName displayName' : string) (w : World) :
  let first := getOrCreateTopic identifier displayName w in
  let second := getOrCreateTopic identifier displayName' (snd first) in
  (∀ t, fst first = Normal (Some t) → second = (Normal (Some t), snd first))
  ∧ (∀ t v,
       createTopics w = true → telegramBot w = true →
       JS.truthy_opt JS.truthy_number (topicMapping w !! identifier) = false →
       reply (env w) (length (calls w))
         (CreateForumTopic (groupId w) (firstTopicName w identifier displayName)
            (icon_color_for identifier)) = Resolved (Some t) →
       JS.truthy_number t = true →
       reply (env w) (S (length (calls w))) (SaveTelegramTopic identifier t displayName)
       = Resolved v →
       fst first = Normal (Some t)
       ∧ ∃ made, calls (snd second) = calls w ++ made ∧ creationCalls made = 1%nat).
Proof.
  intros first second.
  assert (Hsecond : ∀ t, fst first = Normal (Some t) → second = (Normal (Some t), snd first)).
  { intros t Hfirst. subst second.
    destruct (getOrCreateTopic_some identifier displayName t w Hfirst) as [Hmapped Ht].
    pose proof (extends_getOrCreateTopic identifier displayName w) as X. fold first in X, Hmapped.
    assert (Hgate : negb (createTopics w) || negb (telegramBot w) = false).
    { subst first. revert Hfirst. unfold getOrCreateTopic. run.
      destruct (negb (createTopics w) || negb (telegramBot w)); [ discriminate | reflexivity ]. }
    apply orb_false_elim in Hgate as [Hc Hb].
    apply negb_false_iff in Hc, Hb.
    apply getOrCreateTopic_mapped; try assumption.
    - now rewrite (ext_createTopics _ _ X).
    - now rewrite (ext_telegramBot _ _ X). }
  split; [ exact Hsecond | ].
  intros t v Hc Hb Hm Hreq Ht Hsave.
  destruct (getOrCreateTopic_created identifier displayName t v w Hc Hb Hm Hreq Ht Hsave)
    as (w' & more & Hrun & Hcalls & Hnone & _).
  assert (Hfirst : fst first = Normal (Some t)) by (subst first; now rewrite Hrun).
  split; [ exact Hfirst | ].
  rewrite (Hsecond t Hfirst). subst first. rewrite Hrun. run.
  eexists. split; [ exact Hcalls | ].
  rewrite creationCalls_app, Hnone. reflexivity.
Qed.

Lemma getOrCreateTopic_twice_witness :
  let w := startWorld true false friendlyEnv in
  let first := getOrCreateTopic "15551234567" "Ann" w in
  let second := getOrCreateTopic "15551234567" "Ann" (snd first) in
  fst first = Normal (Some 100)
  ∧ ∃ made, calls (snd second) = calls w ++ made ∧ creationCalls made = 1%nat.
Proof.
  intros w first second.
  apply (proj2 (getOrCreateTopic_twice "15551234567" "Ann" "Ann" w) 100 (Some 501));
    reflexivity.
Defined.

(** C3 as stated fails: here the identifier is unmapped, the first call
    succeeds (through the duplicate-name retry) and the second call answers
    from the registry, yet two creation requests were made, not one. *)
Lemma getOrCreateTopic_twice_two_requests :
  let w := startWorld true false (rejectFirst "Bad Request: topic name already exists") in
  let first := getOrCreateTopic "group_g1" "Team" w in
  let second := getOrCreateTopic "group_g1" "Team" (snd first) in
  topicMapping w !! "group_g1" = None
  ∧ fst first = Normal (Some 102)
  ∧ fst second = Normal (Some 102)
  ∧ creationCalls (calls (snd second)) = 2%nat.
Proof. vm_compute. repeat split. Qed.

(** ** The retrying sender *)

(** Removing the entries of an identifier keeps the maps inverse when the
    thread given is the identifier's own. *)
Lemma removeOldMapping_inverse (identifier : string) (thread : Z) (w : World) :
  inverse_maps w → topicMapping w !! identifier = Some thread →
  inverse_maps (removeOldMapping identifier thread w).
Proof.
  intros Hinv Hown j u. run. rewrite !lookup_delete_Some. split.
  - intros [Hj Hfwd]. split; [ | now apply Hinv ].
    intros <-. apply Hinv in Hown, Hfwd. congruence.
  - intros [Hu Hrev]. split; [ | now apply Hinv ].
    intros <-. apply Hinv in Hrev. congruence.
Qed.

(** C1 (amended): when the first send is rejected with error [e], then
    (1) unless the identifier, the display name and the payload's thread id
    are all present and truthy and [e] is of the thread-missing class, [e]
    propagates and nothing else happens; (2) otherwise the registry is
    invalidated and [getOrCreateTopic] is called for the identifier; when
    it returns a thread id, the id is put into the payload and the send is
    repeated exactly once, its outcome being the outcome of the call; when
    it returns [null] there is no second send and [e] propagates.  For an
    identifier with a known mapping, whose thread is the one the payload
    carries, the invalidation removes the identifier's forward and reverse
    entries: [getOrCreateTopic] starts where the identifier has no forward
    entry and its thread no reverse entry, and, the maps having been
    inverse, where they still are and no thread leads to the identifier.
    In every case the trace ends with the calls listed: no further
    recreate. *)
Theorem sendToTelegramWithRetry_recreate (chatId : Z) (message : string)
    (options : SendOptions) (identifier displayName : option string) (w : World) (e : Error) :
  let send1 := SendMessage chatId message options in
  let w1 := log_call send1 w in
  let out := sendToTelegramWithRetry chatId message options identifier displayName w in
  reply (env w) (length (calls w)) send1 = Rejected e →
  (canRecreate identifier displayName options && isThreadMissing e = false →
     out = (Thrown e, options, w1))
  ∧ (canRecreate identifier displayName options && isThreadMissing e = true →
     ∃ ident name thread,
       identifier = Some ident ∧ displayName = Some name
       ∧ message_thread_id options = Some thread
       ∧ let w2 := removeOldMapping ident thread w1 in
         let created := getOrCreateTopic ident name w2 in
         (topicMapping w !! ident = Some thread →
            topicMapping w2 !! ident = None
            ∧ reverseTopicMapping w2 !! thread = None
            ∧ (inverse_maps w →
               inverse_maps w2 ∧ ∀ u, reverseTopicMapping w2 !! u ≠ Some ident))
         ∧ match fst created with
           | Normal (Some t) =>
               let options' := set_message_thread_id (Some t) options in
               let send2 := SendMessage chatId message options' in
               JS.truthy_number t = true
               ∧ topicMapping (snd created) !! ident = Some t
               ∧ out = (match reply (env w) (length (calls (snd created))) send2 with
                        | Resolved sent => Normal sent
                        | Rejected retryError => Thrown retryError
                        end, options', log_call send2 (snd created))
           | Normal None => out = (Thrown e, options, snd created)
           | Thrown _ => False
           end).
Proof.
  intros send1 w1 out Hsend. subst out. unfold sendToTelegramWithRetry. run.
  fold send1. rewrite Hsend. fold w1. split; intros Hcond.
  - rewrite Hcond. destruct identifier, displayName, (message_thread_id options); reflexivity.
  - rewrite Hcond.
    destruct identifier as [ident|]; [ | discriminate ].
    destruct displayName as [name|]; [ | unfold canRecreate in Hcond; simpl in Hcond;
                                         rewrite andb_false_r in Hcond; discriminate ].
    destruct (message_thread_id options) as [thread|] eqn:Hthread;
      [ | unfold canRecreate in Hcond; rewrite Hthread in Hcond; simpl in Hcond;
          rewrite !andb_false_r in Hcond; discriminate ].
    exists ident, name, thread. repeat (split; [ reflexivity | ]).
    cbv zeta. split.
    { intros Hown. split; [ apply lookup_delete_eq | ]. split; [ apply lookup_delete_eq | ].
      intros Hinv.
      assert (Hinv2 : inverse_maps (removeOldMapping ident thread w1)).
      { apply removeOldMapping_inverse; [ exact Hinv | exact Hown ]. }
      split; [ exact Hinv2 | ].
      intros u Hu. apply Hinv2 in Hu. revert Hu. run. now rewrite lookup_delete_eq. }
    pose proof (getOrCreateTopic_some ident name) as Hsome.
    pose proof (extends_getOrCreateTopic ident name (removeOldMapping ident thread w1)) as X.
    destruct (getOrCreateTopic_returns ident name (removeOldMapping ident thread w1)) as [r Hr].
    specialize (Hsome) with (w := removeOldMapping ident thread w1).
    destruct (getOrCreateTopic ident name (removeOldMapping ident thread w1)) as [c w3].
    simpl in Hr, X, Hsome |- *. subst c.
    destruct r as [t|]; [ | reflexivity ].
    destruct (Hsome t eq_refl) as [Hmapped Ht]. run. rewrite Ht.
    repeat (split; [ assumption | ]).
    rewrite (ext_env _ _ X). subst w1. run.
    now destruct (reply (env w) (length (calls w3)) _).
Qed.

Lemma sendToTelegramWithRetry_recreate_witness :
  let w := oneGroup 7 (threadGone 7) in
  let options := infoOptions 7 in
  let out := sendToTelegramWithRetry (groupId w) "hello" options
               (Some "group_g1") (Some "Team") w in
  out.1.1 = Normal (Some 505)
  ∧ message_thread_id out.1.2 = Some 101
  ∧ count_calls isSendMessage (calls out.2) = 3%nat
  ∧ topicMapping out.2 !! "group_g1" = Some 101
  ∧ reverseTopicMapping out.2 !! 7 = None.
Proof.
  intros w options out.
  destruct (sendToTelegramWithRetry_recreate (groupId w) "hello" options
              (Some "group_g1") (Some "Team") w
              (mkError "ETELEGRAM: 400 Bad Request: message thread not found") eq_refl)
    as [_ H].
  destruct (H eq_refl) as (ident & name & thread & E1 & E2 & E3 & H').
  injection E1 as <-. injection E2 as <-. injection E3 as <-.
  cbv zeta in H'. destruct H' as (_ & H').
  match type of H' with
  | match ?s with _ => _ end =>
      assert (E : s = Normal (Some 101)) by (vm_compute; reflexivity); rewrite E in H'
  end.
  destruct H' as (_ & _ & Hout). subst out. rewrite Hout.
  vm_compute. repeat split.
Defined.

(** C1 as stated fails: the send is rejected as thread-missing, identifier,
    display name and thread id are supplied, the old entries are removed
    and [getOrCreateTopic] is called, but it returns [null]; the send is
    then not repeated and the first error propagates. *)
Lemma sendToTelegramWithRetry_no_retry :
  let w := oneGroup 7 (threadGoneForGood 7) in
  let options := infoOptions 7 in
  let e := mkError "ETELEGRAM: 400 Bad Request: message thread not found" in
  let out := sendToTelegramWithRetry (groupId w) "hello" options
               (Some "group_g1") (Some "Team") w in
  reply (env w) 0 (SendMessage (groupId w) "hello" options) = Rejected e
  ∧ (canRecreate (Some "group_g1") (Some "Team") options && isThreadMissing e) = true
  ∧ out.1.1 = Thrown e
  ∧ out.1.2 = options
  ∧ count_calls isSendMessage (calls out.2) = 1%nat
  ∧ creationCalls (calls out.2) = 1%nat
  ∧ topicMapping out.2 !! "group_g1" = None.
Proof. vm_compute. repeat split. Qed.

(** ** The inverse invariant *)

Lemma inverse_maps_oneGroup (t : Z) (e : Env) : inverse_maps (oneGroup t e).
Proof.
  intros i u. unfold oneGroup, startWorld. run.
  rewrite !lookup_insert_Some, !lookup_empty.
  split; (intros [[<- <-]|[_ [=]]]); left; split; reflexivity.
Qed.

(** Mapping an unmapped identifier to an unused thread keeps them inverse. *)
Lemma set_mapping_inverse (identifier : string) (thread : Z) (w : World) :
  inverse_maps w →
  topicMapping w !! identifier = None → reverseTopicMapping w !! thread = None →
  inverse_maps (snd (set_mapping identifier thread w)).
Proof.
  intros Hinv Hfree Hunused j u. run. rewrite !lookup_insert_Some. split.
  - intros [[<- <-] | [Hj Hfwd]]; [ now left | right ].
    split; [ | now apply Hinv ]. intros <-. apply Hinv in Hfwd. congruence.
  - intros [[<- <-] | [Hu Hrev]]; [ now left | right ].
    split; [ | now apply Hinv ]. intros <-. apply Hinv in Hrev. congruence.
Qed.

(** C2 fails on the code: the registry starts with one group mapped to
    thread 7 and the two maps inverse to each other; thread 7 has been
    deleted on Telegram.  Forwarding one group message that shares a
    contact makes two sends with the topic id read before the first one.
    The first send recreates the topic (thread 101); the second send still
    carries 7, so the recreate step deletes the forward entry of the group
    and the reverse entry of 7, which is not the group's any more, and
    creates thread 109: the reverse map is left with two entries for the
    group, 101 and 109, and the maps are no longer inverse. *)
Theorem stale_topic_id_breaks_inverse :
  let w := oneGroup 7 (threadGone 7) in
  let w' := snd (forwardGroupContact sharedContact w) in
  inverse_maps w
  ∧ topicMapping w' !! "group_g1" = Some 109
  ∧ reverseTopicMapping w' !! 101 = Some "group_g1"
  ∧ reverseTopicMapping w' !! 109 = Some "group_g1"
  ∧ ¬ inverse_maps w'.
Proof.
  intros w w'.
  assert (F : topicMapping w' !! "group_g1" = Some 109) by (vm_compute; reflexivity).
  assert (R : reverseTopicMapping w' !! 101 = Some "group_g1") by (vm_compute; reflexivity).
  split; [ apply inverse_maps_oneGroup | ].
  repeat split; try assumption; try (vm_compute; reflexivity).
  intros Hinv. apply Hinv in R. rewrite F in R. discriminate.
Qed.

(** ** The identifier of an individual chat *)

Lemma digit_is_not_plus (c : ascii) : isDigit c = true → isPlus c = false.
Proof.
  unfold isDigit, isPlus. intros H.
  destruct (Ascii.eqb c "+") eqn:E; [ | reflexivity ].
  apply Ascii.eqb_eq in E. subst c. discriminate.
Qed.

Lemma keepDigitsAndPlus_chars (s : string) :
  allChars (fun c => isDigit c || isPlus c) (keepDigitsAndPlus s) = true.
Proof.
  induction s as [|c s IH]; [ reflexivity | ].
  simpl. destruct (isDigit c || isPlus c) eqn:E; [ | exact IH ].
  simpl. now rewrite E, IH.
Qed.

(** In a string of digits and ['+'], the digits are what is not ['+']. *)
Lemma digits_iff_no_plus (s : string) :
  allChars (fun c => isDigit c || isPlus c) s = true →
  allChars isDigit s = negb (hasPlus s).
Proof.
  unfold hasPlus. rewrite negb_involutive.
  induction s as [|c s IH]; [ reflexivity | ].
  simpl. intros [Hc Hs]%andb_true_iff. rewrite (IH Hs).
  destruct (isDigit c) eqn:D.
  - now rewrite (digit_is_not_plus c D).
  - simpl in Hc. now rewrite Hc.
Qed.

Lemma startsWith_plus (s : string) :
  JS.startsWith "+" s = match s with
                        | String c _ => isPlus c
                        | EmptyString => false
                        end.
Proof.
  destruct s as [|c s]; [ reflexivity | ].
  unfold JS.startsWith, isPlus.
  change (String.prefix "+" (String c s))
    with (if ascii_dec "+" c then String.prefix "" s else false).
  destruct (ascii_dec "+" c) as [<-|N].
  - now destruct s.
  - symmetry. apply Ascii.eqb_neq. congruence.
Qed.

(** C5 (amended): the identifier of an individual chat is what is left of
    the sender's local part after every character other than a decimal
    digit or ['+'] is removed, and then one leading ['+'].  It consists of
    digits and ['+'] only, and it consists of digits only exactly when no
    ['+'] follows the first character that was kept; so it does for every
    sender that has no ['+'], or one ['+'] in front of its first digit. *)
Theorem whatsappNumberOf_digits (m : WaMessage) :
  let kept := keepDigitsAndPlus (JS.or_string (m_sender_user m) (beforeAt (m_sender m))) in
  allChars (fun c => isDigit c || isPlus c) (whatsappNumberOf m) = true
  ∧ allChars isDigit (whatsappNumberOf m) = negb (hasPlus (dropFirst kept))
  ∧ (hasPlus (JS.or_string (m_sender_user m) (beforeAt (m_sender m))) = false →
     allChars isDigit (whatsappNumberOf m) = true).
Proof.
  intros kept.
  pose proof (keepDigitsAndPlus_chars
                (JS.or_string (m_sender_user m) (beforeAt (m_sender m)))) as K.
  fold kept in K.
  assert (Hshape : whatsappNumberOf m
                   = if JS.startsWith "+" kept then dropFirst kept else kept) by reflexivity.
  assert (Hall : allChars (fun c => isDigit c || isPlus c) (whatsappNumberOf m) = true).
  { rewrite Hshape. destruct (JS.startsWith "+" kept); [ | exact K ].
    destruct kept as [|c rest]; [ reflexivity | ].
    simpl in K |- *. now apply andb_true_iff in K as [_ K]. }
  assert (Hdigits : allChars isDigit (whatsappNumberOf m) = negb (hasPlus (dropFirst kept))).
  { rewrite (digits_iff_no_plus _ Hall), Hshape, startsWith_plus.
    destruct kept as [|c rest]; [ reflexivity | ].
    destruct (isPlus c) eqn:P; [ reflexivity | ].
    unfold hasPlus. simpl. now rewrite P. }
  repeat split; [ exact Hall | exact Hdigits | ].
  intros Hnone. rewrite Hdigits.
  assert (Hkeep : ∀ s, hasPlus s = false → hasPlus (keepDigitsAndPlus s) = false).
  { unfold hasPlus. intros s. rewrite !negb_false_iff.
    induction s as [|c s IH]; [ reflexivity | ].
    simpl. intros [Hc Hs]%andb_true_iff.
    destruct (isDigit c || isPlus c); [ simpl; now rewrite Hc, IH | now apply IH ]. }
  apply Hkeep in Hnone. fold kept in Hnone.
  destruct kept as [|c rest]; [ reflexivity | ].
  unfold hasPlus in *. simpl in *.
  apply negb_false_iff, andb_true_iff in Hnone as [_ Hrest]. now rewrite Hrest.
Qed.

Lemma whatsappNumberOf_digits_witness :
  hasPlus (JS.or_string None (beforeAt "15551234567:12@s.whatsapp.net")) = false
  ∧ allChars isDigit (whatsappNumberOf (fromSender "15551234567:12@s.whatsapp.net")) = true
  ∧ whatsappNumberOf (fromSender "15551234567:12@s.whatsapp.net") = "1555123456712".
Proof.
  split; [ reflexivity | split ].
  - apply (proj2 (proj2 (whatsappNumberOf_digits
                           (fromSender "15551234567:12@s.whatsapp.net")))).
    reflexivity.
  - reflexivity.
Defined.

(** C5 as stated fails: a ['+'] inside the sender's local part is kept, so
    the identifier is not made of digits only. *)
Lemma whatsappNumberOf_keeps_plus :
  whatsappNumberOf (fromSender "1555+1234567@s.whatsapp.net") = "1555+1234567"
  ∧ allChars isDigit (whatsappNumberOf (fromSender "1555+1234567@s.whatsapp.net")) = false.
Proof. split; reflexivity. Qed.

(** ** Stickers without a transcoder *)

Lemma mapForReplies_run (sentMessage : option Z) (m : WaMessage) (w : World) :
  ∃ w', mapForReplies sentMessage m w = (Normal tt, w')
        ∧ calls w' = calls w ∧ files w' = files w ∧ env w' = env w.
Proof.
  unfold mapForReplies.
  destruct sentMessage as [message_id|], (m_id m) as [id|]; run; eauto.
  destruct (JS.truthy_number message_id && JS.truthy_string id); run; eauto.
Qed.

(** C6 (amended): with the transcoder flag false, forwarding a sticker,
    animated or not, never runs the external transcoder and leaves the
    scratch files alone.  The original bytes are sent as a sticker; when
    Telegram accepts them nothing else is sent.  Only when that send is
    rejected are the same bytes sent as a photo, and a rejection of the
    photo is thrown out of the sticker branch. *)
Theorem forwardSticker_without_ffmpeg (m : WaMessage) (mediaBuffer : Buffer)
    (mediaOptions : SendOptions) (topicId : Z) (w : World) :
  ffmpegAvailable w = false →
  let sticker := SendSticker (groupId w) mediaBuffer (threadOnly topicId None) in
  let photo := SendPhoto (groupId w) mediaBuffer
                 (threadOnly topicId
                    (Some (JS.or_string (caption mediaOptions) "🎭 Sticker (as image)"))) in
  let n := length (calls w) in
  let r := forwardSticker m mediaBuffer mediaOptions topicId w in
  files (snd r) = files w
  ∧ count_calls isExec (calls (snd r)) = count_calls isExec (calls w)
  ∧ match reply (env w) n sticker with
    | Resolved _ => fst r = Normal tt ∧ calls (snd r) = calls w ++ [sticker]
    | Rejected _ =>
        calls (snd r) = calls w ++ [sticker; photo]
        ∧ match reply (env w) (S n) photo with
          | Resolved _ => fst r = Normal tt
          | Rejected e => fst r = Thrown e
          end
    end.
Proof.
  intros Hflag sticker photo n r. subst r. unfold forwardSticker. run.
  rewrite Hflag, andb_false_r. run. fold sticker n.
  destruct (reply (env w) n sticker) as [sent|e1]; run.
  - destruct (mapForReplies_run sent m (log_call sticker w)) as (w' & -> & Hc & Hf & _).
    run. rewrite Hc, Hf. run. rewrite count_calls_app.
    repeat split. unfold count_calls at 2. simpl. lia.
  - rewrite length_snoc. fold n photo.
    destruct (reply (env w) (S n) photo) as [sent|e2]; run.
    + destruct (mapForReplies_run sent m (log_call photo (log_call sticker w)))
        as (w' & -> & Hc & Hf & _).
      run. rewrite Hc, Hf. run. rewrite <- app_assoc, count_calls_app.
      repeat split. unfold count_calls at 2. simpl. lia.
    + rewrite <- app_assoc, count_calls_app.
      repeat split. unfold count_calls at 2. simpl. lia.
Qed.

Lemma forwardSticker_without_ffmpeg_witness :
  let w := startWorld true false noUploads in
  let r := forwardSticker animatedSticker [] (threadOnly 7 None) 7 w in
  count_calls isExec (calls (snd r)) = 0%nat
  ∧ count_calls isPhoto (calls (snd r)) = 1%nat
  ∧ fst r = Thrown (mkError "ETELEGRAM: 413 Request Entity Too Large").
Proof.
  intros w r.
  destruct (forwardSticker_without_ffmpeg animatedSticker [] (threadOnly 7 None) 7 w eq_refl)
    as (_ & Hexec & Hcalls & Hthrown).
  fold r in Hexec, Hcalls, Hthrown.
  split; [ exact Hexec | ]. split; [ rewrite Hcalls; reflexivity | exact Hthrown ].
Defined.

(** C6 as stated fails twice.  When Telegram accepts the upload, the
    animated sticker goes out as a sticker payload and no photo is sent;
    when Telegram rejects both uploads, the error of the photo leaves the
    sticker branch. *)
Lemma forwardSticker_sends_sticker :
  let accepted := forwardSticker animatedSticker [] (threadOnly 7 None) 7
                    (startWorld true false friendlyEnv) in
  let refused := forwardSticker animatedSticker [] (threadOnly 7 None) 7
                   (startWorld true false noUploads) in
  stickerIsAnimated animatedSticker = true
  ∧ calls (snd accepted) = [SendSticker (-1001234567890) [] (threadOnly 7 None)]
  ∧ count_calls isPhoto (calls (snd accepted)) = 0%nat
  ∧ fst refused = Thrown (mkError "ETELEGRAM: 413 Request Entity Too Large").
Proof. vm_compute. repeat split. Qed.

(** ** The status topic *)

(** C9 (amended): a message of the configured group, from a sender that is
    not a bot, in the status topic, that is no reply or replies to a
    message the status map has no entry for, makes exactly one call: the
    usage hint, sent into the status topic as a reply to the message.  No
    reaction goes to WhatsApp. *)
Theorem status_topic_hint (relayToWhatsApp : string → TgMessage → M unit)
    (msg : TgMessage) (topicId : Z) (w : World) :
  chat_id msg = groupId w →
  from_is_bot msg = false →
  thread_id msg = Some topicId → JS.truthy_number topicId = true →
  statusTopicId w = Some topicId →
  (reply_to_message msg = None
   ∨ ∃ target, reply_to_message msg = Some target ∧ statusMessageMapping w !! target = None) →
  let hint := SendMessage (chat_id msg) statusHint (hintOptions topicId (message_id msg)) in
  handleTelegramMessage relayToWhatsApp msg w = (Normal tt, log_call hint w)
  ∧ message_thread_id (hintOptions topicId (message_id msg)) = statusTopicId w
  ∧ count_calls isWhatsAppSend (calls (log_call hint w))
    = count_calls isWhatsAppSend (calls w).
Proof.
  intros Hchat Hbot Hthread Htruthy Hstatus Huntracked hint.
  assert (Hlookup : reply_to_message msg ≫= (fun target =>
                      truthy_or_null (statusMessageMapping w !! target)) = None).
  { destruct Huntracked as [-> | (target & -> & Hnone)]; [ reflexivity | ].
    simpl. now rewrite Hnone. }
  split; [ | split ].
  - unfold handleTelegramMessage. run.
    rewrite Hchat, Z.eqb_refl, Hbot, Hthread. run. rewrite Htruthy. run.
    rewrite Hstatus, bool_decide_eq_true_2 by reflexivity.
    rewrite Hlookup. run. subst hint. rewrite Hchat.
    now destruct (reply (env w) (length (calls w)) _).
  - now rewrite Hstatus.
  - run. rewrite count_calls_app. unfold count_calls at 2. simpl. lia.
Qed.

Lemma status_topic_hint_witness :
  let hint := SendMessage (-1001234567890) statusHint (hintOptions 5 900) in
  handleTelegramMessage (fun _ _ => ret tt) (typedInStatusTopic false) statusWorld
  = (Normal tt, log_call hint statusWorld).
Proof.
  intros hint.
  apply (status_topic_hint (fun _ _ => ret tt) (typedInStatusTopic false) 5 statusWorld);
    try reflexivity.
  left. reflexivity.
Defined.

(** C9 as stated fails: a message that arrives in the status topic from a
    bot account is dropped by the guard in front of the topic dispatch; no
    hint is sent. *)
Lemma status_topic_bot_ignored :
  thread_id (typedInStatusTopic true) = statusTopicId statusWorld
  ∧ reply_to_message (typedInStatusTopic true) = None
  ∧ handleTelegramMessage (fun _ _ => ret tt) (typedInStatusTopic true) statusWorld
    = (Normal tt, statusWorld)
  ∧ calls statusWorld = [].
Proof. repeat split. Qed.

(** ** Scratch files *)

Ltac run_fs :=
  cbv beta iota delta [bind try_catch ret throw get modify writeFileSync readFileSync
                       unlinkSync unlinkIfExists existsSync execSync ensureTempDir Date_now];
  cbn [createTopics groupId telegramBot whatsappBot topicMapping reverseTopicMapping
       statusTopicId callTopicId contactsCache pinnedMessages statusMessageMapping
       chatMessageMapping ffmpegAvailable tempDir files env calls
       log_call set_topicMapping set_reverseTopicMapping set_contactsCache
       set_pinnedMessages set_chatMessageMapping set_tempDir set_files
       fst snd negb orb andb].

Lemma scratch_paths_differ (t1 t2 : N) (ext1 ext2 : string) :
  scratchInput t1 ext1 ≠ scratchOutput t2 ext2.
Proof.
  unfold scratchInput, scratchOutput, path_join, tempDirPath. intros H.
  cbv -[pretty] in H. discriminate H.
Qed.

Section Scratch.

Variables (inputFile outputFile command : string) (buffer : Buffer).
Variable finish : Error → M Buffer.
Hypothesis distinct : inputFile ≠ outputFile.
Hypothesis finish_pure : ∀ e w, snd (finish e w) = w.

(** The [catch] block of a conversion: both scratch files are gone when
    [finish] takes over, and nothing else has changed. *)
Lemma cleanup_run (e : Error) (w : World) :
  ∃ w1, (unlinkIfExists inputFile ;;; unlinkIfExists outputFile ;;; finish e) w = finish e w1
        ∧ files w1 !! inputFile = None ∧ files w1 !! outputFile = None
        ∧ calls w1 = calls w.
Proof.
  run_fs.
  destruct (files w !! inputFile) as [a|] eqn:Hin; run_fs; rewrite ?Hin; run_fs.
  - rewrite lookup_delete_ne by exact distinct.
    destruct (files w !! outputFile) as [b|] eqn:Hout; run_fs.
    + rewrite lookup_delete_ne, Hout by exact distinct. run_fs.
      eexists. split; [ reflexivity | ]. run_fs.
      rewrite lookup_delete_ne, !lookup_delete_eq by congruence. auto.
    + eexists. split; [ reflexivity | ]. run_fs.
      rewrite lookup_delete_eq, lookup_delete_ne, Hout by exact distinct. auto.
  - destruct (files w !! outputFile) as [b|] eqn:Hout; run_fs; rewrite ?Hout; run_fs.
    + eexists. split; [ reflexivity | ]. run_fs.
      rewrite lookup_delete_ne, lookup_delete_eq, Hin by congruence. auto.
    + eexists. split; [ reflexivity | ]. auto.
Qed.

(** The [try] block of a conversion together with its [catch] block:
    whatever [ffmpeg] does, both scratch files are gone at the end; the
    output is returned when [ffmpeg] succeeded and both files could be
    read and removed, and [finish] decides the outcome otherwise. *)
Lemma conversion_run (w : World) :
  tempDir w = true →
  let ran := ffmpeg (env w) (length (calls w)) command (<[inputFile := buffer]> (files w)) in
  let r := try_catch
             (writeFileSync inputFile buffer ;;;
              execSync command ;;;
              converted <- readFileSync outputFile ;;
              unlinkSync inputFile ;;;
              unlinkSync outputFile ;;;
              ret converted)
             (fun error =>
                unlinkIfExists inputFile ;;;
                unlinkIfExists outputFile ;;;
                finish error) w in
  files (snd r) !! inputFile = None
  ∧ files (snd r) !! outputFile = None
  ∧ calls (snd r) = calls w ++ [ExecSync command]
  ∧ match fst ran with
    | Some e => ∃ w1, fst r = fst (finish e w1)
    | None =>
        match snd ran !! outputFile, snd ran !! inputFile with
        | Some converted, Some _ => fst r = Normal converted
        | Some _, None => ∃ w1, fst r = fst (finish (ENOENT inputFile) w1)
        | None, _ => ∃ w1, fst r = fst (finish (ENOENT outputFile) w1)
        end
    end.
Proof.
  intros Htemp ran r.
  assert (Hcatch : ∀ e w0, calls w0 = calls w ++ [ExecSync command] →
    let c := (unlinkIfExists inputFile ;;; unlinkIfExists outputFile ;;; finish e) w0 in
    files (snd c) !! inputFile = None ∧ files (snd c) !! outputFile = None
    ∧ calls (snd c) = calls w ++ [ExecSync command] ∧ ∃ w1, fst c = fst (finish e w1)).
  { intros e w0 Hcalls. destruct (cleanup_run e w0) as (w1 & -> & Hi & Ho & Hc).
    cbv zeta. rewrite finish_pure. rewrite Hc. eauto 6. }
  pose (W := fun fs1 : gmap string Buffer =>
               log_call (ExecSync command)
                 (set_files (fun _ => fs1) (set_files <[inputFile := buffer]> w))).
  assert (Hcalls : ∀ fs1, calls (W fs1) = calls w ++ [ExecSync command]) by reflexivity.
  subst ran.
  destruct (ffmpeg (env w) (length (calls w)) command (<[inputFile := buffer]> (files w)))
    as [[e|] fs1] eqn:Hran; cbn [fst snd].
  - assert (Hr : r = (unlinkIfExists inputFile ;;; unlinkIfExists outputFile ;;; finish e)
                       (W fs1)).
    { subst r W. repeat progress (run_fs; rewrite ?Htemp, ?Hran). reflexivity. }
    clearbody r. subst r. exact (Hcatch e (W fs1) (Hcalls fs1)).
  - destruct (fs1 !! outputFile) as [converted|] eqn:Hout.
    + destruct (fs1 !! inputFile) as [original|] eqn:Hin.
      * assert (Hr : r = (Normal converted,
                          set_files (delete outputFile)
                            (set_files (delete inputFile) (W fs1)))).
        { subst r W. repeat progress (run_fs; rewrite ?Htemp, ?Hran, ?Hout, ?Hin).
          rewrite lookup_delete_ne, Hout by exact distinct. reflexivity. }
        clearbody r. subst r. subst W. run_fs.
        rewrite lookup_delete_ne, !lookup_delete_eq by congruence. auto.
      * assert (Hr : r = (unlinkIfExists inputFile ;;; unlinkIfExists outputFile ;;;
                          finish (ENOENT inputFile)) (W fs1)).
        { subst r W. repeat progress (run_fs; rewrite ?Htemp, ?Hran, ?Hout, ?Hin).
          reflexivity. }
        clearbody r. subst r. exact (Hcatch _ (W fs1) (Hcalls fs1)).
    + assert (Hr : r = (unlinkIfExists inputFile ;;; unlinkIfExists outputFile ;;;
                        finish (ENOENT outputFile)) (W fs1)).
      { subst r W. repeat progress (run_fs; rewrite ?Htemp, ?Hran, ?Hout).
        reflexivity. }
      clearbody r. subst r. exact (Hcatch _ (W fs1) (Hcalls fs1)).
Qed.

End Scratch.

(** What the step in front of the [try] block does. *)
Lemma ensureTempDir_run (w : World) :
  ensureTempDir w
  = match mkdirError w with
    | None => (Normal tt, if tempDir w then w else set_tempDir true w)
    | Some e => (Thrown e, w)
    end.
Proof.
  unfold ensureTempDir, mkdirSync, mkdirError. cbv beta iota delta [bind get modify ret throw].
  destruct (tempDir w); cbn [negb]; [ reflexivity | ].
  now destruct (mkdir (env w) (length (calls w))).
Qed.

Lemma prepared_projections (w : World) :
  tempDir (prepared w) = true ∧ files (prepared w) = files w ∧ env (prepared w) = env w
  ∧ calls (prepared w) = calls w ++ [DateNow; DateNow]
  ∧ length (calls (prepared w)) = S (S (length (calls w))).
Proof.
  unfold prepared. destruct (tempDir w) eqn:T; run_fs; rewrite ?T, !length_snoc, <- app_assoc; auto.
Qed.

(** Each conversion, once past its availability test, is its [try] block
    run in the [prepared] world on the two clock-stamped paths. *)
Lemma convertToVideoNote_run (videoBuffer : Buffer) (w : World) :
  ffmpegAvailable w = true →
  mkdirError w = None →
  let inputFile := scratchInput (now (env w) (length (calls w))) "mp4" in
  let outputFile := scratchOutput (now (env w) (S (length (calls w)))) "mp4" in
  convertToVideoNote videoBuffer w
  = try_catch
      (writeFileSync inputFile videoBuffer ;;;
       execSync (videoNoteCommand inputFile outputFile) ;;;
       videoNoteBuffer <- readFileSync outputFile ;;
       unlinkSync inputFile ;;;
       unlinkSync outputFile ;;;
       ret videoNoteBuffer)
      (fun error =>
         unlinkIfExists inputFile ;;;
         unlinkIfExists outputFile ;;;
         ret videoBuffer) (prepared w).
Proof.
  intros Hflag Hdir inputFile outputFile. unfold convertToVideoNote, prepared.
  unfold bind at 1. unfold get at 1. rewrite Hflag. cbn [negb].
  unfold bind at 1. rewrite ensureTempDir_run, Hdir.
  cbv beta iota delta [bind Date_now].
  destruct (tempDir w) eqn:T; cbn [env calls log_call set_tempDir]; rewrite ?length_snoc;
    reflexivity.
Qed.

Lemma convertAnimatedWebPToMP4_run (webpBuffer : Buffer) (w : World) :
  ffmpegAvailable w = true →
  mkdirError w = None →
  let inputFile := scratchInput (now (env w) (length (calls w))) "webp" in
  let outputFile := scratchOutput (now (env w) (S (length (calls w)))) "mp4" in
  convertAnimatedWebPToMP4 webpBuffer w
  = try_catch
      (writeFileSync inputFile webpBuffer ;;;
       execSync (mp4Command inputFile outputFile) ;;;
       mp4Buffer <- readFileSync outputFile ;;
       unlinkSync inputFile ;;;
       unlinkSync outputFile ;;;
       ret mp4Buffer)
      (fun error =>
         unlinkIfExists inputFile ;;;
         unlinkIfExists outputFile ;;;
         throw error) (prepared w).
Proof.
  intros Hflag Hdir inputFile outputFile. unfold convertAnimatedWebPToMP4, prepared.
  unfold bind at 1. unfold get at 1. rewrite Hflag. cbn [negb].
  unfold bind at 1. rewrite ensureTempDir_run, Hdir.
  cbv beta iota delta [bind Date_now].
  destruct (tempDir w) eqn:T; cbn [env calls log_call set_tempDir]; rewrite ?length_snoc;
    reflexivity.
Qed.

Lemma convertTelegramStickerToWebP_run (stickerBuffer : Buffer) (animatedInput : bool)
    (w : World) :
  negb (ffmpegAvailable w) && animatedInput = false →
  mkdirError w = None →
  let inputFile := scratchInput (now (env w) (length (calls w)))
                     (if animatedInput then "webm" else "webp") in
  let outputFile := scratchOutput (now (env w) (S (length (calls w)))) "webp" in
  convertTelegramStickerToWebP stickerBuffer animatedInput w
  = try_catch
      (writeFileSync inputFile stickerBuffer ;;;
       execSync (webpCommand animatedInput inputFile outputFile) ;;;
       webpBuffer <- readFileSync outputFile ;;
       unlinkSync inputFile ;;;
       unlinkSync outputFile ;;;
       ret webpBuffer)
      (fun error =>
         unlinkIfExists inputFile ;;;
         unlinkIfExists outputFile ;;;
         throw error) (prepared w).
Proof.
  intros Hflag Hdir inputFile outputFile. unfold convertTelegramStickerToWebP, prepared.
  unfold bind at 1. unfold get at 1. rewrite Hflag.
  unfold bind at 1. rewrite ensureTempDir_run, Hdir.
  cbv beta iota delta [bind Date_now].
  destruct (tempDir w) eqn:T; cbn [env calls log_call set_tempDir]; rewrite ?length_snoc;
    reflexivity.
Qed.

(** What [conversion_run] says in the [prepared] world, in terms of the
    world the conversion was called in. *)
Lemma conversion_from (inputFile outputFile command : string) (buffer : Buffer)
    (finish : Error → M Buffer) (w : World) :
  inputFile ≠ outputFile → (∀ e w0, snd (finish e w0) = w0) →
  let ran := ffmpeg (env w) (S (S (length (calls w)))) command
               (<[inputFile := buffer]> (files w)) in
  let r := try_catch
             (writeFileSync inputFile buffer ;;;
              execSync command ;;;
              converted <- readFileSync outputFile ;;
              unlinkSync inputFile ;;;
              unlinkSync outputFile ;;;
              ret converted)
             (fun error =>
                unlinkIfExists inputFile ;;;
                unlinkIfExists outputFile ;;;
                finish error) (prepared w) in
  files (snd r) !! inputFile = None
  ∧ files (snd r) !! outputFile = None
  ∧ calls (snd r) = calls w ++ [DateNow; DateNow; ExecSync command]
  ∧ match fst ran with
    | Some e => ∃ w1, fst r = fst (finish e w1)
    | None =>
        match snd ran !! outputFile, snd ran !! inputFile with
        | Some converted, Some _ => fst r = Normal converted
        | Some _, None => ∃ w1, fst r = fst (finish (ENOENT inputFile) w1)
        | None, _ => ∃ w1, fst r = fst (finish (ENOENT outputFile) w1)
        end
    end.
Proof.
  intros Hdistinct Hpure ran r.
  destruct (prepared_projections w) as (Ht & Hf & He & Hc & Hl).
  pose proof (conversion_run inputFile outputFile command buffer finish Hdistinct Hpure
                (prepared w) Ht) as H.
  cbv zeta in H. rewrite Hf, He, Hl, Hc in H. fold ran r in H.
  destruct H as (A & B & C & D). rewrite <- app_assoc in C. auto.
Qed.

Lemma throw_pure (e : Error) (w : World) : snd (@throw Buffer e w) = w.
Proof. reflexivity. Qed.

(** C8: every conversion that reaches the point of writing its scratch
    input, that is, gets past its availability test with the scratch
    directory in place or newly created, writes its input to a scratch file
    named after the clock, runs [ffmpeg] once, and ends, whether it returns
    or throws and whatever [ffmpeg] did, with neither its scratch input nor
    its scratch output in the directory.  A conversion that may not create
    the scratch directory leaves the state as it found it. *)
Theorem scratch_files_removed (buffer : Buffer) (animatedInput : bool) (w : World) :
  let n := length (calls w) in
  let t1 := now (env w) n in
  let t2 := now (env w) (S n) in
  let removed (inputFile outputFile command : string) (w' : World) :=
    files w' !! inputFile = None ∧ files w' !! outputFile = None
    ∧ calls w' = calls w ++ [DateNow; DateNow; ExecSync command] in
  (mkdirError w = None →
     (ffmpegAvailable w = true →
        removed (scratchInput t1 "webp") (scratchOutput t2 "mp4")
          (mp4Command (scratchInput t1 "webp") (scratchOutput t2 "mp4"))
          (snd (convertAnimatedWebPToMP4 buffer w)))
     ∧ (negb (ffmpegAvailable w) && animatedInput = false →
        removed (scratchInput t1 (if animatedInput then "webm" else "webp"))
          (scratchOutput t2 "webp")
          (webpCommand animatedInput
             (scratchInput t1 (if animatedInput then "webm" else "webp"))
             (scratchOutput t2 "webp"))
          (snd (convertTelegramStickerToWebP buffer animatedInput w)))
     ∧ (ffmpegAvailable w = true →
        removed (scratchInput t1 "mp4") (scratchOutput t2 "mp4")
          (videoNoteCommand (scratchInput t1 "mp4") (scratchOutput t2 "mp4"))
          (snd (convertToVideoNote buffer w))))
  ∧ (mkdirError w ≠ None →
     snd (convertAnimatedWebPToMP4 buffer w) = w
     ∧ snd (convertTelegramStickerToWebP buffer animatedInput w) = w
     ∧ snd (convertToVideoNote buffer w) = w).
Proof.
  intros n t1 t2 removed. subst removed. cbv beta. split.
  - intros Hdir. split; [ | split ]; intros Hflag.
    + rewrite (convertAnimatedWebPToMP4_run buffer w Hflag Hdir).
      destruct (conversion_from (scratchInput t1 "webp") (scratchOutput t2 "mp4")
                  (mp4Command (scratchInput t1 "webp") (scratchOutput t2 "mp4"))
                  buffer throw w (scratch_paths_differ _ _ _ _) throw_pure)
        as (A & B & C & _).
      auto.
    + rewrite (convertTelegramStickerToWebP_run buffer animatedInput w Hflag Hdir).
      destruct (conversion_from (scratchInput t1 (if animatedInput then "webm" else "webp"))
                  (scratchOutput t2 "webp")
                  (webpCommand animatedInput
                     (scratchInput t1 (if animatedInput then "webm" else "webp"))
                     (scratchOutput t2 "webp"))
                  buffer throw w (scratch_paths_differ _ _ _ _) throw_pure)
        as (A & B & C & _).
      auto.
    + rewrite (convertToVideoNote_run buffer w Hflag Hdir).
      destruct (conversion_from (scratchInput t1 "mp4") (scratchOutput t2 "mp4")
                  (videoNoteCommand (scratchInput t1 "mp4") (scratchOutput t2 "mp4"))
                  buffer (fun _ => ret buffer) w
                  (scratch_paths_differ _ _ _ _) (fun _ _ => eq_refl))
        as (A & B & C & _).
      auto.
  - intros Hdir. destruct (mkdirError w) as [e|] eqn:He; [ clear Hdir | contradiction ].
    unfold convertAnimatedWebPToMP4, convertTelegramStickerToWebP, convertToVideoNote.
    split; [ | split ]; unfold bind at 1; unfold get at 1;
      match goal with |- context [ if ?b then _ else _ ] => destruct b end;
      try reflexivity; unfold bind at 1; now rewrite ensureTempDir_run, He.
Qed.

(** C7 (amended): [convertToVideoNote] raises in one case only.  Without
    the transcoder it returns its input and does nothing.  With it, and
    with the scratch directory in place or newly created, it always
    returns: the content of the output file when [ffmpeg] exited
    successfully and left both scratch files in place, and the input bytes
    in every other case, when [ffmpeg] failed or its output cannot be read.
    When the scratch directory is missing and may not be created, the
    error of [mkdirSync], which stands in front of the [try] block, is
    thrown to the caller and nothing else happens. *)
Theorem convertToVideoNote_raises_only_mkdir (videoBuffer : Buffer) (w : World) :
  let n := length (calls w) in
  let inputFile := scratchInput (now (env w) n) "mp4" in
  let outputFile := scratchOutput (now (env w) (S n)) "mp4" in
  let ran := ffmpeg (env w) (S (S n)) (videoNoteCommand inputFile outputFile)
               (<[inputFile := videoBuffer]> (files w)) in
  let r := convertToVideoNote videoBuffer w in
  (ffmpegAvailable w = false → r = (Normal videoBuffer, w))
  ∧ (ffmpegAvailable w = true → mkdirError w = None →
     match fst ran, snd ran !! outputFile, snd ran !! inputFile with
     | None, Some converted, Some _ => fst r = Normal converted
     | _, _, _ => fst r = Normal videoBuffer
     end)
  ∧ (ffmpegAvailable w = true → ∀ e, mkdirError w = Some e → r = (Thrown e, w)).
Proof.
  intros n inputFile outputFile ran r. split; [ | split ]; intros Hflag.
  - subst r. unfold convertToVideoNote. run_fs. now rewrite Hflag.
  - intros Hdir. subst r. rewrite (convertToVideoNote_run videoBuffer w Hflag Hdir).
    destruct (conversion_from inputFile outputFile (videoNoteCommand inputFile outputFile)
                videoBuffer (fun _ => ret videoBuffer) w
                (scratch_paths_differ _ _ _ _) (fun _ _ => eq_refl)) as (_ & _ & _ & H).
    fold n inputFile outputFile ran in H |- *.
    destruct (fst ran) as [e|]; [ now destruct H | ].
    destruct (snd ran !! outputFile) as [converted|]; [ | now destruct H ].
    destruct (snd ran !! inputFile); [ exact H | now destruct H ].
  - intros e Hdir. subst r. unfold convertToVideoNote.
    unfold bind at 1. unfold get at 1. rewrite Hflag. cbn [negb].
    unfold bind at 1. now rewrite ensureTempDir_run, Hdir.
Qed.

Lemma convertToVideoNote_raises_only_mkdir_witness :
  fst (convertToVideoNote [Byte.x01] workingTranscoder) = Normal [Byte.x02; Byte.x03]
  ∧ fst (convertToVideoNote [Byte.x01] brokenTranscoder) = Normal [Byte.x01]
  ∧ convertToVideoNote [Byte.x01] (startWorld true false friendlyEnv)
    = (Normal [Byte.x01], startWorld true false friendlyEnv).
Proof.
  split; [ | split ].
  - exact (proj1 (proj2 (convertToVideoNote_raises_only_mkdir [Byte.x01] workingTranscoder))
             eq_refl eq_refl).
  - exact (proj1 (proj2 (convertToVideoNote_raises_only_mkdir [Byte.x01] brokenTranscoder))
             eq_refl eq_refl).
  - exact (proj1 (convertToVideoNote_raises_only_mkdir [Byte.x01]
                    (startWorld true false friendlyEnv)) eq_refl).
Defined.

(** C7 as stated fails: with the transcoder present, the scratch directory
    missing and its creation refused, [convertToVideoNote] throws the error
    of [mkdirSync] instead of returning the input bytes. *)
Lemma convertToVideoNote_mkdir_refused :
  ffmpegAvailable readOnlyDisk = true
  ∧ tempDir readOnlyDisk = false
  ∧ convertToVideoNote [Byte.x01] readOnlyDisk
    = (Thrown (mkError "EACCES: permission denied, mkdir 'temp'"), readOnlyDisk).
Proof. split; [ reflexivity | ]. split; reflexivity. Qed.

Lemma scratch_files_removed_witness :
  let w' := snd (convertAnimatedWebPToMP4 [Byte.x01] brokenTranscoder) in
  files w' !! "temp/input_1700000000000.webp" = None
  ∧ files w' !! "temp/output_1700000000001.mp4" = None
  ∧ count_calls isExec (calls w') = 1%nat.
Proof.
  intros w'.
  destruct (proj1 (proj1 (scratch_files_removed [Byte.x01] false brokenTranscoder) eq_refl)
              eq_refl)
    as (A & B & C).
  fold w' in A, B, C.
  split; [ exact A | ]. split; [ exact B | ]. rewrite C. reflexivity.
Defined.

(** * Further results *)

(** ** Contact names *)

(** X1: [getContactName] never answers with an empty name, and the first
    name it answers with for a number is the name of every later call for
    that number, whatever fallback name the later call passes. *)
Theorem getContactName_first_name_wins (whatsappNumber first later : string) (w : World) :
  let r1 := getContactName whatsappNumber first w in
  let r2 := getContactName whatsappNumber later (snd r1) in
  ∃ name, fst r1 = Normal name ∧ JS.truthy_string name = true
          ∧ r2 = (Normal name, snd r1).
Proof.
  intros r1 r2. subst r1 r2. rewrite !getContactName_run. cbn [fst snd].
  exists (contactNameIn (contactsCache w) whatsappNumber first).
  split; [ reflexivity | ]. split; [ apply contactNameIn_truthy | ].
  unfold contactNameIn at 1. unfold remembered at 2.
  now rewrite remembered_cached.
Qed.

(** ** The registry, continued *)

(** The retry makes one creation request, and maps the identifier when the
    request yields a thread. *)
Lemma retryWithUniqueName_shape (identifier displayName : string) (w : World) :
  ∃ r w' more,
    retryWithUniqueName identifier displayName w = (Normal r, w')
    ∧ calls w' = calls w ++ more ∧ creationCalls more = 1%nat
    ∧ ((topicMapping w' = topicMapping w ∧ reverseTopicMapping w' = reverseTopicMapping w
        ∧ r = None)
       ∨ ∃ t, JS.truthy_number t = true ∧ mappedTo identifier t w w'
              ∧ (r = Some t ∨ r = None)).
Proof.
  unfold retryWithUniqueName. run. rewrite retryTopicNameFor_run. settle.
  repeat (split_reply; settle);
    eexists _, _, _; (split; [ reflexivity | ]); settle;
    (split; [ rewrite <- ?app_assoc; reflexivity | ]); (split; [ reflexivity | ]).
  all: try (left; settle; repeat split; reflexivity).
  all: right; eexists; split; [ eassumption | ]; unfold mappedTo; settle; auto.
Qed.

(** Every call of [getOrCreateTopic] returns, makes at most two creation
    requests, and leaves the registry in one of the three shapes of
    [registryStep]. *)
Lemma getOrCreateTopic_shape (identifier displayName : string) (w : World) :
  ∃ r w' more,
    getOrCreateTopic identifier displayName w = (Normal r, w')
    ∧ calls w' = calls w ++ more ∧ (creationCalls more ≤ 2)%nat
    ∧ registryStep identifier r w w'.
Proof.
  unfold getOrCreateTopic. run.
  destruct (negb (createTopics w) || negb (telegramBot w)).
  { exists None, w, []. run. rewrite app_nil_r.
    split; [ reflexivity | ]. split; [ reflexivity | ]. split; [ cbv; lia | ].
    left. auto. }
  destruct (JS.truthy_opt JS.truthy_number (topicMapping w !! identifier)) eqn:Hm.
  { exists (topicMapping w !! identifier), w, []. run. rewrite app_nil_r.
    split; [ reflexivity | ]. split; [ reflexivity | ]. split; [ cbv; lia | ].
    left. auto. }
  run. rewrite topicNameFor_run. settle.
  set (first := CreateForumTopic (groupId w) (firstTopicName w identifier displayName)
                  (icon_color_for identifier)).
  assert (Hone : ∀ c, isCreation c = true → creationCalls [c] = 1%nat).
  { intros c Hc. unfold creationCalls, count_calls. simpl. now rewrite Hc. }
  assert (Hzero : ∀ c, isCreation c = false → creationCalls [c] = 0%nat).
  { intros c Hc. unfold creationCalls, count_calls. simpl. now rewrite Hc. }
  destruct (reply (env w) (length (calls w)) first) as [[z|]|e] eqn:Hfirst; settle.
  - destruct (JS.truthy_number z) eqn:Hz; settle.
    + set (save := SaveTelegramTopic identifier z displayName).
      destruct (reply (env w) (S (length (calls w))) save) as [v|e] eqn:Hsave; settle.
      * match goal with
        | |- context [ (if JS.startsWith _ _ then _ else _) ?W ] =>
            destruct (pinInfo_run identifier displayName z W) as (w' & -> & F)
        end.
        destruct (frame_calls _ _ F) as (more & Hmore & Hnone).
        exists (Some z), w', ([first; save] ++ more). settle.
        split; [ reflexivity | ]. split; [ rewrite Hmore; settle; now rewrite <- !app_assoc | ].
        split; [ rewrite creationCalls_app, Hnone; cbv; lia | ].
        right. left. exists z. split; [ exact Hz | ]. split; [ | now left ].
        split; [ rewrite (frame_topicMapping _ _ F) | rewrite (frame_reverseTopicMapping _ _ F) ];
          settle; reflexivity.
      * destruct (isDuplicateName e) eqn:Hdup.
        -- match goal with
           | |- context [ retryWithUniqueName _ _ ?W ] =>
               destruct (retryWithUniqueName_shape identifier displayName W)
                 as (r & w' & more & -> & Hmore & Hcount & Hshape); set (w1 := W) in *
           end.
           exists r, w', ([first; save] ++ more).
           split; [ reflexivity | ].
           split; [ rewrite Hmore; subst w1; settle; now rewrite <- !app_assoc | ].
           split; [ rewrite creationCalls_app, Hcount; cbv; lia | ].
           assert (H1 : mappedTo identifier z w w1).
           { subst w1. unfold mappedTo. settle. auto. }
           destruct Hshape as [(Hf & Hr & ->) | (t & Ht & Hmap & Hres)].
           ++ right. left. exists z. split; [ exact Hz | ]. split; [ | now right ].
              destruct H1 as [A B]. split; congruence.
           ++ right. right. exists z, t, w1. auto 6.
        -- eexists None, _, [first; save]. split; [ reflexivity | ]. settle.
           split; [ now rewrite <- !app_assoc | ]. split; [ cbv; lia | ].
           right. left. exists z. split; [ exact Hz | ]. split; [ | now right ].
           unfold mappedTo. settle. auto.
    + eexists None, _, [first]. split; [ reflexivity | ]. settle.
      split; [ reflexivity | ]. split; [ cbv; lia | ]. left. settle. auto.
  - eexists None, _, [first]. split; [ reflexivity | ]. settle.
    split; [ reflexivity | ]. split; [ cbv; lia | ]. left. settle. auto.
  - destruct (isDuplicateName e) eqn:Hdup.
    + match goal with
      | |- context [ retryWithUniqueName _ _ ?W ] =>
          destruct (retryWithUniqueName_shape identifier displayName W)
            as (r & w' & more & -> & Hmore & Hcount & Hshape); set (w1 := W) in *
      end.
      exists r, w', ([first] ++ more).
      split; [ reflexivity | ].
      split; [ rewrite Hmore; subst w1; settle; now rewrite <- !app_assoc | ].
      split; [ rewrite creationCalls_app, Hcount; cbv; lia | ].
      destruct Hshape as [(Hf & Hr & ->) | (t & Ht & [Hmf Hmr] & Hres)].
      * left. subst w1. revert Hf Hr. settle. auto.
      * right. left. exists t. split; [ exact Ht | ]. split; [ | exact Hres ].
        subst w1. revert Hmf Hmr. unfold mappedTo. settle. auto.
    + eexists None, _, [first]. split; [ reflexivity | ]. settle.
      split; [ reflexivity | ]. split; [ cbv; lia | ]. left. settle. auto.
Qed.

(** X2: every [getOrCreateTopic] call returns, whatever Telegram and the
    database answer: failures are reported as [null].  It makes at most two
    thread-creation requests, and a thread id it returns is never [0]. *)
Theorem getOrCreateTopic_bounded (identifier displayName : string) (w : World) :
  ∃ r more,
    fst (getOrCreateTopic identifier displayName w) = Normal r
    ∧ calls (snd (getOrCreateTopic identifier displayName w)) = calls w ++ more
    ∧ (creationCalls more ≤ 2)%nat
    ∧ (r = None ∨ JS.truthy_opt JS.truthy_number r = true).
Proof.
  destruct (getOrCreateTopic_shape identifier displayName w)
    as (r & w' & more & -> & Hcalls & Hcount & Hstep).
  exists r, more. cbn [fst snd]. repeat (split; [ assumption || reflexivity | ]).
  destruct Hstep as [(_ & _ & [-> | [_ Ht]]) | [(t & Ht & _ & [-> | ->])
                    | (t1 & t2 & w1 & _ & Ht & _ & _ & [-> | ->])]]; auto.
Qed.

(** X3: when [getOrCreateTopic] returns a thread id [t] for an identifier,
    the forward map sends the identifier to [t] and the reverse map sends
    [t] back to the identifier; for an identifier that was mapped already
    this needs its old forward entry to have had its reverse entry. *)
Theorem getOrCreateTopic_resolves_both_ways (identifier displayName : string) (t : Z)
    (w : World) :
  (∀ u, topicMapping w !! identifier = Some u → reverseTopicMapping w !! u = Some identifier) →
  fst (getOrCreateTopic identifier displayName w) = Normal (Some t) →
  let w' := snd (getOrCreateTopic identifier displayName w) in
  topicMapping w' !! identifier = Some t ∧ reverseTopicMapping w' !! t = Some identifier.
Proof.
  intros Hold.
  destruct (getOrCreateTopic_shape identifier displayName w)
    as (r & w' & more & -> & _ & _ & Hstep).
  cbn [fst snd]. intros [= ->].
  destruct Hstep as [(Hf & Hr & [[=] | [Hres _]]) | [(u & _ & [Hf Hr] & [[= ->] | [=]])
                    | (t1 & t2 & w1 & _ & _ & _ & [Hf Hr] & [[= ->] | [=]])]].
  - rewrite Hf, Hr. split; [ now symmetry | ]. apply Hold. now symmetry.
  - rewrite Hf, Hr. split; apply lookup_insert_eq.
  - rewrite Hf, Hr. split; apply lookup_insert_eq.
Qed.

Lemma getOrCreateTopic_resolves_both_ways_witness :
  let w' := snd (getOrCreateTopic "15551234567" "Ann" (startWorld true false friendlyEnv)) in
  topicMapping w' !! "15551234567" = Some 100
  ∧ reverseTopicMapping w' !! 100 = Some "15551234567".
Proof.
  apply (getOrCreateTopic_resolves_both_ways "15551234567" "Ann" 100
           (startWorld true false friendlyEnv)).
  - intros u H. vm_compute in H. discriminate H.
  - vm_compute. reflexivity.
Defined.

(** X4: a [getOrCreateTopic] call for one identifier never changes the
    forward entry of another identifier, and a reverse entry it changes
    points to the identifier of the call afterwards. *)
Theorem getOrCreateTopic_leaves_others (identifier displayName other : string) (w : World) :
  other ≠ identifier →
  let w' := snd (getOrCreateTopic identifier displayName w) in
  topicMapping w' !! other = topicMapping w !! other
  ∧ ∀ u, reverseTopicMapping w' !! u = reverseTopicMapping w !! u
         ∨ reverseTopicMapping w' !! u = Some identifier.
Proof.
  intros Hother.
  destruct (getOrCreateTopic_shape identifier displayName w)
    as (r & w' & more & -> & _ & _ & Hstep).
  cbn [snd].
  destruct Hstep as [(Hf & Hr & _) | [(t & _ & [Hf Hr] & _)
                    | (t1 & t2 & w1 & _ & _ & [Hf1 Hr1] & [Hf Hr] & _)]].
  - rewrite Hf, Hr. auto.
  - rewrite Hf, Hr. split; [ now rewrite lookup_insert_ne | ].
    intros u. destruct (decide (t = u)) as [<- | Hu].
    + right. apply lookup_insert_eq.
    + left. now rewrite lookup_insert_ne.
  - rewrite Hf, Hr, Hf1, Hr1. split; [ now rewrite !lookup_insert_ne | ].
    intros u. destruct (decide (t2 = u)) as [<- | Hu2].
    + right. apply lookup_insert_eq.
    + rewrite lookup_insert_ne by exact Hu2.
      destruct (decide (t1 = u)) as [<- | Hu1].
      * right. apply lookup_insert_eq.
      * left. now rewrite lookup_insert_ne.
Qed.

Lemma getOrCreateTopic_leaves_others_witness :
  let w' := snd (getOrCreateTopic "15551234567" "Ann" (oneGroup 7 friendlyEnv)) in
  topicMapping w' !! "group_g1" = Some 7.
Proof.
  intros w'. subst w'.
  rewrite (proj1 (getOrCreateTopic_leaves_others "15551234567" "Ann" "group_g1"
                    (oneGroup 7 friendlyEnv) ltac:(discriminate))).
  vm_compute. reflexivity.
Defined.

(** X5: when Telegram creates the topic but the database refuses to save
    the mapping (with an error outside the duplicate-name class),
    [getOrCreateTopic] returns [null], yet the identifier stays mapped in
    memory: no info message is posted, and the next call for the identifier
    returns the thread from the registry without any request. *)
Theorem unsaved_topic_stays_mapped (identifier displayName : string) (t : Z) (e : Error)
    (w : World) :
  createTopics w = true → telegramBot w = true →
  JS.truthy_opt JS.truthy_number (topicMapping w !! identifier) = false →
  let first := CreateForumTopic (groupId w) (firstTopicName w identifier displayName)
                 (icon_color_for identifier) in
  let save := SaveTelegramTopic identifier t displayName in
  reply (env w) (length (calls w)) first = Resolved (Some t) →
  JS.truthy_number t = true →
  reply (env w) (S (length (calls w))) save = Rejected e →
  isDuplicateName e = false →
  let r := getOrCreateTopic identifier displayName w in
  fst r = Normal None
  ∧ calls (snd r) = calls w ++ [first; save]
  ∧ topicMapping (snd r) !! identifier = Some t
  ∧ reverseTopicMapping (snd r) !! t = Some identifier
  ∧ ∀ displayName', getOrCreateTopic identifier displayName' (snd r)
                    = (Normal (Some t), snd r).
Proof.
  intros Hc Hb Hm first save Hfirst Ht Hsave Hdup r.
  assert (Hr : r = (Normal None,
                    log_call save
                      (set_reverseTopicMapping <[t := identifier]>
                         (set_topicMapping <[identifier := t]>
                            (log_call first (named identifier displayName w)))))).
  { subst r. unfold getOrCreateTopic. run. rewrite Hc, Hb, Hm. run.
    rewrite topicNameFor_run. settle. fold first. rewrite Hfirst. settle.
    rewrite Ht. settle. fold save. rewrite Hsave. settle. now rewrite Hdup. }
  clearbody r. subst r. settle.
  split; [ reflexivity | ]. split; [ now rewrite <- !app_assoc | ].
  split; [ apply lookup_insert_eq | ]. split; [ apply lookup_insert_eq | ].
  intros displayName'. apply getOrCreateTopic_mapped; settle; try assumption.
  apply lookup_insert_eq.
Qed.

Lemma unsaved_topic_stays_mapped_witness :
  let db_down := mkEnv (fun k c => match c with
                                   | SaveTelegramTopic _ _ _ =>
                                       Rejected (mkError "MongoNetworkError: connection closed")
                                   | _ => reply friendlyEnv k c
                                   end)
                   (fun _ _ => None) silentFfmpeg clock mkdirWorks in
  let r := getOrCreateTopic "15551234567" "Ann" (startWorld true false db_down) in
  fst r = Normal None ∧ topicMapping (snd r) !! "15551234567" = Some 100.
Proof.
  intros db_down r.
  destruct (unsaved_topic_stays_mapped "15551234567" "Ann" 100
              (mkError "MongoNetworkError: connection closed")
              (startWorld true false db_down)
              eq_refl eq_refl eq_refl eq_refl eq_refl eq_refl eq_refl)
    as (A & _ & B & _).
  split; assumption.
Defined.

Lemma mappedTo_inverse (identifier : string) (t : Z) (w w' : World) :
  inverse_maps w → mappedTo identifier t w w' →
  topicMapping w !! identifier = None → reverseTopicMapping w !! t = None →
  inverse_maps w'.
Proof.
  intros Hinv [Hf Hr] Hfree Hunused j u. rewrite Hf, Hr, !lookup_insert_Some. split.
  - intros [[<- <-] | [Hj Hfwd]]; [ now left | right ].
    split; [ | now apply Hinv ]. intros <-. apply Hinv in Hfwd. congruence.
  - intros [[<- <-] | [Hu Hrev]]; [ now left | right ].
    split; [ | now apply Hinv ]. intros <-. apply Hinv in Hrev. congruence.
Qed.

(** X6: creating a topic keeps the two registry maps inverse to each
    other: the maps were inverse, the identifier had no entry, Telegram
    answers the first request with a thread id that the registry does not
    use yet, and the mapping is saved. *)
Theorem created_topic_keeps_inverse (identifier displayName : string) (t : Z)
    (v : option Z) (w : World) :
  inverse_maps w →
  createTopics w = true → telegramBot w = true →
  topicMapping w !! identifier = None →
  reply (env w) (length (calls w))
    (CreateForumTopic (groupId w) (firstTopicName w identifier displayName)
       (icon_color_for identifier)) = Resolved (Some t) →
  JS.truthy_number t = true →
  reverseTopicMapping w !! t = None →
  reply (env w) (S (length (calls w))) (SaveTelegramTopic identifier t displayName)
  = Resolved v →
  fst (getOrCreateTopic identifier displayName w) = Normal (Some t)
  ∧ inverse_maps (snd (getOrCreateTopic identifier displayName w)).
Proof.
  intros Hinv Hc Hb Hfree Hfirst Ht Hunused Hsave.
  destruct (getOrCreateTopic_created identifier displayName t v w Hc Hb)
    as (w' & more & -> & _ & _ & Hf & Hr); try assumption.
  { now rewrite Hfree. }
  split; [ reflexivity | ].
  apply (mappedTo_inverse identifier t w w'); try assumption. now split.
Qed.

Lemma created_topic_keeps_inverse_witness :
  inverse_maps (snd (getOrCreateTopic "15551234567" "Ann" (oneGroup 7 friendlyEnv))).
Proof.
  apply (created_topic_keeps_inverse "15551234567" "Ann" 100 (Some 501)
           (oneGroup 7 friendlyEnv));
    try (vm_compute; reflexivity).
  apply inverse_maps_oneGroup.
Defined.

(** ** The retrying sender, continued *)

(** X7: the repair protocol works when the payload carries the
    identifier's current thread.  The maps were inverse, the send into that
    thread is rejected as thread-missing, Telegram then creates a thread
    whose id the registry does not use, and the mapping is saved: the
    payload and the forward map both carry the new thread, the old thread
    has no reverse entry left, and the maps are inverse again. *)
Theorem recreated_topic_keeps_inverse (chatId : Z) (message : string) (options : SendOptions)
    (identifier displayName : string) (thread t : Z) (v : option Z) (e : Error) (w : World) :
  inverse_maps w →
  createTopics w = true → telegramBot w = true →
  topicMapping w !! identifier = Some thread →
  message_thread_id options = Some thread →
  canRecreate (Some identifier) (Some displayName) options = true →
  let n := length (calls w) in
  reply (env w) n (SendMessage chatId message options) = Rejected e →
  isThreadMissing e = true →
  reply (env w) (S n)
    (CreateForumTopic (groupId w) (firstTopicName w identifier displayName)
       (icon_color_for identifier)) = Resolved (Some t) →
  JS.truthy_number t = true →
  reverseTopicMapping w !! t = None →
  reply (env w) (S (S n)) (SaveTelegramTopic identifier t displayName) = Resolved v →
  let out := sendToTelegramWithRetry chatId message options
               (Some identifier) (Some displayName) w in
  message_thread_id out.1.2 = Some t
  ∧ topicMapping out.2 !! identifier = Some t
  ∧ reverseTopicMapping out.2 !! thread = None
  ∧ inverse_maps out.2.
Proof.
  intros Hinv Hc Hb Hown Hthread Hcan n Hsend Hmissing Hcreate Ht Hunused Hsave out.
  set (w2 := removeOldMapping identifier thread
               (log_call (SendMessage chatId message options) w)).
  assert (Hinv2 : inverse_maps w2).
  { apply removeOldMapping_inverse; [ exact Hinv | exact Hown ]. }
  destruct (getOrCreateTopic_created identifier displayName t v w2) as
    (w3 & more & Hrun & _ & _ & Hf & Hr); subst w2; run; rewrite ?length_snoc;
    try assumption.
  { now rewrite lookup_delete_eq. }
  assert (Hinv3 : inverse_maps w3).
  { apply (mappedTo_inverse identifier t _ w3 Hinv2); [ now split | | ]; run.
    - apply lookup_delete_eq.
    - rewrite lookup_delete_None. now right. }
  assert (Hne : t ≠ thread).
  { intros ->. apply Hinv in Hown. congruence. }
  subst out. unfold sendToTelegramWithRetry. run. fold n. rewrite Hsend, Hthread, Hcan, Hmissing.
  run. rewrite Hrun. run. rewrite Ht.
  assert (Hdone : ∀ c : Completion (option Z) * World,
            topicMapping c.2 = topicMapping w3 →
            reverseTopicMapping c.2 = reverseTopicMapping w3 →
            topicMapping c.2 !! identifier = Some t
            ∧ reverseTopicMapping c.2 !! thread = None ∧ inverse_maps c.2).
  { intros c Hcf Hcr. rewrite Hcf, Hcr, Hf, Hr. run.
    split; [ apply lookup_insert_eq | ].
    split; [ rewrite lookup_insert_ne by exact Hne; apply lookup_delete_eq | ].
    intros j u. rewrite Hcf, Hcr. apply Hinv3. }
  match goal with
  | |- context [ reply ?E ?K ?C ] =>
      destruct (reply E K C) as [sent|e2]
  end; run; (split; [ reflexivity | ]).
  - apply (Hdone (Normal sent, log_call _ w3)); reflexivity.
  - apply (Hdone (Thrown e2, log_call _ w3)); reflexivity.
Qed.

Lemma recreated_topic_keeps_inverse_witness :
  let w := oneGroup 7 (threadGone 7) in
  let out := sendToTelegramWithRetry (groupId w) "hello" (infoOptions 7)
               (Some "group_g1") (Some "Team") w in
  message_thread_id out.1.2 = Some 101 ∧ inverse_maps out.2.
Proof.
  intros w out.
  destruct (recreated_topic_keeps_inverse (groupId w) "hello" (infoOptions 7)
              "group_g1" "Team" 7 101 (Some 502)
              (mkError "ETELEGRAM: 400 Bad Request: message thread not found") w
              (inverse_maps_oneGroup 7 (threadGone 7))
              eq_refl eq_refl eq_refl eq_refl eq_refl eq_refl eq_refl eq_refl eq_refl
              eq_refl eq_refl)
    as (A & _ & _ & B).
  split; assumption.
Defined.

(** X8: a [sendToTelegramWithRetry] call makes at most two thread-creation
    requests; a first send that Telegram accepts is the only call made and
    changes neither the payload nor the registry; and the payload's thread
    id is only ever replaced by a thread that the forward map then holds
    for the identifier. *)
Theorem sendToTelegramWithRetry_bounded (chatId : Z) (message : string)
    (options : SendOptions) (identifier displayName : option string) (w : World) :
  let send1 := SendMessage chatId message options in
  let out := sendToTelegramWithRetry chatId message options identifier displayName w in
  (∃ more, calls out.2 = calls w ++ send1 :: more ∧ (creationCalls more ≤ 2)%nat)
  ∧ (∀ sent, reply (env w) (length (calls w)) send1 = Resolved sent →
       out = (Normal sent, options, log_call send1 w))
  ∧ (out.1.2 = options
     ∨ ∃ ident t, identifier = Some ident
         ∧ out.1.2 = set_message_thread_id (Some t) options
         ∧ topicMapping out.2 !! ident = Some t).
Proof.
  intros send1 out. subst out. unfold sendToTelegramWithRetry. run. fold send1.
  assert (Hnil : ∃ more, calls w ++ [send1] = calls w ++ send1 :: more
                         ∧ (creationCalls more ≤ 2)%nat).
  { exists []. split; [ reflexivity | cbv; lia ]. }
  destruct (reply (env w) (length (calls w)) send1) as [sent|e] eqn:Hsend; run.
  { split; [ exact Hnil | ]. split; [ now intros ? [= ->] | now left ]. }
  assert (Hplain : (∃ more, calls (log_call send1 w) = calls w ++ send1 :: more
                            ∧ (creationCalls more ≤ 2)%nat)
                   ∧ (∀ sent, Rejected e = Resolved sent →
                        (Thrown e, options, log_call send1 w)
                        = (Normal sent, options, log_call send1 w))
                   ∧ (options = options
                      ∨ ∃ ident t, identifier = Some ident
                          ∧ options = set_message_thread_id (Some t) options
                          ∧ topicMapping (log_call send1 w) !! ident = Some t)).
  { split; [ exact Hnil | ]. split; [ discriminate | now left ]. }
  destruct identifier as [ident|]; [ | exact Hplain ].
  destruct displayName as [name|]; [ | exact Hplain ].
  destruct (message_thread_id options) as [thread|] eqn:Hthread; [ | exact Hplain ].
  destruct (canRecreate (Some ident) (Some name) options && isThreadMissing e);
    [ | exact Hplain ].
  pose proof (getOrCreateTopic_some ident name) as Hsome.
  specialize Hsome with (w := removeOldMapping ident thread (log_call send1 w)).
  destruct (getOrCreateTopic_shape ident name
              (removeOldMapping ident thread (log_call send1 w)))
    as (r & w3 & more & Hrun & Hcalls & Hcount & _).
  rewrite Hrun in Hsome |- *. cbn [fst snd] in Hsome. revert Hcalls. run. intros Hcalls.
  destruct r as [t|]; run.
  - destruct (Hsome t eq_refl) as [Hmapped Ht]. rewrite Ht.
    set (send2 := SendMessage chatId message (set_message_thread_id (Some t) options)).
    assert (Hmore : ∃ more', calls (log_call send2 w3) = calls w ++ send1 :: more'
                             ∧ (creationCalls more' ≤ 2)%nat).
    { exists (more ++ [send2]). run. rewrite Hcalls, <- !app_assoc. split; [ reflexivity | ].
      rewrite creationCalls_app. cbv [creationCalls count_calls] in *. simpl. lia. }
    destruct (reply (env w3) (length (calls w3)) send2); run;
      (split; [ exact Hmore | ]); (split; [ discriminate | ]);
      right; exists ident, t; auto.
  - split; [ | split; [ discriminate | now left ] ].
    exists more. rewrite Hcalls, <- app_assoc. auto.
Qed.

(** ** Dispatch of a Telegram message *)

(** X9: [handleTelegramMessage] drops a message without a trace, whatever
    the relay is: when it comes from another chat, from a bot, outside any
    thread, in the call topic, or in a thread the reverse map does not
    track.  No call is made, no state changes and nothing is raised. *)
Theorem handleTelegramMessage_ignores (relayToWhatsApp : string → TgMessage → M unit)
    (msg : TgMessage) (w : World) :
  chat_id msg ≠ groupId w
  ∨ from_is_bot msg = true
  ∨ JS.truthy_opt JS.truthy_number (thread_id msg) = false
  ∨ (thread_id msg ≠ statusTopicId w
     ∧ (thread_id msg = callTopicId w
        ∨ ∃ topicId, thread_id msg = Some topicId
            ∧ truthy_or_null (reverseTopicMapping w !! topicId) = None)) →
  handleTelegramMessage relayToWhatsApp msg w = (Normal tt, w).
Proof.
  intros Hcase. unfold handleTelegramMessage. run.
  destruct (Z.eqb_spec (chat_id msg) (groupId w)) as [Hchat|Hchat]; run; [ | reflexivity ].
  destruct (from_is_bot msg) eqn:Hbot; [ reflexivity | ].
  destruct (thread_id msg) as [topicId|] eqn:Hthread; run; [ | reflexivity ].
  destruct (JS.truthy_number topicId) eqn:Htruthy; run; [ | reflexivity ].
  destruct Hcase as [Hother | [Hfrom | [Hnone | (Hstatus & Hrest)]]];
    [ contradiction | discriminate
    | cbn [JS.truthy_opt] in Hnone; congruence | ].
  rewrite bool_decide_eq_false_2 by exact Hstatus.
  destruct Hrest as [Hcall | (t & [= <-] & Huntracked)].
  - now rewrite bool_decide_eq_true_2 by exact Hcall.
  - rewrite Huntracked. now destruct (bool_decide _).
Qed.

Lemma handleTelegramMessage_ignores_witness :
  handleTelegramMessage (fun identifier _ => throw (mkError identifier)) (typedInThread 7)
    (oneGroup 8 friendlyEnv)
  = (Normal tt, oneGroup 8 friendlyEnv).
Proof.
  apply handleTelegramMessage_ignores.
  right. right. right. split; [ discriminate | ].
  right. exists 7. split; reflexivity.
Defined.

(** X10: a message typed into a thread that the reverse map tracks, other
    than the two special topics, is handed to the relay once, with the
    identifier the reverse map holds for the thread; the state afterwards
    is the relay's, and whatever the relay raises is swallowed. *)
Theorem handleTelegramMessage_relays (relayToWhatsApp : string → TgMessage → M unit)
    (msg : TgMessage) (topicId : Z) (identifier : string) (w : World) :
  chat_id msg = groupId w →
  from_is_bot msg = false →
  thread_id msg = Some topicId → JS.truthy_number topicId = true →
  statusTopicId w ≠ Some topicId → callTopicId w ≠ Some topicId →
  reverseTopicMapping w !! topicId = Some identifier →
  JS.truthy_string identifier = true →
  handleTelegramMessage relayToWhatsApp msg w
  = (Normal tt, (relayToWhatsApp identifier msg w).2).
Proof.
  intros Hchat Hbot Hthread Htruthy Hstatus Hcall Htracked Hident.
  unfold handleTelegramMessage. run.
  rewrite Hchat, Z.eqb_refl, Hbot, Hthread. run. rewrite Htruthy. run.
  rewrite !bool_decide_eq_false_2 by congruence.
  rewrite Htracked. unfold truthy_or_null. rewrite Hident.
  now destruct (relayToWhatsApp identifier msg w) as [[[]|e] w'].
Qed.

Lemma handleTelegramMessage_relays_witness :
  handleTelegramMessage (fun identifier _ => throw (mkError identifier)) (typedInThread 7)
    (oneGroup 7 friendlyEnv)
  = (Normal tt, oneGroup 7 friendlyEnv).
Proof.
  apply (handleTelegramMessage_relays (fun identifier _ => throw (mkError identifier))
           (typedInThread 7) 7 "group_g1" (oneGroup 7 friendlyEnv));
    first [ reflexivity | discriminate ].
Defined.

(** X11: a reply, in the status topic, to a message the status map tracks
    makes exactly two calls while the WhatsApp client is present: the
    reaction, addressed to the recorded sender and carrying the first
    UTF-16 code unit of the reply's text, else of its caption, else of the
    default (for an emoji outside the Basic Multilingual Plane, the default
    among them, that is the first half of its surrogate pair, not the
    emoji), and one acknowledging reaction on the Telegram message, a
    check mark when WhatsApp accepted the reaction and a cross when it
    refused.  A failure to set the check mark does not turn it into a
    cross, no hint is sent, and nothing is raised. *)
Theorem status_reply_reacts (relayToWhatsApp : string → TgMessage → M unit)
    (msg : TgMessage) (topicId target : Z) (statusInfo : string) (w : World) :
  trackedStatusReply msg topicId target statusInfo w →
  whatsappBot w = true →
  let parts := JS.split "_"%char statusInfo in
  let statusJid := nth 0 parts "undefined" +:+ "@s.whatsapp.net" in
  let emoji := JS.charAt0 (JS.or_string (text msg) (JS.or_string (msg_caption msg) "👍")) in
  let reaction :=
    WhatsAppSend statusJid (WaReact emoji statusJid ("status_" +:+ nth 1 parts "undefined")) in
  let ack := match reply (env w) (length (calls w)) reaction with
             | Resolved _ => "✅"
             | Rejected _ => "❌"
             end in
  handleTelegramMessage relayToWhatsApp msg w
  = (Normal tt,
     log_call (SetMessageReaction (chat_id msg) (message_id msg) ack) (log_call reaction w)).
Proof.
  intros (Hchat & Hbot & Hthread & Htruthy & Hstatus & Hreply & Htracked & Hinfo) Hwa
    parts statusJid emoji reaction ack.
  unfold handleTelegramMessage. run.
  rewrite Hchat, Z.eqb_refl, Hbot, Hthread. run. rewrite Htruthy. run.
  rewrite Hstatus, bool_decide_eq_true_2 by reflexivity.
  rewrite Hreply. cbn [mbind option_bind]. rewrite Htracked.
  unfold truthy_or_null. rewrite Hinfo.
  unfold reactToStatus, setReaction. run. rewrite Hwa.
  subst ack reaction emoji statusJid parts.
  rewrite ?Hchat.
  destruct (reply (env w) (length (calls w)) (WhatsAppSend _ _)); run;
    now destruct (reply (env w) _ (SetMessageReaction _ _ _)).
Qed.

Lemma status_reply_reacts_witness :
  let jid := "15551234567@s.whatsapp.net" in
  let reaction := WhatsAppSend jid (WaReact surrogateD83D jid "status_1700000000000") in
  calls (handleTelegramMessage (fun _ _ => ret tt) replyToStatus
           (trackedStatusWorld true whatsappDown)).2
  = [reaction; SetMessageReaction (-1001234567890) 901 "❌"].
Proof.
  intros jid reaction.
  rewrite (status_reply_reacts (fun _ _ => ret tt) replyToStatus 5 640
             "15551234567_1700000000000" (trackedStatusWorld true whatsappDown)).
  - reflexivity.
  - repeat split.
  - reflexivity.
Defined.

(** X12: the same reply while the WhatsApp client is absent is dropped
    without any feedback: no reaction, no acknowledgement, no hint. *)
Theorem status_reply_without_whatsapp (relayToWhatsApp : string → TgMessage → M unit)
    (msg : TgMessage) (topicId target : Z) (statusInfo : string) (w : World) :
  trackedStatusReply msg topicId target statusInfo w →
  whatsappBot w = false →
  handleTelegramMessage relayToWhatsApp msg w = (Normal tt, w).
Proof.
  intros (Hchat & Hbot & Hthread & Htruthy & Hstatus & Hreply & Htracked & Hinfo) Hwa.
  unfold handleTelegramMessage. run.
  rewrite Hchat, Z.eqb_refl, Hbot, Hthread. run. rewrite Htruthy. run.
  rewrite Hstatus, bool_decide_eq_true_2 by reflexivity.
  rewrite Hreply. cbn [mbind option_bind]. rewrite Htracked.
  unfold truthy_or_null. rewrite Hinfo.
  unfold reactToStatus. run. now rewrite Hwa.
Qed.

Lemma status_reply_without_whatsapp_witness :
  calls (handleTelegramMessage (fun _ _ => ret tt) replyToStatus
           (trackedStatusWorld false friendlyEnv)).2 = [].
Proof.
  rewrite (status_reply_without_whatsapp (fun _ _ => ret tt) replyToStatus 5 640
             "15551234567_1700000000000" (trackedStatusWorld false friendlyEnv)).
  - reflexivity.
  - repeat split.
  - reflexivity.
Defined.

(** ** The transcoder, continued *)

Section ScratchWorld.

Variables (inputFile outputFile command : string) (buffer : Buffer).
Variable finish : Error → M Buffer.
Hypothesis distinct : inputFile ≠ outputFile.
Hypothesis finish_pure : ∀ e w, snd (finish e w) = w.

(** The [catch] block hands over to [finish] in the world without the two
    scratch files. *)
Lemma cleanup_world (e : Error) (w : World) :
  (unlinkIfExists inputFile ;;; unlinkIfExists outputFile ;;; finish e) w
  = finish e (set_files (fun fs => delete outputFile (delete inputFile fs)) w).
Proof.
  destruct w as [? ? ? ? ? ? ? ? ? ? ? ? ? ? fs ? ?]. run_fs.
  destruct (fs !! inputFile) as [a|] eqn:Hin; run_fs; rewrite ?Hin; run_fs.
  - rewrite lookup_delete_ne by exact distinct.
    destruct (fs !! outputFile) as [b|] eqn:Hout; run_fs.
    + rewrite lookup_delete_ne, Hout by exact distinct. run_fs. reflexivity.
    + cbv [set_files]; run_fs.
      rewrite (delete_id (delete inputFile fs) outputFile); [ reflexivity | ].
      now rewrite lookup_delete_ne by exact distinct.
  - destruct (fs !! outputFile) as [b|] eqn:Hout; run_fs; rewrite ?Hout; run_fs;
      cbv [set_files]; run_fs.
    + now rewrite (delete_id fs inputFile) by exact Hin.
    + now rewrite (delete_id fs inputFile), (delete_id fs outputFile) by assumption.
Qed.

(** A conversion's [try] and [catch], started where the scratch directory
    exists: on every exit the world is the one [ffmpeg] left, without the
    two scratch files. *)
Lemma conversion_world_from (w0 : World) :
  tempDir w0 = true →
  let ran := ffmpeg (env w0) (length (calls w0)) command (<[inputFile := buffer]> (files w0)) in
  let r := try_catch
             (writeFileSync inputFile buffer ;;;
              execSync command ;;;
              converted <- readFileSync outputFile ;;
              unlinkSync inputFile ;;;
              unlinkSync outputFile ;;;
              ret converted)
             (fun error =>
                unlinkIfExists inputFile ;;;
                unlinkIfExists outputFile ;;;
                finish error) w0 in
  snd r = log_call (ExecSync command)
            (set_files (fun _ => delete outputFile (delete inputFile ran.2)) w0).
Proof.
  intros Htemp ran r.
  pose (W := fun fs1 : gmap string Buffer =>
               log_call (ExecSync command)
                 (set_files (fun _ => fs1) (set_files <[inputFile := buffer]> w0))).
  assert (Hcatch : ∀ e fs1,
    snd ((unlinkIfExists inputFile ;;; unlinkIfExists outputFile ;;; finish e) (W fs1))
    = log_call (ExecSync command)
        (set_files (fun _ => delete outputFile (delete inputFile fs1)) w0)).
  { intros e fs1. rewrite cleanup_world, finish_pure. reflexivity. }
  subst ran.
  destruct (ffmpeg (env w0) (length (calls w0)) command (<[inputFile := buffer]> (files w0)))
    as [[e|] fs1] eqn:Hran; cbn [fst snd].
  - assert (Hr : r = (unlinkIfExists inputFile ;;; unlinkIfExists outputFile ;;; finish e)
                       (W fs1)).
    { subst r W. repeat progress (run_fs; rewrite ?Htemp, ?Hran). reflexivity. }
    rewrite Hr. apply Hcatch.
  - destruct (fs1 !! outputFile) as [converted|] eqn:Hout.
    + destruct (fs1 !! inputFile) as [original|] eqn:Hin.
      * assert (Hr : r = (Normal converted,
                          set_files (delete outputFile)
                            (set_files (delete inputFile) (W fs1)))).
        { subst r W. repeat progress (run_fs; rewrite ?Htemp, ?Hran, ?Hout, ?Hin).
          rewrite lookup_delete_ne, Hout by exact distinct. reflexivity. }
        rewrite Hr. reflexivity.
      * assert (Hr : r = (unlinkIfExists inputFile ;;; unlinkIfExists outputFile ;;;
                          finish (ENOENT inputFile)) (W fs1)).
        { subst r W. repeat progress (run_fs; rewrite ?Htemp, ?Hran, ?Hout, ?Hin).
          reflexivity. }
        rewrite Hr. apply Hcatch.
    + assert (Hr : r = (unlinkIfExists inputFile ;;; unlinkIfExists outputFile ;;;
                        finish (ENOENT outputFile)) (W fs1)).
      { subst r W. repeat progress (run_fs; rewrite ?Htemp, ?Hran, ?Hout).
        reflexivity. }
      rewrite Hr. apply Hcatch.
Qed.

(** The same in the [prepared] world. *)
Lemma conversion_world (w : World) :
  let r := try_catch
             (writeFileSync inputFile buffer ;;;
              execSync command ;;;
              converted <- readFileSync outputFile ;;
              unlinkSync inputFile ;;;
              unlinkSync outputFile ;;;
              ret converted)
             (fun error =>
                unlinkIfExists inputFile ;;;
                unlinkIfExists outputFile ;;;
                finish error) (prepared w) in
  snd r = transcoded inputFile outputFile command buffer w.
Proof.
  intros r. unfold transcoded.
  destruct (prepared_projections w) as (Ht & Hf & He & Hc & Hl).
  subst r. rewrite (conversion_world_from (prepared w) Ht). cbv zeta.
  now rewrite Hf, He, Hl.
Qed.

End ScratchWorld.

(** A conversion whose [catch] block rethrows, in full. *)
Lemma rethrowing_conversion (inputFile outputFile command : string) (buffer : Buffer)
    (w : World) :
  inputFile ≠ outputFile →
  try_catch
    (writeFileSync inputFile buffer ;;;
     execSync command ;;;
     converted <- readFileSync outputFile ;;
     unlinkSync inputFile ;;;
     unlinkSync outputFile ;;;
     ret converted)
    (fun error =>
       unlinkIfExists inputFile ;;;
       unlinkIfExists outputFile ;;;
       throw error) (prepared w)
  = (transcodedResult inputFile outputFile command buffer w,
     transcoded inputFile outputFile command buffer w).
Proof.
  intros Hdistinct.
  pose proof (conversion_from inputFile outputFile command buffer throw w
                Hdistinct throw_pure) as Hfst.
  pose proof (conversion_world inputFile outputFile command buffer throw
                Hdistinct throw_pure w) as Hsnd.
  cbv zeta in Hfst, Hsnd. destruct Hfst as (_ & _ & _ & Hfst).
  match goal with |- ?r = _ => rewrite (surjective_pairing r), Hsnd end.
  f_equal. unfold transcodedResult.
  destruct (ffmpeg (env w) (S (S (length (calls w)))) command
              (<[inputFile := buffer]> (files w))) as [[e|] fs1]; cbn [fst snd] in *.
  - now destruct Hfst.
  - destruct (fs1 !! outputFile) as [converted|]; [ | now destruct Hfst ].
    destruct (fs1 !! inputFile); [ exact Hfst | now destruct Hfst ].
Qed.

Lemma transcoded_frame (inputFile outputFile command : string) (buffer : Buffer) (w : World) :
  frame w (transcoded inputFile outputFile command buffer w).
Proof.
  unfold transcoded, prepared.
  split; [ split | | | ]; try (destruct (tempDir w); reflexivity).
  - exists [DateNow; DateNow; ExecSync command].
    destruct (tempDir w); cbn [calls log_call set_files set_tempDir];
      now rewrite <- !app_assoc.
  - exists [DateNow; DateNow; ExecSync command]. split; [ | reflexivity ].
    destruct (tempDir w); cbn [calls log_call set_files set_tempDir];
      now rewrite <- !app_assoc.
Qed.

(** A conversion stopped in front of its [try] block. *)
Lemma mkdir_refused {A} (e : Error) (k : M A) (w : World) :
  mkdirError w = Some e → (ensureTempDir ;;; k) w = (Thrown e, w).
Proof. intros Hdir. unfold bind. now rewrite ensureTempDir_run, Hdir. Qed.





(** X15: a conversion that runs touches nothing but the scratch
    directory.  Once it is past its availability test with the scratch
    directory in place or newly created, then, whether it returns or
    throws, every file other than its two scratch files is exactly as
    [ffmpeg] left it, the scratch directory exists, and configuration,
    registry and environment are unchanged.  A conversion that may not
    create the scratch directory does not run and changes nothing. *)
Theorem conversions_spare_other_files (buffer : Buffer) (animatedInput : bool)
    (path : string) (w : World) :
  let n := length (calls w) in
  let t1 := now (env w) n in
  let t2 := now (env w) (S n) in
  let spared (inputFile outputFile command : string) (w' : World) :=
    path ≠ inputFile → path ≠ outputFile →
    files w' !! path
    = (ffmpeg (env w) (S (S n)) command (<[inputFile := buffer]> (files w))).2 !! path
    ∧ tempDir w' = true ∧ frame w w' in
  (mkdirError w = None →
     (ffmpegAvailable w = true →
        spared (scratchInput t1 "webp") (scratchOutput t2 "mp4")
          (mp4Command (scratchInput t1 "webp") (scratchOutput t2 "mp4"))
          (snd (convertAnimatedWebPToMP4 buffer w)))
     ∧ (negb (ffmpegAvailable w) && animatedInput = false →
        spared (scratchInput t1 (if animatedInput then "webm" else "webp"))
          (scratchOutput t2 "webp")
          (webpCommand animatedInput
             (scratchInput t1 (if animatedInput then "webm" else "webp"))
             (scratchOutput t2 "webp"))
          (snd (convertTelegramStickerToWebP buffer animatedInput w)))
     ∧ (ffmpegAvailable w = true →
        spared (scratchInput t1 "mp4") (scratchOutput t2 "mp4")
          (videoNoteCommand (scratchInput t1 "mp4") (scratchOutput t2 "mp4"))
          (snd (convertToVideoNote buffer w))))
  ∧ (mkdirError w ≠ None →
     snd (convertAnimatedWebPToMP4 buffer w) = w
     ∧ snd (convertTelegramStickerToWebP buffer animatedInput w) = w
     ∧ snd (convertToVideoNote buffer w) = w).
Proof.
  intros n t1 t2 spared.
  assert (Hspared : ∀ inputFile outputFile command,
            spared inputFile outputFile command
              (transcoded inputFile outputFile command buffer w)).
  { intros inputFile outputFile command Hin Hout. split; [ | split ].
    - unfold transcoded. cbn [files log_call set_files].
      now rewrite !lookup_delete_ne by congruence.
    - unfold transcoded. cbn [tempDir log_call set_files].
      apply prepared_projections.
    - apply transcoded_frame. }
  split.
  - intros Hdir. split; [ | split ]; intros Hflag.
    + rewrite (convertAnimatedWebPToMP4_run buffer w Hflag Hdir),
        (rethrowing_conversion _ _ _ _ _ (scratch_paths_differ _ _ _ _)).
      apply Hspared.
    + rewrite (convertTelegramStickerToWebP_run buffer animatedInput w Hflag Hdir),
        (rethrowing_conversion _ _ _ _ _ (scratch_paths_differ _ _ _ _)).
      apply Hspared.
    + rewrite (convertToVideoNote_run buffer w Hflag Hdir).
      rewrite (conversion_world _ _ _ _ (fun _ => ret buffer)
                 (scratch_paths_differ _ _ _ _) (fun _ _ => eq_refl) w).
      apply Hspared.
  - intros Hdir. destruct (mkdirError w) as [e|] eqn:He; [ clear Hdir | contradiction ].
    unfold convertAnimatedWebPToMP4, convertTelegramStickerToWebP, convertToVideoNote.
    split; [ | split ]; unfold bind at 1; unfold get at 1;
      match goal with |- context [ if ?b then _ else _ ] => destruct b end;
      try reflexivity; now rewrite (mkdir_refused e _ w He).
Qed.

Lemma conversions_spare_other_files_witness :
  files (convertAnimatedWebPToMP4 [Byte.x01] busyTranscoder).2
    !! "temp/input_1699999999999.webp" = Some [Byte.x09].
Proof.
  destruct (proj1 (proj1 (conversions_spare_other_files [Byte.x01] false
                            "temp/input_1699999999999.webp" busyTranscoder) eq_refl)
              eq_refl)
    as (Hfiles & _); [ discriminate | discriminate | ].
  etrans; [ exact Hfiles | vm_compute; reflexivity ].
Defined.

Lemma transcoded_projections (inputFile outputFile command : string) (buffer : Buffer)
    (w : World) :
  let w' := transcoded inputFile outputFile command buffer w in
  env w' = env w ∧ groupId w' = groupId w
  ∧ calls w' = calls w ++ [DateNow; DateNow; ExecSync command]
  ∧ length (calls w') = S (S (S (length (calls w)))).
Proof.
  destruct (prepared_projections w) as (_ & _ & He & Hc & Hl).
  unfold transcoded, prepared in *. cbn [env groupId calls log_call set_files] in *.
  rewrite length_snoc, Hl, Hc, He, <- app_assoc.
  destruct (tempDir w); auto.
Qed.

(** X16: with the transcoder present, an animated sticker is never sent
    as a sticker.  It is converted first; the converted bytes go out as an
    animation, and the original bytes go out as a photo when the conversion
    throws or Telegram refuses the animation.  When the conversion may not
    even create its scratch directory, the photo is all that is sent. *)
Theorem forwardSticker_with_ffmpeg (m : WaMessage) (mediaBuffer : Buffer)
    (mediaOptions : SendOptions) (topicId : Z) (w : World) :
  stickerIsAnimated m = true →
  ffmpegAvailable w = true →
  let n := length (calls w) in
  let inputFile := scratchInput (now (env w) n) "webp" in
  let outputFile := scratchOutput (now (env w) (S n)) "mp4" in
  let command := mp4Command inputFile outputFile in
  let photo := SendPhoto (groupId w) mediaBuffer
                 (threadOnly topicId
                    (Some (JS.or_string (caption mediaOptions) "🎭 Sticker (as image)"))) in
  let r := forwardSticker m mediaBuffer mediaOptions topicId w in
  count_calls isSticker (calls r.2) = count_calls isSticker (calls w)
  ∧ (mkdirError w = None →
     match transcodedResult inputFile outputFile command mediaBuffer w with
     | Normal mp4Buffer =>
         let animation :=
           SendAnimation (groupId w) mp4Buffer
             (threadOnly topicId
                (Some (JS.or_string (caption mediaOptions) "🎭 Animated Sticker"))) in
         match reply (env w) (S (S (S n))) animation with
         | Resolved _ =>
             r.1 = Normal tt
             ∧ calls r.2 = calls w ++ [DateNow; DateNow; ExecSync command; animation]
         | Rejected _ =>
             calls r.2 = calls w ++ [DateNow; DateNow; ExecSync command; animation; photo]
         end
     | Thrown _ => calls r.2 = calls w ++ [DateNow; DateNow; ExecSync command; photo]
     end)
  ∧ (mkdirError w ≠ None → calls r.2 = calls w ++ [photo]).
Proof.
  intros Hanimated Hflag n inputFile outputFile command photo r.
  assert (Hcount : ∀ more, forallb (fun c => negb (isSticker c)) more = true →
            count_calls isSticker (calls w ++ more) = count_calls isSticker (calls w)).
  { intros more Hmore. rewrite count_calls_app.
    assert (count_calls isSticker more = 0%nat); [ | lia ].
    unfold count_calls. induction more as [|c more IH]; [ reflexivity | ].
    cbn [forallb] in Hmore. apply andb_prop in Hmore as [Hc' Hmore].
    cbn [List.filter]. destruct (isSticker c); [ discriminate | now apply IH ]. }
  assert (Hrefused : ∀ e, mkdirError w = Some e → calls r.2 = calls w ++ [photo]).
  { intros e Hdir.
    assert (Hconv : convertAnimatedWebPToMP4 mediaBuffer w = (Thrown e, w)).
    { unfold convertAnimatedWebPToMP4. unfold bind at 1. unfold get at 1.
      rewrite Hflag. cbn [negb]. now apply mkdir_refused. }
    subst r. unfold forwardSticker. run. rewrite Hanimated, Hflag. run. rewrite Hconv.
    run. fold n photo.
    destruct (reply (env w) n photo) as [sent|e3]; run; [ | reflexivity ].
    destruct (mapForReplies_run sent m (log_call photo w)) as (w' & -> & Hc' & _).
    run. now rewrite Hc'. }
  assert (Hran : mkdirError w = None →
            count_calls isSticker (calls r.2) = count_calls isSticker (calls w)
            ∧ match transcodedResult inputFile outputFile command mediaBuffer w with
              | Normal mp4Buffer =>
                  let animation :=
                    SendAnimation (groupId w) mp4Buffer
                      (threadOnly topicId
                         (Some (JS.or_string (caption mediaOptions) "🎭 Animated Sticker"))) in
                  match reply (env w) (S (S (S n))) animation with
                  | Resolved _ =>
                      r.1 = Normal tt
                      ∧ calls r.2 = calls w ++ [DateNow; DateNow; ExecSync command; animation]
                  | Rejected _ =>
                      calls r.2
                      = calls w ++ [DateNow; DateNow; ExecSync command; animation; photo]
                  end
              | Thrown _ => calls r.2 = calls w ++ [DateNow; DateNow; ExecSync command; photo]
              end).
  { intros Hdir.
    assert (Hconv : convertAnimatedWebPToMP4 mediaBuffer w
                    = (transcodedResult inputFile outputFile command mediaBuffer w,
                       transcoded inputFile outputFile command mediaBuffer w)).
    { rewrite (convertAnimatedWebPToMP4_run mediaBuffer w Hflag Hdir).
      apply rethrowing_conversion, scratch_paths_differ. }
    destruct (transcoded_projections inputFile outputFile command mediaBuffer w)
      as (He & Hg & Hc & Hl).
    set (w1 := transcoded inputFile outputFile command mediaBuffer w) in *.
    subst r. unfold forwardSticker. run. rewrite Hanimated, Hflag. run. rewrite Hconv.
    destruct (transcodedResult inputFile outputFile command mediaBuffer w) as [mp4Buffer|e1];
      run; rewrite ?He, ?Hg, ?Hl; fold n.
    - match goal with
      | |- context [ reply (env w) _ ?c ] => set (animation := c)
      end.
      destruct (reply (env w) (S (S (S n))) animation) as [sent|e2]; run.
      + destruct (mapForReplies_run sent m (log_call animation w1)) as (w' & -> & Hc' & _).
        run. rewrite Hc'. run. rewrite Hc, <- app_assoc. cbn [app].
        split; [ now apply Hcount | auto ].
      + rewrite ?He, ?Hg, ?length_snoc, ?Hl. fold n photo.
        destruct (reply (env w) (S (S (S (S n)))) photo) as [sent|e3]; run.
        * destruct (mapForReplies_run sent m (log_call photo (log_call animation w1)))
            as (w' & -> & Hc' & _).
          run. rewrite Hc'. run. rewrite Hc, <- !app_assoc. cbn [app].
          split; [ now apply Hcount | reflexivity ].
        * rewrite Hc, <- !app_assoc. cbn [app]. split; [ now apply Hcount | reflexivity ].
    - fold photo.
      destruct (reply (env w) (S (S (S n))) photo) as [sent|e3]; run.
      + destruct (mapForReplies_run sent m (log_call photo w1)) as (w' & -> & Hc' & _).
        run. rewrite Hc'. run. rewrite Hc, <- !app_assoc. cbn [app].
        split; [ now apply Hcount | reflexivity ].
      + rewrite Hc, <- !app_assoc. cbn [app]. split; [ now apply Hcount | reflexivity ]. }
  split; [ | split ].
  - destruct (mkdirError w) as [e|] eqn:Hdir.
    + rewrite (Hrefused e eq_refl). now apply Hcount.
    + now apply Hran.
  - intros Hdir. now apply Hran.
  - intros Hdir. destruct (mkdirError w) as [e|]; [ now apply (Hrefused e) | contradiction ].
Qed.

Lemma forwardSticker_with_ffmpeg_witness :
  calls (forwardSticker animatedSticker [Byte.x01] (threadOnly 7 None) 7
           (stickerTranscoder noUploads)).2
  = [DateNow; DateNow;
     ExecSync (mp4Command "temp/input_1700000000000.webp" "temp/output_1700000000001.mp4");
     SendAnimation (-1001234567890) [Byte.x02; Byte.x03]
       (threadOnly 7 (Some "🎭 Animated Sticker"));
     SendPhoto (-1001234567890) [Byte.x01] (threadOnly 7 (Some "🎭 Sticker (as image)"))].
Proof.
  exact (proj1 (proj2 (forwardSticker_with_ffmpeg animatedSticker [Byte.x01]
                         (threadOnly 7 None) 7 (stickerTranscoder noUploads)
                         eq_refl eq_refl)) eq_refl).
Defined.

(** ** The pinned info message *)

Lemma getUserInfo_run (whatsappNumber : string) (w : World) :
  ∃ info w1, getUserInfo whatsappNumber w = (Normal info, w1)
    ∧ env w1 = env w ∧ groupId w1 = groupId w ∧ pinnedMessages w1 = pinnedMessages w
    ∧ ∃ more, calls w1 = calls w ++ more
        ∧ count_calls isSendMessage more = 0%nat ∧ count_calls isPin more = 0%nat.
Proof.
  unfold getUserInfo. run. destruct (whatsappBot w); run.
  - do 2 eexists. split; [ reflexivity | ]. run. repeat (split; [ reflexivity | ]).
    eexists. rewrite <- app_assoc. split; [ reflexivity | ]. split; reflexivity.
  - do 2 eexists. split; [ reflexivity | ]. repeat (split; [ reflexivity | ]).
    exists []. rewrite app_nil_r. repeat split.
Qed.

(** The info message sent at the end of trace [before] and a pin request
    behind it, both accepted, make the message pinned during a step that
    started with a trace no longer than [before]. *)
Lemma infoPinned_intro (topicId messageId : Z) (w w' : World) (before between after : list Call)
    (infoText : string) (silent : bool) (v : option Z) :
  let send := SendMessage (groupId w) infoText (infoOptions topicId) in
  let pin := PinChatMessage (groupId w) messageId silent in
  (length (calls w) ≤ length before)%nat →
  calls w' = before ++ send :: between ++ pin :: after →
  reply (env w) (length before) send = Resolved (Some messageId) →
  reply (env w) (S (length before + length between)) pin = Resolved v →
  infoPinned topicId messageId w w'.
Proof.
  intros send pin Hlen Hcalls Hsend Hpin.
  exists (length before), (S (length before + length between)), infoText, silent, v.
  split; [ exact Hlen | ]. split; [ lia | ].
  rewrite Hcalls. split; [ now apply list_lookup_middle | ]. split; [ exact Hsend | ].
  split; [ | exact Hpin ].
  change (before ++ send :: between ++ pin :: after)
    with (before ++ (send :: between) ++ pin :: after).
  rewrite app_assoc. apply list_lookup_middle.
  rewrite length_app. cbn [length]. lia.
Qed.

(** X17: [createAndPinUserInfo] never throws and does nothing for a topic
    that is marked as pinned.  Otherwise it sends at most one message and
    asks at most twice for a pin, and it marks the topic only with the id
    of an info message that this call sent into the topic and that Telegram
    then agreed to pin when this call asked; no other topic's marker
    changes. *)
Theorem createAndPinUserInfo_marks_pinned (topicId : Z) (contactName whatsappNumber : string)
    (w : World) :
  let r := createAndPinUserInfo topicId contactName whatsappNumber w in
  r.1 = Normal tt
  ∧ (JS.truthy_opt JS.truthy_number (pinnedMessages w !! topicId) = true → r.2 = w)
  ∧ pinStep topicId w r.2
  ∧ ∃ more, calls r.2 = calls w ++ more
      ∧ (count_calls isSendMessage more ≤ 1)%nat ∧ (count_calls isPin more ≤ 2)%nat.
Proof.
  intros r. split; [ apply createAndPinUserInfo_returns | ].
  subst r. unfold createAndPinUserInfo, pinStep. run.
  destruct (JS.truthy_opt JS.truthy_number (pinnedMessages w !! topicId)) eqn:Hpinned; run.
  { split; [ reflexivity | ]. split; [ now left | ].
    exists []. rewrite app_nil_r. split; [ reflexivity | cbv; lia ]. }
  split; [ discriminate | ].
  destruct (getUserInfo_run whatsappNumber w)
    as (info & w1 & -> & He & Hg & Hp & more & Hc & Hsends & Hpins).
  run. rewrite He.
  set (send := SendMessage (groupId w) (userInfoText contactName whatsappNumber info)
                 (infoOptions topicId)).
  assert (Hcount : ∀ rest, (count_calls isSendMessage rest ≤ 1)%nat →
            (count_calls isPin rest ≤ 2)%nat →
            ∃ all, calls w1 ++ rest = calls w ++ all
                   ∧ (count_calls isSendMessage all ≤ 1)%nat
                   ∧ (count_calls isPin all ≤ 2)%nat).
  { intros rest Hs Hq. exists (more ++ rest). rewrite Hc, app_assoc, !count_calls_app.
    split; [ reflexivity | lia ]. }
  assert (Hlen : (length (calls w) ≤ length (calls w1))%nat).
  { rewrite Hc, length_app. lia. }
  clear Hc Hsends Hpins.
  destruct (reply (env w) (length (calls w1)) send) as [[messageId|]|e] eqn:Hsend; run;
    rewrite ?Hp;
    try (split; [ now left | ]; apply (Hcount [send]); cbv; lia).
  destruct (JS.truthy_number messageId) eqn:Hid; run; rewrite ?Hp;
    try (split; [ now left | ]; apply (Hcount [send]); cbv; lia).
  rewrite He, length_snoc.
  set (pin := PinChatMessage (groupId w) messageId true).
  set (alt := PinChatMessage (groupId w) messageId false).
  destruct (reply (env w) (S (length (calls w1))) pin) as [v|e1] eqn:Hpin; run;
    rewrite ?Hp, ?He, ?length_snoc.
  - split.
    + right. exists messageId. split; [ exact Hid | ]. split; [ reflexivity | ].
      apply (infoPinned_intro topicId messageId w _ (calls w1) [] []
               (userInfoText contactName whatsappNumber info) true v Hlen).
      * run. now rewrite <- app_assoc.
      * exact Hsend.
      * cbn [length]. now rewrite Nat.add_0_r.
    + rewrite <- !app_assoc. apply (Hcount [send; pin]); cbv; lia.
  - destruct (reply (env w) (S (S (length (calls w1)))) alt) as [v|e2] eqn:Halt; run;
      rewrite ?Hp.
    + split.
      * right. exists messageId. split; [ exact Hid | ]. split; [ reflexivity | ].
        apply (infoPinned_intro topicId messageId w _ (calls w1) [pin] []
                 (userInfoText contactName whatsappNumber info) false v Hlen).
        -- run. now rewrite <- !app_assoc.
        -- exact Hsend.
        -- cbn [length]. now rewrite Nat.add_1_r.
      * rewrite <- !app_assoc. apply (Hcount [send; pin; alt]); cbv; lia.
    + split; [ now left | ].
      rewrite <- !app_assoc. apply (Hcount [send; pin; alt]); cbv; lia.
Qed.

(** X18: [createAndPinGroupInfo] never throws and does nothing for a topic
    that is marked as pinned.  Otherwise it sends at most one message and
    asks once for a pin, with no second attempt, and it marks the topic
    only with the id of an info message that this call sent into the topic
    and that Telegram then agreed to pin when this call asked. *)
Theorem createAndPinGroupInfo_marks_pinned (topicId : Z) (groupName groupIdentifier : string)
    (w : World) :
  let r := createAndPinGroupInfo topicId groupName groupIdentifier w in
  r.1 = Normal tt
  ∧ (JS.truthy_opt JS.truthy_number (pinnedMessages w !! topicId) = true → r.2 = w)
  ∧ pinStep topicId w r.2
  ∧ ∃ more, calls r.2 = calls w ++ more
      ∧ (count_calls isSendMessage more ≤ 1)%nat ∧ (count_calls isPin more ≤ 1)%nat.
Proof.
  intros r. split; [ apply createAndPinGroupInfo_returns | ].
  subst r. unfold createAndPinGroupInfo, pinStep. run.
  destruct (JS.truthy_opt JS.truthy_number (pinnedMessages w !! topicId)) eqn:Hpinned; run.
  { split; [ reflexivity | ]. split; [ now left | ].
    exists []. rewrite app_nil_r. split; [ reflexivity | cbv; lia ]. }
  split; [ discriminate | ].
  set (send := SendMessage (groupId w) (groupInfoText groupName groupIdentifier)
                 (infoOptions topicId)).
  destruct (reply (env w) (length (calls w)) send) as [[messageId|]|e] eqn:Hsend; run;
    try (split; [ now left | ]; exists [send]; split; [ reflexivity | cbv; lia ]).
  destruct (JS.truthy_number messageId) eqn:Hid; run;
    try (split; [ now left | ]; exists [send]; split; [ reflexivity | cbv; lia ]).
  rewrite length_snoc.
  set (pin := PinChatMessage (groupId w) messageId true).
  destruct (reply (env w) (S (length (calls w))) pin) as [v|e1] eqn:Hpin; run.
  - split.
    + right. exists messageId. split; [ exact Hid | ]. split; [ reflexivity | ].
      apply (infoPinned_intro topicId messageId w _ (calls w) [] []
               (groupInfoText groupName groupIdentifier) true v (le_n _)).
      * run. now rewrite <- app_assoc.
      * exact Hsend.
      * cbn [length]. now rewrite Nat.add_0_r.
    + exists [send; pin]. rewrite <- app_assoc. split; [ reflexivity | cbv; lia ].
  - split; [ now left | ].
    exists [send; pin]. rewrite <- app_assoc. split; [ reflexivity | cbv; lia ].
Qed.

(** ** Identifiers and reply addresses *)

Lemma append_nil_r (s : string) : s +:+ EmptyString = s.
Proof. induction s as [|c s IH]; [ reflexivity | ]. change (String c (s +:+ EmptyString) = String c s). now rewrite IH. Qed.

Lemma substring_all (s : string) : String.substring 0 (String.length s) s = s.
Proof. induction s as [|c s IH]; [ reflexivity | ]. cbn [String.length String.substring]. now rewrite IH. Qed.

Lemma prefix_append (p s : string) : String.prefix p (p +:+ s) = true.
Proof.
  induction p as [|c p IH]; [ now destruct s | ].
  change (String.prefix (String c p) (String c (p +:+ s)) = true).
  cbn [String.prefix]. destruct (ascii_dec c c); [ exact IH | contradiction ].
Qed.

Lemma substring_append (p s : string) :
  String.substring (String.length p) (String.length (p +:+ s) - String.length p) (p +:+ s) = s.
Proof.
  induction p as [|c p IH].
  - change (EmptyString +:+ s) with s. cbn [String.length]. rewrite Nat.sub_0_r. apply substring_all.
  - change (String c p +:+ s) with (String c (p +:+ s)).
    cbn [String.length String.substring Nat.sub]. exact IH.
Qed.

(** Removing a pattern that the string starts with leaves the rest. *)
Lemma remove_first_prefix (p s : string) : JS.remove_first p (p +:+ s) = s.
Proof.
  destruct (p +:+ s) as [|c rest] eqn:E.
  - destruct p; [ | discriminate E ]. change (EmptyString +:+ s) with s in E. now subst s.
  - cbn [JS.remove_first]. rewrite <- E, prefix_append. apply substring_append.
Qed.

(** Removing a suffix that starts with a character the rest does not
    hold. *)
Lemma remove_first_suffix (c : ascii) (p s : string) :
  allChars (fun x => negb (Ascii.eqb x c)) s = true →
  JS.remove_first (String c p) (s +:+ String c p) = s.
Proof.
  induction s as [|x s IH]; intros Hs.
  - change (EmptyString +:+ String c p) with (String c p).
    rewrite <- (append_nil_r (String c p)) at 2. apply remove_first_prefix.
  - cbn [allChars] in Hs. apply andb_prop in Hs as [Hx Hs].
    change (String x s +:+ String c p) with (String x (s +:+ String c p)).
    cbn [JS.remove_first String.prefix].
    destruct (ascii_dec c x) as [->|_].
    + now rewrite Ascii.eqb_refl in Hx.
    + now rewrite IH.
Qed.

(** X19: a reply in the topic of a group chat goes back to that chat.
    For a chat address [g@g.us] whose [g] holds no ['@'], the address
    derived from the identifier that [forwardToTelegram] gives the chat is
    the chat address again. *)
Theorem group_reply_returns_to_chat (m : WaMessage) (g : string) :
  m_chat m = g +:+ "@g.us" →
  allChars (fun c => negb (isAt c)) g = true →
  groupIdentifierOf m = "group_" +:+ g
  ∧ whatsappJidOf (groupIdentifierOf m) = m_chat m.
Proof.
  intros Hchat Hg.
  assert (Hid : groupIdentifierOf m = "group_" +:+ g).
  { unfold groupIdentifierOf. rewrite Hchat.
    now rewrite (remove_first_suffix "@"%char "g.us" g Hg). }
  split; [ exact Hid | ].
  rewrite Hid, Hchat. unfold whatsappJidOf, JS.startsWith.
  now rewrite prefix_append, remove_first_prefix.
Qed.

Lemma group_reply_returns_to_chat_witness :
  whatsappJidOf (groupIdentifierOf (fromGroup "120363025246125486@g.us"))
  = "120363025246125486@g.us".
Proof.
  exact (proj2 (group_reply_returns_to_chat (fromGroup "120363025246125486@g.us")
                  "120363025246125486" eq_refl eq_refl)).
Defined.

Lemma allChars_impl (p q : ascii → bool) (s : string) :
  (∀ c, p c = true → q c = true) → allChars p s = true → allChars q s = true.
Proof.
  intros Hpq. induction s as [|c s IH]; [ reflexivity | ].
  cbn [allChars]. intros H. apply andb_prop in H as [Hc Hs].
  now rewrite (Hpq c Hc), IH.
Qed.

Lemma keepDigitsAndPlus_id (s : string) :
  allChars (fun c => isDigit c || isPlus c) s = true → keepDigitsAndPlus s = s.
Proof.
  induction s as [|c s IH]; [ reflexivity | ].
  cbn [allChars keepDigitsAndPlus]. intros H. apply andb_prop in H as [-> Hs].
  now rewrite IH.
Qed.

Lemma beforeAt_append (s rest : string) :
  allChars (fun c => negb (isAt c)) s = true →
  beforeAt (s +:+ String "@"%char rest) = s.
Proof.
  unfold beforeAt. induction s as [|c s IH]; intros Hs.
  - reflexivity.
  - cbn [allChars] in Hs. apply andb_prop in Hs as [Hc Hs].
    change (String c s +:+ String "@"%char rest) with (String c (s +:+ String "@"%char rest)).
    cbn [JS.split]. unfold isAt in Hc. destruct (Ascii.eqb c "@"); [ discriminate | ].
    specialize (IH Hs).
    destruct (JS.split "@" (s +:+ String "@"%char rest)) as [|hd tl]; [ now subst s | ].
    now subst hd.
Qed.

(** X20: the topic of an individual chat never answers into a group.
    Whatever the sender address is, the identifier derived from it does not
    start with [group_], so a reply is addressed to
    [identifier@s.whatsapp.net]; and when the sender address is
    [digits@s.whatsapp.net], that is the sender address itself. *)
Theorem individual_reply_returns_to_sender (m : WaMessage) :
  whatsappJidOf (whatsappNumberOf m) = whatsappNumberOf m +:+ "@s.whatsapp.net"
  ∧ ∀ digits, m_sender_user m = None →
      m_sender m = digits +:+ "@s.whatsapp.net" →
      allChars isDigit digits = true →
      whatsappJidOf (whatsappNumberOf m) = m_sender m.
Proof.
  assert (Hnogroup : ∀ s, allChars (fun c => isDigit c || isPlus c) s = true →
            JS.startsWith "group_" s = false).
  { intros [|c s] Hs; [ reflexivity | ].
    cbn [allChars] in Hs. apply andb_prop in Hs as [Hc _].
    unfold JS.startsWith. cbn [String.prefix].
    destruct (ascii_dec "g" c) as [<-|_]; [ discriminate Hc | reflexivity ]. }
  assert (Hchars : allChars (fun c => isDigit c || isPlus c) (whatsappNumberOf m) = true).
  { unfold whatsappNumberOf.
    set (kept := keepDigitsAndPlus _).
    pose proof (keepDigitsAndPlus_chars
                  (JS.or_string (m_sender_user m) (beforeAt (m_sender m)))) as Hkept.
    fold kept in Hkept.
    destruct (JS.startsWith "+" kept); [ | exact Hkept ].
    destruct kept as [|c rest]; [ reflexivity | ].
    cbn [allChars dropFirst] in *. now apply andb_prop in Hkept as [_ Hrest]. }
  assert (Hjid : whatsappJidOf (whatsappNumberOf m)
                 = whatsappNumberOf m +:+ "@s.whatsapp.net").
  { unfold whatsappJidOf. now rewrite (Hnogroup _ Hchars). }
  split; [ exact Hjid | ].
  intros digits Huser Hsender Hdigits. rewrite Hjid, Hsender. f_equal.
  unfold whatsappNumberOf. rewrite Huser, Hsender. cbn [JS.or_string].
  rewrite (beforeAt_append digits "s.whatsapp.net").
  - rewrite keepDigitsAndPlus_id.
    + destruct digits as [|c rest]; [ reflexivity | ].
      cbn [allChars] in Hdigits. apply andb_prop in Hdigits as [Hc _].
      unfold JS.startsWith. cbn [String.prefix].
      destruct (ascii_dec "+" c) as [<-|_]; [ discriminate Hc | reflexivity ].
    + revert Hdigits. apply allChars_impl. intros c ->. reflexivity.
  - revert Hdigits. apply allChars_impl. intros c Hc. unfold isAt.
    destruct (Ascii.eqb_spec c "@") as [->|_]; [ discriminate Hc | reflexivity ].
Qed.

Lemma individual_reply_returns_to_sender_witness :
  whatsappJidOf (whatsappNumberOf (fromSender "15551234567@s.whatsapp.net"))
  = "15551234567@s.whatsapp.net".
Proof.
  exact (proj2 (individual_reply_returns_to_sender (fromSender "15551234567@s.whatsapp.net"))
           "15551234567" eq_refl eq_refl eq_refl).
Defined.

(** ** Confirmations *)

(** X21: [sendConfirmation] never throws and gives at most one signal.
    It always asks for the reaction first; the text message is sent only
    when that request was refused and the configuration asks for
    confirmation messages, as a reply to the message in its own thread.
    With the reaction refused and the option off the user gets nothing. *)
Theorem sendConfirmation_signals_once (sendConfirmationFlag : bool) (msg : TgMessage)
    (success : bool) (w : World) :
  let reaction := SetMessageReaction (chat_id msg) (message_id msg)
                    (if success then "✅" else "❌") in
  let fallback := SendMessage (chat_id msg) (confirmationText success)
                    (confirmationOptions msg) in
  let r := sendConfirmation sendConfirmationFlag msg success w in
  r.1 = Normal tt
  ∧ r.2 = match reply (env w) (length (calls w)) reaction with
          | Resolved _ => log_call reaction w
          | Rejected _ =>
              if sendConfirmationFlag then log_call fallback (log_call reaction w)
              else log_call reaction w
          end.
Proof.
  intros reaction fallback r. subst r. unfold sendConfirmation, setReaction. run.
  fold reaction.
  destruct (reply (env w) (length (calls w)) reaction); run; [ now split | ].
  destruct sendConfirmationFlag; run; [ | now split ].
  fold fallback. now destruct (reply (env w) _ fallback).
Qed.

(** ** The special topics *)

Lemma pretty_N_go_digits (x : N) (s : string) :
  allChars isDigit s = true → allChars isDigit (pretty_N_go x s) = true.
Proof.
  revert s. induction (N.lt_wf_0 x) as [x _ IH]. intros s Hs.
  destruct (N.eq_dec x 0%N) as [->|Hx]; [ now rewrite pretty_N_go_0 | ].
  rewrite pretty_N_go_step by lia. apply IH.
  - apply N.div_lt; lia.
  - cbn [allChars]. rewrite Hs, andb_true_r.
    unfold pretty_N_char. repeat case_match; reflexivity.
Qed.

Lemma pretty_N_digits (x : N) : allChars isDigit (pretty x) = true.
Proof.
  unfold pretty, pretty_N.
  destruct (decide (x = 0%N)); [ reflexivity | now apply pretty_N_go_digits ].
Qed.

Lemma split_plain (sep : ascii) (s : string) :
  allChars (fun c => negb (Ascii.eqb c sep)) s = true → JS.split sep s = [s].
Proof.
  induction s as [|c s IH]; [ reflexivity | ].
  cbn [allChars JS.split]. intros H. apply andb_prop in H as [Hc Hs].
  destruct (Ascii.eqb c sep); [ discriminate | ]. now rewrite IH.
Qed.

Lemma split_once (sep : ascii) (a b : string) :
  allChars (fun c => negb (Ascii.eqb c sep)) a = true →
  allChars (fun c => negb (Ascii.eqb c sep)) b = true →
  JS.split sep (a +:+ String sep b) = [a; b].
Proof.
  intros Ha Hb. induction a as [|c a IH].
  - change (EmptyString +:+ String sep b) with (String sep b). cbn [JS.split].
    now rewrite Ascii.eqb_refl, split_plain.
  - cbn [allChars] in Ha. apply andb_prop in Ha as [Hc Ha].
    change (String c a +:+ String sep b) with (String c (a +:+ String sep b)).
    cbn [JS.split]. destruct (Ascii.eqb c sep); [ discriminate | ]. now rewrite IH.
Qed.

(** [run] for the code that assigns the special topics. *)
Ltac run_topics :=
  repeat progress
    (run;
     cbn [createTopics groupId telegramBot whatsappBot topicMapping reverseTopicMapping
          statusTopicId callTopicId contactsCache pinnedMessages statusMessageMapping
          chatMessageMapping ffmpegAvailable tempDir files env calls
          log_call set_statusTopicId set_callTopicId set_statusMessageMapping]).

Section SpecialTopicResults.

Variables (forwardMedia antiCall : bool).
Variable saveSpecialTopic : string → Z → M unit.
Variable sendVideo : Z → Buffer → SendOptions → M (option Z).
Variable sendDocument : Z → Buffer → SendOptions → string → M (option Z).
Variable trim : string → string.

(** X22: with the call topic in place, [forwardCallToTelegram] makes
    exactly one call, the call log sent into that topic: no thread is
    requested, nothing is saved, no state changes, and a refusal of
    Telegram is not raised. *)
Theorem forwardCallToTelegram_logs_once (callData : CallData) (topic : Z) (w : World) :
  telegramBot w = true →
  JS.truthy_number (groupId w) = true →
  callTopicId w = Some topic → JS.truthy_number topic = true →
  forwardCallToTelegram true antiCall saveSpecialTopic callData w
  = (Normal tt,
     log_call (SendMessage (groupId w) (callText antiCall callData) (infoOptions topic)) w).
Proof.
  intros Hbot Hgroup Htopic Htruthy. unfold forwardCallToTelegram. run.
  rewrite Hbot, Hgroup, Htopic. run. rewrite Htruthy. run. rewrite Htopic, Htruthy. run.
  now destruct (reply (env w) _ _).
Qed.

Hypothesis save_outside : ∀ kind id w, (saveSpecialTopic kind id w).2 = w.

(** What [createCallTopic] does once Telegram has created thread [t]. *)
Lemma createCallTopic_created (t : Z) (w : World) :
  createTopics w = true → telegramBot w = true →
  let create := CreateForumTopic (groupId w) "📞 Call Logs" 0xff0000 in
  let info := SendMessage (groupId w) callInfoText (infoOptions t) in
  let w1 := set_callTopicId (Some t) (log_call create w) in
  reply (env w) (length (calls w)) create = Resolved (Some t) →
  JS.truthy_number t = true →
  createCallTopic saveSpecialTopic w
  = match (saveSpecialTopic "call" t w1).1 with
    | Normal _ =>
        (match reply (env w) (S (length (calls w))) info with
         | Resolved _ => Normal (Some t)
         | Rejected _ => Normal None
         end, log_call info w1)
    | Thrown _ => (Normal None, w1)
    end.
Proof.
  intros Hc Hb create info w1 Hcreate Ht. unfold createCallTopic. run.
  rewrite Hc, Hb. run. fold create. rewrite Hcreate. run. rewrite Ht. run. fold w1.
  pose proof (save_outside "call" t w1) as Hsave.
  destruct (saveSpecialTopic "call" t w1) as [[[]|e] w2]; cbn [fst snd] in *; subst w2;
    [ | reflexivity ].
  subst w1. run_topics. rewrite length_snoc. fold info.
  now destruct (reply (env w) (S (length (calls w))) info).
Qed.

(** X23: a call is logged even when the call topic cannot be saved.
    [createCallTopic] records the new thread before it saves it, so when
    Telegram creates the thread, [forwardCallToTelegram] sends the call log
    into it whatever the database and the info message do: after the
    creation request comes the info message, only when the save succeeded,
    and then the call log. *)
Theorem call_log_survives_failed_save (callData : CallData) (t : Z) (w : World) :
  createTopics w = true → telegramBot w = true →
  JS.truthy_number (groupId w) = true →
  JS.truthy_opt JS.truthy_number (callTopicId w) = false →
  let create := CreateForumTopic (groupId w) "📞 Call Logs" 0xff0000 in
  let info := SendMessage (groupId w) callInfoText (infoOptions t) in
  let log := SendMessage (groupId w) (callText antiCall callData) (infoOptions t) in
  reply (env w) (length (calls w)) create = Resolved (Some t) →
  JS.truthy_number t = true →
  let r := forwardCallToTelegram true antiCall saveSpecialTopic callData w in
  r.1 = Normal tt
  ∧ callTopicId r.2 = Some t
  ∧ calls r.2
    = calls w
      ++ create
         :: match (saveSpecialTopic "call" t
                     (set_callTopicId (Some t) (log_call create w))).1 with
            | Normal _ => [info; log]
            | Thrown _ => [log]
            end.
Proof.
  intros Hc Hb Hgroup Hnone create info log Hcreate Ht r.
  set (w1 := set_callTopicId (Some t) (log_call create w)).
  assert (Hr : r = (Normal tt,
                    match (saveSpecialTopic "call" t w1).1 with
                    | Normal _ => log_call log (log_call info w1)
                    | Thrown _ => log_call log w1
                    end)).
  { subst r. unfold forwardCallToTelegram. run. rewrite Hb, Hgroup, Hnone. run.
    rewrite (createCallTopic_created t w Hc Hb Hcreate Ht). fold create info w1.
    destruct (saveSpecialTopic "call" t w1).1.
    - destruct (reply (env w) (S (length (calls w))) info); subst w1; run_topics;
        rewrite Ht; run_topics; fold log; now destruct (reply (env w) _ log).
    - subst w1. run_topics. rewrite Ht. run_topics. fold log.
      now destruct (reply (env w) _ log). }
  rewrite Hr. cbn [fst snd]. split; [ reflexivity | ].
  destruct (saveSpecialTopic "call" t w1).1; subst w1; run_topics;
    rewrite <- !app_assoc; auto.
Qed.

(** X24: [createStatusTopic] records the thread as soon as Telegram has
    created it, before saving it and before the info message: the status
    topic is set whatever those two do, and the function answers with the
    thread only when both succeeded.  When Telegram creates no thread,
    nothing is recorded and nothing else is requested. *)
Theorem createStatusTopic_records_first (w : World) :
  createTopics w = true → telegramBot w = true →
  let create := CreateForumTopic (groupId w) "📱 Status Updates" 0x00ff00 in
  let r := createStatusTopic saveSpecialTopic w in
  match reply (env w) (length (calls w)) create with
  | Resolved (Some t) =>
      if JS.truthy_number t then
        let w1 := set_statusTopicId (Some t) (log_call create w) in
        let info := SendMessage (groupId w) statusInfoText (infoOptions t) in
        statusTopicId r.2 = Some t
        ∧ r.1 = match (saveSpecialTopic "status" t w1).1,
                      reply (env w) (S (length (calls w))) info with
                | Normal _, Resolved _ => Normal (Some t)
                | _, _ => Normal None
                end
      else r = (Normal None, log_call create w)
  | _ => r = (Normal None, log_call create w)
  end.
Proof.
  intros Hc Hb create r. subst r. unfold createStatusTopic. run.
  rewrite Hc, Hb. run. fold create.
  destruct (reply (env w) (length (calls w)) create) as [[t|]|e]; run; try reflexivity.
  destruct (JS.truthy_number t); run; [ | reflexivity ].
  pose proof (save_outside "status" t (set_statusTopicId (Some t) (log_call create w)))
    as Hsave.
  destruct (saveSpecialTopic "status" t (set_statusTopicId (Some t) (log_call create w)))
    as [[[]|e] w2]; cbn [fst snd] in *; subst w2; run_topics; [ | now split ].
  rewrite length_snoc.
  now destruct (reply (env w) (S (length (calls w))) _).
Qed.

(** X25: a status with neither caption nor media is not forwarded.  All
    that [forwardStatusToTelegram] may do for it is create the status topic
    when there is none; with the topic in place it does nothing at all.
    Nothing is recorded for replies, and nothing is raised. *)
Theorem status_without_content_skipped (enabled : bool) (statusData : StatusData) (w : World) :
  JS.truthy_opt JS.truthy_string (s_caption statusData) = false →
  s_media statusData = None →
  let r := forwardStatusToTelegram enabled forwardMedia saveSpecialTopic sendVideo
             sendDocument trim statusData w in
  r.1 = Normal tt
  ∧ statusMessageMapping r.2 = statusMessageMapping w
  ∧ r.2 = (if enabled && telegramBot w && JS.truthy_number (groupId w)
              && negb (JS.truthy_opt JS.truthy_number (statusTopicId w))
           then (createStatusTopic saveSpecialTopic w).2
           else w).
Proof.
  intros Hcaption Hmedia r.
  assert (Hcreate : statusMessageMapping (createStatusTopic saveSpecialTopic w).2
                    = statusMessageMapping w).
  { unfold createStatusTopic. run. destruct (negb (createTopics w) || negb (telegramBot w));
      [ reflexivity | ].
    run. destruct (reply (env w) (length (calls w)) _) as [[t|]|e]; run; try reflexivity.
    destruct (JS.truthy_number t); run; [ | reflexivity ].
    match goal with
    | |- context [ saveSpecialTopic ?k ?i ?w0 ] =>
        pose proof (save_outside k i w0) as Hsave;
        destruct (saveSpecialTopic k i w0) as [[[]|e] w2]
    end; cbn [fst snd] in *; subst w2; run_topics; [ | reflexivity ].
    now destruct (reply _ _ _). }
  subst r. unfold forwardStatusToTelegram. run.
  destruct enabled, (telegramBot w), (JS.truthy_number (groupId w)); run;
    try (repeat split; reflexivity).
  destruct (JS.truthy_opt JS.truthy_number (statusTopicId w)) eqn:Htopic; run.
  - destruct (statusTopicId w) as [topic|]; [ | discriminate Htopic ].
    cbn [JS.truthy_opt] in Htopic. rewrite Htopic, Hcaption, Hmedia. run. now repeat split.
  - revert Hcreate.
    destruct (createStatusTopic saveSpecialTopic w) as [[created|e] w1]; run; intros Hcreate.
    + destruct (statusTopicId w1) as [topic|]; [ | now repeat split ].
      destruct (JS.truthy_number topic); run; [ | now repeat split ].
      rewrite Hcaption, Hmedia. run. now repeat split.
    + now repeat split.
Qed.

(** X26: a reply to a forwarded text status reaches its author.  When
    [forwardStatusToTelegram] sends a status with a caption as text and
    Telegram answers with message [k], a later reply to [k] in the status
    topic sends a reaction to [number@s.whatsapp.net], the author of the
    status, for the status stamped with the clock value read when it was
    forwarded, provided the number holds no underscore. *)
Theorem status_reply_round_trip (relayToWhatsApp : string → TgMessage → M unit)
    (statusData : StatusData) (topic k : Z) (msg : TgMessage) (w : World) :
  telegramBot w = true → whatsappBot w = true →
  JS.truthy_number (groupId w) = true →
  statusTopicId w = Some topic → JS.truthy_number topic = true →
  (s_media statusData = None ∨ forwardMedia = false) →
  hasCaption trim statusData = true →
  allChars (fun c => negb (isUnderscore c)) (s_number statusData) = true →
  let n := length (calls w) in
  let sent := SendMessage (groupId w)
                (statusHeading statusData +:+ nl +:+ nl
                 +:+ JS.or_string (s_caption statusData) EmptyString)
                (infoOptions topic) in
  reply (env w) (S n) sent = Resolved (Some k) → JS.truthy_number k = true →
  chat_id msg = groupId w → from_is_bot msg = false →
  thread_id msg = Some topic → reply_to_message msg = Some k →
  let w' := (forwardStatusToTelegram true forwardMedia saveSpecialTopic sendVideo
               sendDocument trim statusData w).2 in
  let statusJid := s_number statusData +:+ "@s.whatsapp.net" in
  let emoji := JS.charAt0 (JS.or_string (text msg) (JS.or_string (msg_caption msg) "👍")) in
  let reaction := WhatsAppSend statusJid
                    (WaReact emoji statusJid ("status_" +:+ pretty (now (env w) n))) in
  calls w' = calls w ++ [DateNow; sent]
  ∧ ∃ ack, (handleTelegramMessage relayToWhatsApp msg w').2
           = log_call (SetMessageReaction (chat_id msg) (message_id msg) ack)
               (log_call reaction w').
Proof.
  intros Hb Hwa Hgroup Htopic Htruthy Htextual Hcaption Hnumber n sent Hsent Hk
    Hchat Hbot Hthread Hreply w' statusJid emoji reaction.
  set (statusId := s_number statusData +:+ "_" +:+ pretty (now (env w) n)).
  assert (Hw' : w' = set_statusMessageMapping <[k := statusId]>
                       (log_call sent (log_call DateNow w))).
  { subst w'. unfold forwardStatusToTelegram. run.
    rewrite Hb, Hgroup, Htopic. run. rewrite Htruthy. run. rewrite Htopic, Htruthy. run.
    assert (Hhas : JS.truthy_opt JS.truthy_string (s_caption statusData) = true).
    { unfold hasCaption in Hcaption. destruct (s_caption statusData) as [c|];
        [ | discriminate ]. cbn [JS.truthy_opt]. now apply andb_prop in Hcaption as [-> _]. }
    rewrite Hhas. run.
    assert (Htext : ∀ w0, env w0 = env w → groupId w0 = groupId w →
              calls w0 = calls w ++ [DateNow] →
              (forwardStatusText trim statusData topic statusId w0).2
              = set_statusMessageMapping <[k := statusId]> (log_call sent w0)).
    { intros w0 He Hg Hc. unfold forwardStatusText, mapStatus. run. rewrite Hcaption. run.
      rewrite He, Hg, Hc, length_snoc. fold n sent. rewrite Hsent. run. now rewrite Hk. }
    fold n statusId.
    destruct Htextual as [-> | ->]; [ | destruct (s_media statusData) ];
      match goal with
      | |- context [ forwardStatusText trim statusData topic statusId ?w0 ] =>
          specialize (Htext w0 eq_refl eq_refl eq_refl);
          destruct (forwardStatusText trim statusData topic statusId w0) as [[[]|e] w2]
      end; exact Htext. }
  split; [ rewrite Hw'; run_topics; now rewrite <- app_assoc | ].
  assert (Hparts : JS.split "_"%char statusId
                   = [s_number statusData; pretty (now (env w) n)]).
  { apply split_once; [ exact Hnumber | ].
    generalize (pretty_N_digits (now (env w) n)). apply allChars_impl.
    intros c Hc. destruct (Ascii.eqb_spec c "_") as [->|_]; [ discriminate Hc | reflexivity ]. }
  clearbody w'. subst w'.
  unfold handleTelegramMessage. run_topics.
  rewrite Hchat, Z.eqb_refl, Hbot, Hthread. run_topics. rewrite Htruthy. run_topics.
  rewrite Htopic, bool_decide_eq_true_2 by reflexivity.
  rewrite Hreply. cbn [mbind option_bind]. rewrite lookup_insert_eq.
  unfold truthy_or_null.
  assert (Hid : JS.truthy_string statusId = true).
  { subst statusId. destruct (s_number statusData); reflexivity. }
  rewrite Hid. unfold reactToStatus, setReaction. run_topics. rewrite Hwa, Hparts.
  cbn [nth]. fold statusJid emoji reaction. rewrite ?Hchat.
  match goal with
  | |- context [ reply ?E ?K reaction ] => destruct (reply E K reaction)
  end; run_topics;
    match goal with
    | |- context [ reply ?E ?K (SetMessageReaction ?c ?i ?a) ] =>
        exists a; now destruct (reply E K (SetMessageReaction c i a))
    end.
Qed.

End SpecialTopicResults.

Lemma forwardCallToTelegram_logs_once_witness :
  let w := specialTopicsWorld (Some 5) (Some 6) (noNewThreads "ETELEGRAM: 400 Bad Request") in
  forwardCallToTelegram true false databaseDown answeredCall w
  = (Normal tt,
     log_call (SendMessage (groupId w) (callText false answeredCall) (infoOptions 6)) w).
Proof.
  intros w.
  apply (forwardCallToTelegram_logs_once false databaseDown answeredCall 6 w); reflexivity.
Defined.

Lemma call_log_survives_failed_save_witness :
  let w := specialTopicsWorld None None friendlyEnv in
  let r := forwardCallToTelegram true false databaseDown answeredCall w in
  callTopicId r.2 = Some 100
  ∧ calls r.2
    = [CreateForumTopic (groupId w) "📞 Call Logs" 0xff0000;
       SendMessage (groupId w) (callText false answeredCall) (infoOptions 100)].
Proof.
  intros w r.
  destruct (call_log_survives_failed_save false databaseDown (fun _ _ _ => eq_refl)
              answeredCall 100 w eq_refl eq_refl eq_refl eq_refl eq_refl eq_refl)
    as (_ & Htopic & Hcalls).
  split; assumption.
Defined.

Lemma createStatusTopic_records_first_witness :
  let w := specialTopicsWorld None None friendlyEnv in
  let r := createStatusTopic databaseDown w in
  statusTopicId r.2 = Some 100 ∧ r.1 = Normal None.
Proof.
  intros w r.
  exact (createStatusTopic_records_first databaseDown (fun _ _ _ => eq_refl) w
           eq_refl eq_refl).
Defined.

Lemma status_without_content_skipped_witness :
  let w := specialTopicsWorld (Some 5) None friendlyEnv in
  forwardStatusToTelegram true true databaseDown noUpload noDocument keepText emptyStatus w
  = (Normal tt, w).
Proof.
  intros w.
  destruct (status_without_content_skipped true databaseDown noUpload noDocument keepText
              (fun _ _ _ => eq_refl) true emptyStatus w eq_refl eq_refl)
    as (Hreturns & _ & Hworld).
  rewrite (surjective_pairing (forwardStatusToTelegram _ _ _ _ _ _ _ _)).
  now rewrite Hreturns, Hworld.
Defined.

Lemma status_reply_round_trip_witness :
  let w := specialTopicsWorld (Some 5) None whatsappDown in
  let w' := (forwardStatusToTelegram true true databaseDown noUpload noDocument keepText
               textStatus w).2 in
  let jid := "15551234567@s.whatsapp.net" in
  ∃ ack,
    (handleTelegramMessage (fun _ _ => ret tt)
       (mkTgMessage (-1001234567890) false 903 (Some 5) (Some 501) (Some "wow") None) w').2
    = log_call (SetMessageReaction (-1001234567890) 903 ack)
        (log_call (WhatsAppSend jid (WaReact "w" jid "status_1700000000000")) w').
Proof.
  intros w w' jid.
  exact (proj2 (status_reply_round_trip true databaseDown noUpload noDocument keepText
                  (fun _ _ => ret tt) textStatus 5 501
                  (mkTgMessage (-1001234567890) false 903 (Some 5) (Some 501) (Some "wow") None)
                  w eq_refl eq_refl eq_refl eq_refl eq_refl (or_introl eq_refl) eq_refl
                  eq_refl eq_refl eq_refl eq_refl eq_refl eq_refl eq_refl)).
Defined.

(** ** The text stage of [forwardToTelegram] *)

Section ForwardToTelegramResults.

Variable trim : string → string.
Variable forwardAttachments : WaInbound → Z → string → string → M unit.

Lemma groupMessageText_truthy (m : WaInbound) :
  JS.truthy_string (groupMessageText trim m) = true.
Proof.
  unfold groupMessageText. destruct (hasBody trim m); [ | destruct (hasMediaType m) ];
    reflexivity.
Qed.

(** X27: a group message whose topic cannot be resolved is still sent.
    When [getOrCreateTopic] answers [null], the line that names the sender
    goes to the group without a thread id, once and with no retry; the
    message is then dropped: nothing is saved and its attachments are not
    forwarded. *)
Theorem group_message_without_topic (m : WaInbound) (w : World) :
  telegramBot w = true → JS.truthy_number (groupId w) = true →
  m_isGroup m = true →
  let resolved := getOrCreateTopic (groupIdentifierOf (wa m)) (groupDisplayName (wa m)) w in
  resolved.1 = Normal None →
  let send := SendMessage (groupId w) (groupMessageText trim m) (textOptions None) in
  let r := forwardToTelegram true trim forwardAttachments m w in
  r.1 = Normal tt ∧ calls r.2 = calls resolved.2 ++ [send].
Proof.
  intros Hbot Hgroup Hisgroup resolved Hnone send r.
  pose proof (extends_getOrCreateTopic (groupIdentifierOf (wa m)) (groupDisplayName (wa m)) w)
    as [_ Hg _ _ _].
  fold resolved in Hg.
  assert (Hr : ∃ w', r = (Normal tt, w') ∧ calls w' = calls resolved.2 ++ [send]).
  { subst r. unfold forwardToTelegram. run. rewrite Hbot, Hgroup, Hisgroup. run.
    fold resolved. destruct resolved as [c w0]. cbn [fst snd] in *. subst c. run.
    rewrite groupMessageText_truthy.
    unfold sendText, withRetry, sendToTelegramWithRetry. run. rewrite Hg. fold send.
    destruct (reply (env w0) (length (calls w0)) send) as [sent|e]; run.
    - destruct (mapForReplies_run sent (wa m) (log_call send w0)) as (w' & -> & Hc & _).
      run. eauto.
    - eauto. }
  destruct Hr as (w' & -> & Hcalls). auto.
Qed.

(** X28: attachments are forwarded only after the message was saved.
    For a message of an individual chat that has a topic and no text to
    send, [forwardToTelegram] saves the chat, then the message, and only
    then forwards the attachments; when either save is refused it stops
    there, without raising, and the attachments are dropped. *)
Theorem unsaved_message_drops_attachments (m : WaInbound) (topic : Z) (w : World) :
  createTopics w = true → telegramBot w = true → JS.truthy_number (groupId w) = true →
  m_isGroup m = false → hasBody trim m = false →
  let identifier := whatsappNumberOf (wa m) in
  let displayName := contactNameOf trim (wa m) in
  topicMapping w !! identifier = Some topic → JS.truthy_number topic = true →
  let saveUser := SaveUser (m_sender (wa m)) (Some displayName) identifier in
  let saveMessage := SaveMessage (m_id (wa m)) (m_sender (wa m)) (m_chat (wa m))
                       (JS.or_string (m_body m) "Media message")
                       (JS.or_string (m_type m) "text") in
  let n := length (calls w) in
  let r := forwardToTelegram true trim forwardAttachments m w in
  r.1 = Normal tt
  ∧ r.2 = match reply (env w) n saveUser with
          | Rejected _ => log_call saveUser w
          | Resolved _ =>
              match reply (env w) (S n) saveMessage with
              | Rejected _ => log_call saveMessage (log_call saveUser w)
              | Resolved _ =>
                  (forwardAttachments m topic identifier displayName
                     (log_call saveMessage (log_call saveUser w))).2
              end
          end.
Proof.
  intros Hc Hbot Hgroup Hindividual Hbody identifier displayName Hmapped Htopic
    saveUser saveMessage n r.
  subst r. unfold forwardToTelegram. run. rewrite Hbot, Hgroup, Hindividual. run.
  fold identifier displayName.
  rewrite (getOrCreateTopic_mapped identifier displayName topic w Hc Hbot Hmapped Htopic).
  run. rewrite Hbody. run. rewrite Htopic. run. fold saveUser n.
  destruct (reply (env w) n saveUser); run; [ | now split ].
  rewrite length_snoc. fold saveMessage n.
  destruct (reply (env w) (S n) saveMessage); run; [ | now split ].
  now destruct (forwardAttachments m topic identifier displayName _) as [[[]|e] w'].
Qed.

End ForwardToTelegramResults.

Lemma group_message_without_topic_witness :
  let w := startWorld false false friendlyEnv in
  calls (forwardToTelegram true keepText uploadPicture groupPicture w).2
  = [SendMessage (groupId w) "👤 **Ann**: _sent media_" (textOptions None)].
Proof.
  intros w.
  exact (proj2 (group_message_without_topic keepText uploadPicture groupPicture w
                  eq_refl eq_refl eq_refl eq_refl)).
Defined.

Lemma unsaved_message_drops_attachments_witness :
  let w := set_reverseTopicMapping <[7 := "15551234567"]>
             (set_topicMapping <["15551234567" := 7]> (startWorld true false readOnlyDatabase)) in
  calls (forwardToTelegram true keepText uploadPicture picture w).2
  = [SaveUser "15551234567@s.whatsapp.net" (Some "Ann") "15551234567"].
Proof.
  intros w.
  destruct (unsaved_message_drops_attachments keepText uploadPicture picture 7 w
              eq_refl eq_refl eq_refl eq_refl eq_refl eq_refl eq_refl) as (_ & Hworld).
  rewrite Hworld. reflexivity.
Defined.
